(** * System_Spec_Analyzer: the metrics collector, embedded and verified

    A shallow embedding of [SystemInfoWorker] from
    [src/system_spec_analyzer.py]: the collector [gather_system_info], its
    helpers [get_motherboard_info], [get_memory_capabilities],
    [get_storage_capabilities], [get_gpu_info], the thread body [run], and
    the battery card of [MainWindow.update_specs]; then the rest of what the
    window does with a snapshot that can be told apart from Qt: the slots
    of [LoadingWidget], the rectangles of [MiniGraph.paintEvent], and the
    rows and titles that [MainWindow.update_specs] computes for the
    processor, storage, network and temperature cards.

    Conventions of the embedding:
    - a Python [dict] with string keys is the snapshot [info], a
      [gmap string value]; nested dicts keep their insertion order as
      association lists inside [value];
    - Python [float]s are exact rationals ([Q]); every float the claims
      compare is a byte count divided by a power of two or a small integer,
      for which the comparison on rationals and on doubles agree;
    - a Python [str] is a [string], the sequence of its bytes, with the
      functions of Python on ASCII text; where the code counts characters
      ([len] and slices of a name that may hold any character), the
      embedding takes the sequence of the code points;
    - every query of the operating system (psutil, platform, socket, os,
      subprocess, cpuinfo, GPUtil) is a field of the record [Host] holding
      an [outcome]: the value returned or the exception raised;
    - statements run in the monad [M]: a frame (the locals of
      [gather_system_info] that outlive an exception, and the signals and
      calls observed so far) is threaded through, and an exception leaves
      the frame as the statements before it made it. *)

From Stdlib Require Import ZArith QArith Qround List String Ascii Bool Lia.
From Stdlib Require Import DecimalString DecimalZ.
From stdpp Require Import base gmap strings list.
From Stdlib Require Import Lqa.

Local Open Scope string_scope.
Local Open Scope Z_scope.

Set Warnings "-register-all".

(** ** Python strings *)

Module Str.

(** A string is the sequence of its bytes, and the functions of this
    module are those of Python on ASCII text. On other text Python does
    more: [str.lower] maps every cased character and [str.split] knows
    more blanks, and [len] and slices count characters, not bytes. *)

(** The characters [str.split()] and [str.strip()] treat as blank. *)
Definition is_space (c : ascii) : bool :=
  let n := nat_of_ascii c in
  ((9 <=? n)%nat && (n <=? 13)%nat) || ((28 <=? n)%nat && (n <=? 32)%nat).

Definition lower_ascii (c : ascii) : ascii :=
  let n := nat_of_ascii c in
  if ((65 <=? n)%nat && (n <=? 90)%nat) then ascii_of_nat (n + 32) else c.

(** [s.lower()] *)
Fixpoint lower (s : string) : string :=
  match s with
  | EmptyString => EmptyString
  | String c s' => String (lower_ascii c) (lower s')
  end.

(** [s.startswith(p)] *)
Definition startswith (p s : string) : bool := String.prefix p s.

(** [needle in hay] *)
Fixpoint contains (needle hay : string) : bool :=
  String.prefix needle hay ||
  match hay with
  | EmptyString => false
  | String _ hay' => contains needle hay'
  end.

(** [s.split()]: the maximal runs of non-blank characters. [cur] is the
    run being read, if any. *)
Fixpoint split_ws_from (cur : option string) (s : string) : list string :=
  match s with
  | EmptyString => match cur with Some w => [w] | None => [] end
  | String c s' =>
      if is_space c then
        match cur with
        | Some w => w :: split_ws_from None s'
        | None => split_ws_from None s'
        end
      else
        split_ws_from
          (Some (match cur with Some w => w +:+ String c "" | None => String c "" end)) s'
  end.

Definition split_ws (s : string) : list string := split_ws_from None s.

(** [sep.join(l)] *)
Fixpoint join (sep : string) (l : list string) : string :=
  match l with
  | [] => ""
  | [x] => x
  | x :: l' => x +:+ sep +:+ join sep l'
  end.

(** [s.replace(old, new)] for a non-empty [old]: occurrences are found
    left to right and do not overlap; [skip] counts the characters of the
    occurrence just replaced that are still to be dropped. *)
Fixpoint replace_from (old new : string) (skip : nat) (s : string) : string :=
  match s with
  | EmptyString => EmptyString
  | String c s' =>
      match skip with
      | S k => replace_from old new k s'
      | O =>
          if String.prefix old s
          then new +:+ replace_from old new (String.length old - 1) s'
          else String c (replace_from old new 0 s')
      end
  end.

Definition replace (old new s : string) : string := replace_from old new 0 s.

Fixpoint lstrip (s : string) : string :=
  match s with
  | EmptyString => EmptyString
  | String c s' => if is_space c then lstrip s' else s
  end.

Fixpoint rstrip (s : string) : string :=
  match s with
  | EmptyString => EmptyString
  | String c s' =>
      match rstrip s' with
      | EmptyString => if is_space c then EmptyString else String c EmptyString
      | r => String c r
      end
  end.

(** [s.strip()] *)
Definition strip (s : string) : string := rstrip (lstrip s).

(** [s.split(sep)] for a non-empty [sep]; [cur] is the piece being read. *)
Fixpoint split_from (sep : string) (skip : nat) (cur : string) (s : string)
  : list string :=
  match s with
  | EmptyString => [cur]
  | String c s' =>
      match skip with
      | S k => split_from sep k cur s'
      | O =>
          if String.prefix sep s
          then cur :: split_from sep (String.length sep - 1) "" s'
          else split_from sep 0 (cur +:+ String c "") s'
      end
  end.

Definition split (sep s : string) : list string := split_from sep 0 "" s.

(** [s.split(sep, 1)]: cut at the first occurrence only. *)
Fixpoint split1_from (sep : string) (cur : string) (s : string) : list string :=
  match s with
  | EmptyString => [cur]
  | String c s' =>
      if String.prefix sep s
      then [cur; String.substring (String.length sep) (String.length s) s]
      else split1_from sep (cur +:+ String c "") s'
  end.

Definition split1 (sep s : string) : list string := split1_from sep "" s.

(** [str(n)] for an [int] *)
Definition of_Z (n : Z) : string := NilZero.string_of_int (Z.to_int n).

(** [f"{n:02d}"] *)
Definition of_Z_02d (n : Z) : string :=
  if (0 <=? n) && (n <? 10) then "0" +:+ of_Z n else of_Z n.

End Str.

(** ** Python values *)

Inductive value :=
| VNone
| VBool (b : bool)
| VInt (n : Z)
| VFloat (x : Q)
| VStr (s : string)
| VList (l : list value)
| VDict (d : list (string * value)).

(** Truth value of an object in a condition. *)
Definition truthy (v : value) : bool :=
  match v with
  | VNone => false
  | VBool b => b
  | VInt n => negb (n =? 0)
  | VFloat x => negb (Qeq_bool x 0)
  | VStr s => negb (String.eqb s "")
  | VList l => match l with [] => false | _ => true end
  | VDict d => match d with [] => false | _ => true end
  end.

Definition of_option {A} (f : A -> value) (o : option A) : value :=
  match o with Some a => f a | None => VNone end.

(** Nested dicts: association lists in insertion order. *)
Module Dict.

Fixpoint get (k : string) (d : list (string * value)) : option value :=
  match d with
  | [] => None
  | (k', v) :: d' => if String.eqb k k' then Some v else get k d'
  end.

(** [d[k] = v]: an existing key keeps its place, a new one goes last. *)
Fixpoint set (k : string) (v : value) (d : list (string * value))
  : list (string * value) :=
  match d with
  | [] => [(k, v)]
  | (k', v') :: d' =>
      if String.eqb k k' then (k, v) :: d' else (k', v') :: set k v d'
  end.

(** [d.get(k, default)] *)
Definition get_default (k : string) (default : value) (d : list (string * value))
  : value :=
  match get k d with Some v => v | None => default end.

End Dict.

(** [a / b] on Python numbers read as rationals; [b] is not zero. *)
Definition fdiv (a b : Q) : Q := Qred (a / b).
Definition fmul (a b : Q) : Q := Qred (a * b).
Definition of_int (n : Z) : Q := inject_Z n.

Definition GiB : Q := of_int (1024 ^ 3).
Definition MiB : Q := of_int (1024 ^ 2).

(** [round(x, 2)] on the rationals: the nearest hundredth, ties to the
    even one. Python rounds a double and returns the double nearest to the
    hundredth, so that its result can differ from this one in the last
    place, and at a tie of the decimal notation that the double does not
    hit ([round(2.675, 2)] is 2.67). Nothing is proved from the digits of
    a rounded value. *)
Definition round_half_even (x : Q) : Z :=
  let fl := Qfloor x in
  let r := Qminus x (of_int fl) in
  match Qcompare r (1 # 2) with
  | Lt => fl
  | Gt => fl + 1
  | Eq => if Z.even fl then fl else fl + 1
  end.

Definition round2 (x : Q) : Q := Qred (Qmake (round_half_even (Qmult x (of_int 100))) 100).

(** ** Exceptions and the statement monad *)

Inductive exn :=
| PermissionError
| FileNotFoundError
| OSError
| TimeoutExpired
| ZeroDivisionError
| KeyError
| AttributeError
| TypeError
| OverflowError
| RuntimeError.

(** [isinstance(e, OSError)]: what [except (PermissionError, OSError)]
    catches. *)
Definition is_OSError (e : exn) : bool :=
  match e with
  | PermissionError | FileNotFoundError | OSError => true
  | _ => false
  end.

Inductive outcome (A : Type) :=
| Returns (a : A)
| Raises (e : exn).
Arguments Returns {A} a.
Arguments Raises {A} e.

(** The queries the collector makes of its host. *)
Inductive query :=
| q_platform_system | q_platform_release | q_platform_version
| q_win32_edition | q_platform_architecture | q_gethostname
| q_platform_machine | q_getlogin
| q_boot_time | q_time | q_fromtimestamp
| q_wmic_baseboard | q_dmidecode
| q_get_cpu_info | q_platform_processor | q_cpu_count_physical
| q_cpu_count_logical | q_cpu_freq | q_cpu_percent | q_cpu_percent_percpu
| q_cpu_times
| q_virtual_memory | q_swap_memory
| q_disk_partitions | q_disk_usage (mountpoint : string) | q_disk_io_counters
| q_getGPUs | q_wmic_videocontroller | q_lspci
| q_net_if_addrs | q_net_if_stats | q_net_io_counters_pernic
| q_net_io_counters
| q_sensors_battery
| q_sensors_temperatures
| q_sensors_fans
| q_pids | q_process_iter (pass : nat)
| q_getloadavg.

(** What an observer of one run sees: the two Qt signals, the pauses and
    the host queries, in order. *)
Inductive event :=
| progress_update (message : string) (percent : Z)
| info_ready (snapshot : gmap string value)
| slept (seconds : Q)
| called (q : query).

(** The frame of [gather_system_info]: the dict [info], the local
    [total_storage] (assigned inside a [try] and read after it), and what
    has been observed so far. *)
Record frame := {
  info : gmap string value;
  total_storage : Z;
  trace : list event
}.

Definition M (A : Type) : Type := frame -> outcome A * frame.

Definition ret {A} (a : A) : M A := fun s => (Returns a, s).

Definition bind {A B} (m : M A) (k : A -> M B) : M B :=
  fun s =>
    match m s with
    | (Returns a, s') => k a s'
    | (Raises e, s') => (Raises e, s')
    end.

Definition raise {A} (e : exn) : M A := fun s => (Raises e, s).

(** [try: body  except: handler] *)
Definition try_except {A} (body : M A) (handler : M A) : M A :=
  fun s =>
    match body s with
    | (Returns a, s') => (Returns a, s')
    | (Raises _, s') => handler s'
    end.

(** [try: body  except (PermissionError, OSError): handler] *)
Definition try_except_OSError {A} (body : M A) (handler : M A) : M A :=
  fun s =>
    match body s with
    | (Returns a, s') => (Returns a, s')
    | (Raises e, s') => if is_OSError e then handler s' else (Raises e, s')
    end.

Notation "'let*' x ':=' m 'in' k" := (bind m (fun x => k))
  (at level 10, x name, m at level 100, k at level 200).
Notation "m '>>' k" := (bind m (fun _ => k))
  (at level 100, k at level 200, right associativity).

Definition observe (e : event) : M unit :=
  fun s => (Returns tt,
            {| info := info s; total_storage := total_storage s;
               trace := trace s ++ [e] |}).

(** [self.progress_update.emit(message, percent)] *)
Definition emit_progress (message : string) (percent : Z) : M unit :=
  observe (progress_update message percent).

(** [time.sleep(seconds)] *)
Definition time_sleep (seconds : Q) : M unit := observe (slept seconds).

(** A host query: it is observed, then returns or raises as the host
    decides. *)
Definition call {A} (q : query) (o : outcome A) : M A :=
  fun s => (o, {| info := info s; total_storage := total_storage s;
                  trace := trace s ++ [called q] |}).

(** [info[k] = v] *)
Definition set_item (k : string) (v : value) : M unit :=
  fun s => (Returns tt,
            {| info := <[k := v]> (info s); total_storage := total_storage s;
               trace := trace s |}).

(** [info[k]] *)
Definition get_item (k : string) : M value :=
  fun s => match info s !! k with
           | Some v => (Returns v, s)
           | None => (Raises KeyError, s)
           end.

(** [info.get(k, default)] *)
Definition get_item_default (k : string) (default : value) : M value :=
  fun s => (Returns (match info s !! k with Some v => v | None => default end), s).

(** [info[k].append(v)] *)
Definition append_item (k : string) (v : value) : M unit :=
  let* l := get_item k in
  match l with
  | VList l => set_item k (VList (l ++ [v]))
  | _ => raise AttributeError
  end.

(** The local [total_storage]. *)
Definition set_total_storage (n : Z) : M unit :=
  fun s => (Returns tt,
            {| info := info s; total_storage := n; trace := trace s |}).

Definition get_total_storage : M Z :=
  fun s => (Returns (total_storage s), s).

(** [for x in l: body x] *)
Fixpoint for_each {A} (l : list A) (body : A -> M unit) : M unit :=
  match l with
  | [] => ret tt
  | x :: l' => body x >> for_each l' body
  end.

(** A [str] method applied to an object: [AttributeError] on anything
    that is not a [str]. *)
Definition as_str (v : value) : M string :=
  match v with
  | VStr s => ret s
  | _ => raise AttributeError
  end.

(** A number used in float arithmetic or ordered against an [int]. *)
Definition as_number (v : value) : M Q :=
  match v with
  | VFloat x => ret x
  | VInt n => ret (of_int n)
  | VBool b => ret (of_int (if b then 1 else 0))
  | _ => raise TypeError
  end.

(** ** The two capability heuristics *)

(** [get_memory_capabilities(current_ram_gb, cpu_vendor)]. The body is one
    [try] whose handler is [pass]: the only statement that can fail is
    [cpu_vendor.lower()] on a vendor that is not a [str], after the tier
    has been written. *)
Definition get_memory_capabilities (current_ram_gb : Q) (cpu_vendor : value)
  : list (string * value) :=
  let capabilities :=
    [("max_capacity_gb", VStr "Unknown"); ("memory_type", VStr "Unknown");
     ("max_speed", VStr "Unknown"); ("slots_estimated", VStr "Unknown")] in
  let tier (cap ty speed slots : string) :=
    Dict.set "slots_estimated" (VStr slots)
      (Dict.set "max_speed" (VStr speed)
         (Dict.set "memory_type" (VStr ty)
            (Dict.set "max_capacity_gb" (VStr cap) capabilities))) in
  let capabilities :=
    if Qle_bool current_ram_gb (of_int 4) then
      tier "32 GB" "DDR4" "DDR4-3200" "2-4 slots"
    else if Qle_bool current_ram_gb (of_int 8) then
      tier "64 GB" "DDR4" "DDR4-3200" "2-4 slots"
    else if Qle_bool current_ram_gb (of_int 16) then
      tier "128 GB" "DDR4/DDR5" "DDR4-3600/DDR5-4800" "4 slots"
    else if Qle_bool current_ram_gb (of_int 32) then
      tier "256 GB" "DDR4/DDR5" "DDR5-5600" "4-8 slots"
    else
      tier "512+ GB" "DDR5/ECC" "DDR5-6400+" "8+ slots" in
  match cpu_vendor with
  | VStr vendor =>
      if Str.contains "intel" (Str.lower vendor) then
        if Qle_bool (of_int 16) current_ram_gb
        then Dict.set "memory_type" (VStr "DDR4/DDR5 (Intel)") capabilities
        else capabilities
      else if Str.contains "amd" (Str.lower vendor) then
        if Qle_bool (of_int 16) current_ram_gb
        then Dict.set "memory_type" (VStr "DDR4/DDR5 (AMD)") capabilities
        else capabilities
      else capabilities
  | _ => capabilities
  end.

(** [get_storage_capabilities(current_storage_gb)] *)
Definition get_storage_capabilities (current_storage_gb : Q)
  : list (string * value) :=
  let capabilities :=
    [("max_capacity", VStr "Unknown"); ("interface_types", VList []);
     ("max_drives", VStr "Unknown")] in
  let tier (cap : string) (ifaces : list string) (drives : string) :=
    Dict.set "max_drives" (VStr drives)
      (Dict.set "interface_types" (VList (map VStr ifaces))
         (Dict.set "max_capacity" (VStr cap) capabilities)) in
  if Qle_bool current_storage_gb (of_int 500) then
    tier "8-16 TB" ["SATA III"; "M.2 NVMe"] "2-4 drives"
  else if Qle_bool current_storage_gb (of_int 1000) then
    tier "16-32 TB" ["SATA III"; "M.2 NVMe"; "PCIe 4.0"] "4-6 drives"
  else if Qle_bool current_storage_gb (of_int 2000) then
    tier "32-64 TB" ["SATA III"; "M.2 NVMe"; "PCIe 4.0"; "U.2"] "6-8 drives"
  else
    tier "64+ TB" ["SATA III"; "M.2 NVMe"; "PCIe 5.0"; "U.2"; "Enterprise SAS"]
      "8+ drives".

(** ** Cleaning the processor name *)

(** [' '.join(s.split())] *)
Definition collapse_whitespace (s : string) : string :=
  Str.join " " (Str.split_ws s).

(** [s.replace('(R)', '').replace('(TM)', '').replace('(tm)', '').strip()] *)
Definition strip_marks (s : string) : string :=
  Str.strip (Str.replace "(tm)" "" (Str.replace "(TM)" "" (Str.replace "(R)" "" s))).

(** The two assignments to [info['processor']] composed. *)
Definition clean_processor_name (raw : string) : string :=
  strip_marks (collapse_whitespace raw).

(** ** The host *)

(** [subprocess.run(..., capture_output=True, text=True, timeout=...)] *)
Record completed_process := { returncode : Z; stdout : string }.

Record identity_host := {
  platform_release : outcome string;
  platform_version : outcome string;
  win32_edition : outcome (option string);
  platform_architecture : outcome string;   (* [platform.architecture()[0]] *)
  gethostname : outcome string;
  platform_machine : outcome string;
  getlogin : outcome string;
  environ_USERNAME : option string;
  environ_USER : option string
}.

Record uptime_host := {
  boot_time : outcome Q;
  time_now : outcome Q;
  (* [datetime.fromtimestamp(boot_time).strftime("%Y-%m-%d %H:%M:%S")],
     which reads the local time zone *)
  fromtimestamp_strftime : outcome string
}.

Record motherboard_host := {
  wmic_baseboard : outcome completed_process;
  dmidecode : outcome completed_process
}.

Record scpufreq := { freq_current : Q; freq_min : Q; freq_max : Q }.
Record scputimes := { cpu_user : Q; cpu_system : Q; cpu_idle : Q }.

Record processor_host := {
  get_cpu_info : outcome (list (string * value));
  platform_processor : outcome string;
  cpu_count_physical : outcome (option Z);
  cpu_count_logical : outcome (option Z);
  cpu_freq : outcome (option scpufreq);
  cpu_percent : outcome Q;
  cpu_percent_percpu : outcome (list Q);
  cpu_times : outcome scputimes
}.

Record svmem := {
  vm_total : Z; vm_used : Z; vm_available : Z; vm_free : Z; vm_percent : Q;
  vm_cached : option Z; vm_buffers : option Z
}.
Record sswap := { sw_total : Z; sw_used : Z; sw_free : Z; sw_percent : Q }.

Record memory_host := {
  virtual_memory : outcome svmem;
  swap_memory : outcome sswap
}.

Record sdiskpart := {
  device : string; mountpoint : string; fstype : string; opts : string
}.
Record sdiskusage := { du_total : Z; du_used : Z; du_free : Z }.
Record sdiskio := {
  read_bytes : Z; write_bytes : Z; read_count : Z; write_count : Z
}.

Record storage_host := {
  disk_partitions : outcome (list sdiskpart);
  disk_usage : string -> outcome sdiskusage;
  disk_io_counters : outcome (option (list (string * sdiskio)))
}.

Record gpu := {
  gpu_name : string; memoryTotal : Q; memoryUsed : Q; memoryFree : Q;
  gpu_load : Q; gpu_temperature : Q; gpu_uuid : string;
  gpu_driver : option string
}.

Record graphics_host := {
  getGPUs : outcome (list gpu);
  wmic_videocontroller : outcome completed_process;
  lspci : outcome completed_process
}.

Record snicaddr := {
  family : option string;      (* [str(addr.family)], when [addr] has one *)
  address : string;
  netmask : option string;
  broadcast : option string
}.
Record snicstats := { isup : bool; speed : Z; mtu : Z }.
Record snetio := {
  bytes_sent : Z; bytes_recv : Z; packets_sent : Z; packets_recv : Z;
  errin : Z; errout : Z; dropin : Z; dropout : Z
}.

Record network_host := {
  net_if_addrs : outcome (list (string * list snicaddr));
  net_if_stats : outcome (list (string * snicstats));
  net_io_counters_pernic : outcome (list (string * snetio));
  (* [psutil.net_io_counters()]: the totals of the whole system *)
  net_io_counters : outcome (option snetio)
}.

Record sbattery := {
  percent : Q; secsleft : Z; power_plugged : option bool
}.

Record shwtemp := {
  temp_label : string; temp_current : Q;
  temp_high : option Q; temp_critical : option Q
}.
Record sfan := { fan_label : string; fan_current : Z }.

Record process_host := {
  pids : outcome (list Z);
  (* the statuses seen by the first and by the second
     [psutil.process_iter(['status'])] *)
  process_iter_first : outcome (list (option string));
  process_iter_second : outcome (list (option string))
}.

Record Host := {
  platform_system : outcome string;
  HAS_CPUINFO : bool;
  HAS_GPUTIL : bool;
  has_getloadavg : bool;          (* [hasattr(psutil, 'getloadavg')] *)
  identity : identity_host;
  uptime : uptime_host;
  motherboard : motherboard_host;
  processor : processor_host;
  memory : memory_host;
  storage : storage_host;
  graphics : graphics_host;
  network : network_host;
  sensors_battery : outcome (option sbattery);
  sensors_temperatures : outcome (list (string * list shwtemp));
  sensors_fans : outcome (list (string * list sfan));
  processes : process_host;
  getloadavg : outcome (Q * Q * Q)
}.

(** psutil's constants. *)
Definition POWER_TIME_UNLIMITED : Z := -2.
Definition STATUS_RUNNING : string := "running".
Definition STATUS_SLEEPING : string := "sleeping".

Definition newline : string := String (ascii_of_nat 10) "".

(** [name in d] and [d[name]] on a dict of host records. *)
Fixpoint lookup_name {A} (name : string) (d : list (string * A)) : option A :=
  match d with
  | [] => None
  | (n, a) :: d' => if String.eqb name n then Some a else lookup_name name d'
  end.

(** [x or 'Unknown'] on a string. *)
Definition or_unknown (s : string) : string :=
  if String.eqb s "" then "Unknown" else s.

(** ** The collection steps, in source order *)

(** Operating system details (lines 44-72). *)
Definition collect_identity (system : outcome string) (h : identity_host)
  : M unit :=
  try_except
    (let* os_name := call q_platform_system system in
     set_item "os_name" (VStr os_name) >>
     let* release := call q_platform_release (platform_release h) in
     set_item "os_version" (VStr release) >>
     let* version := call q_platform_version (platform_version h) in
     set_item "os_build" (VStr version) >>
     let* sys := call q_platform_system system in
     (if String.eqb sys "Windows" then
        let* release := call q_platform_release (platform_release h) in
        set_item "os_full" (VStr ("Windows " +:+ release)) >>
        try_except
          (let* edition := call q_win32_edition (win32_edition h) in
           set_item "os_edition" (of_option VStr edition) >>
           let* edition := get_item "os_edition" in
           if truthy edition then
             let* full := get_item "os_full" in
             let* full := as_str full in
             let* edition := as_str edition in
             set_item "os_full" (VStr (full +:+ " " +:+ edition))
           else ret tt)
          (ret tt)
      else
        let* sys := call q_platform_system system in
        let* release := call q_platform_release (platform_release h) in
        set_item "os_full" (VStr (sys +:+ " " +:+ release))) >>
     let* arch := call q_platform_architecture (platform_architecture h) in
     set_item "os_architecture" (VStr arch) >>
     let* host := call q_gethostname (gethostname h) in
     set_item "hostname" (VStr host) >>
     let* machine := call q_platform_machine (platform_machine h) in
     set_item "machine_type" (VStr machine) >>
     try_except
       (let* user := call q_getlogin (getlogin h) in
        set_item "username" (VStr user))
       (set_item "username"
          (VStr (match environ_USERNAME h with
                 | Some u => u
                 | None => match environ_USER h with
                           | Some u => u
                           | None => "Unknown"
                           end
                 end))))
    (set_item "os_full" (VStr "Unknown OS") >>
     set_item "os_architecture" (VStr "Unknown") >>
     set_item "hostname" (VStr "Unknown") >>
     set_item "username" (VStr "Unknown")).

(** [timedelta(seconds=x)]: whole microseconds, split into days and the
    seconds of the last day; more than 999999999 days overflow. *)
Definition timedelta (seconds : Q) : M (Z * Z) :=
  let us := round_half_even (Qmult seconds (of_int 1000000)) in
  let days := us / 86400000000 in
  if (days <? -999999999) || (999999999 <? days) then raise OverflowError
  else ret (days, (us mod 86400000000) / 1000000).

(** System uptime and boot time (lines 77-88). *)
Definition collect_uptime (h : uptime_host) : M unit :=
  try_except
    (let* boot := call q_boot_time (boot_time h) in
     let* now := call q_time (time_now h) in
     let uptime_seconds := Qminus now boot in
     let* uptime_delta := timedelta uptime_seconds in
     let days := fst uptime_delta in
     let hours := snd uptime_delta / 3600 in
     let remainder := snd uptime_delta mod 3600 in
     let minutes := remainder / 60 in
     set_item "uptime"
       (VStr (Str.of_Z days +:+ " days, " +:+ Str.of_Z_02d hours +:+ ":"
              +:+ Str.of_Z_02d minutes)) >>
     let* stamp := call q_fromtimestamp (fromtimestamp_strftime h) in
     set_item "boot_time" (VStr stamp))
    (set_item "uptime" (VStr "Unknown") >>
     set_item "boot_time" (VStr "Unknown")).

(** The rows of [wmic baseboard ... /format:csv] after the header: the
    first row with five columns fills the record and ends the loop. *)
Fixpoint wmic_rows (lines : list string) (motherboard_info : list (string * value))
  : list (string * value) :=
  match lines with
  | [] => motherboard_info
  | line :: rest =>
      if negb (String.eqb (Str.strip line) "") && Str.contains "," line then
        let parts := Str.split "," line in
        if (5 <=? length parts)%nat then
          let field i := VStr (or_unknown (Str.strip (nth i parts ""))) in
          Dict.set "version" (field 4%nat)
            (Dict.set "serial" (field 3%nat)
               (Dict.set "product" (field 2%nat)
                  (Dict.set "manufacturer" (field 1%nat) motherboard_info)))
        else wmic_rows rest motherboard_info
      else wmic_rows rest motherboard_info
  end.

(** One line of [dmidecode -t baseboard]. *)
Definition dmidecode_line (motherboard_info : list (string * value)) (line : string)
  : list (string * value) :=
  let line := Str.strip line in
  let field := VStr (Str.strip (nth 1 (Str.split1 ":" line) "")) in
  if Str.contains "Manufacturer:" line then
    Dict.set "manufacturer" field motherboard_info
  else if Str.contains "Product Name:" line then
    Dict.set "product" field motherboard_info
  else if Str.contains "Version:" line then
    Dict.set "version" field motherboard_info
  else motherboard_info.

(** [get_motherboard_info] (lines 422-473). *)
Definition get_motherboard_info (system : outcome string) (h : motherboard_host)
  : M (list (string * value)) :=
  let motherboard_info :=
    [("manufacturer", VStr "Unknown"); ("product", VStr "Unknown");
     ("version", VStr "Unknown"); ("serial", VStr "Unknown")] in
  try_except
    (let* sys := call q_platform_system system in
     if String.eqb sys "Windows" then
       try_except
         (let* result := call q_wmic_baseboard (wmic_baseboard h) in
          if returncode result =? 0 then
            let lines := Str.split newline (Str.strip (stdout result)) in
            ret (wmic_rows (tl lines) motherboard_info)
          else ret motherboard_info)
         (ret motherboard_info)
     else
       let* sys := call q_platform_system system in
       if String.eqb sys "Linux" then
         try_except
           (let* result := call q_dmidecode (dmidecode h) in
            if returncode result =? 0 then
              let lines := Str.split newline (stdout result) in
              ret (fold_left dmidecode_line lines motherboard_info)
            else ret motherboard_info)
           (ret motherboard_info)
       else ret motherboard_info)
    (ret motherboard_info).

(** Motherboard information (line 93): the one step that is not under a
    [try] of [gather_system_info]. *)
Definition collect_motherboard (system : outcome string) (h : motherboard_host)
  : M unit :=
  let* motherboard_info := get_motherboard_info system h in
  set_item "motherboard" (VDict motherboard_info).

(** [x or 0] on a core count. *)
Definition or_zero (n : option Z) : Z :=
  match n with Some n => n | None => 0 end.

(** [f / 1000 if f else 0] on a frequency. *)
Definition ghz_or_zero (f : Q) : value :=
  if Qeq_bool f 0 then VInt 0 else VFloat (fdiv f (of_int 1000)).

(** Processor information (lines 98-156). The two [cpu_percent] queries
    are made with [interval=0.1] and return after it; the trace records
    the queries, and [interval] gives the time they wait. *)
Definition collect_processor (has_cpuinfo : bool) (h : processor_host) : M unit :=
  try_except
    ((if has_cpuinfo then
        let* cpu_info := call q_get_cpu_info (get_cpu_info h) in
        let* fallback := call q_platform_processor (platform_processor h) in
        set_item "processor" (Dict.get_default "brand_raw" (VStr fallback) cpu_info) >>
        set_item "cpu_vendor" (Dict.get_default "vendor_id_raw" (VStr "Unknown") cpu_info) >>
        set_item "cpu_family" (Dict.get_default "family" (VStr "Unknown") cpu_info) >>
        set_item "cpu_model" (Dict.get_default "model" (VStr "Unknown") cpu_info) >>
        set_item "cpu_stepping" (Dict.get_default "stepping" (VStr "Unknown") cpu_info) >>
        set_item "cpu_flags" (Dict.get_default "flags" (VList []) cpu_info) >>
        set_item "cpu_cache_l1" (Dict.get_default "l1_data_cache_size" (VStr "Unknown") cpu_info) >>
        set_item "cpu_cache_l2" (Dict.get_default "l2_cache_size" (VStr "Unknown") cpu_info) >>
        set_item "cpu_cache_l3" (Dict.get_default "l3_cache_size" (VStr "Unknown") cpu_info)
      else
        let* name := call q_platform_processor (platform_processor h) in
        set_item "processor" (VStr name) >>
        set_item "cpu_vendor" (VStr "Unknown") >>
        set_item "cpu_flags" (VList [])) >>
     (* Clean up processor name *)
     let* name := get_item "processor" in
     (if truthy name then
        let* raw := as_str name in
        set_item "processor" (VStr (collapse_whitespace raw)) >>
        let* name := get_item "processor" in
        let* collapsed := as_str name in
        set_item "processor" (VStr (strip_marks collapsed))
      else ret tt) >>
     let* physical := call q_cpu_count_physical (cpu_count_physical h) in
     set_item "cpu_cores_physical" (VInt (or_zero physical)) >>
     let* logical := call q_cpu_count_logical (cpu_count_logical h) in
     set_item "cpu_cores_logical" (VInt (or_zero logical)) >>
     try_except
       (let* freq := call q_cpu_freq (cpu_freq h) in
        match freq with
        | Some f =>
            set_item "cpu_freq_current" (VFloat (fdiv (freq_current f) (of_int 1000))) >>
            set_item "cpu_freq_max" (ghz_or_zero (freq_max f)) >>
            set_item "cpu_freq_min" (ghz_or_zero (freq_min f))
        | None =>
            set_item "cpu_freq_current" (VInt 0) >>
            set_item "cpu_freq_max" (VInt 0) >>
            set_item "cpu_freq_min" (VInt 0)
        end)
       (set_item "cpu_freq_current" (VInt 0) >>
        set_item "cpu_freq_max" (VInt 0) >>
        set_item "cpu_freq_min" (VInt 0)) >>
     let* usage := call q_cpu_percent (cpu_percent h) in
     set_item "cpu_usage" (VFloat usage) >>
     let* per_core := call q_cpu_percent_percpu (cpu_percent_percpu h) in
     set_item "cpu_usage_per_core" (VList (map VFloat per_core)) >>
     let* times := call q_cpu_times (cpu_times h) in
     set_item "cpu_times"
       (VDict [("user", VFloat (cpu_user times));
               ("system", VFloat (cpu_system times));
               ("idle", VFloat (cpu_idle times))]))
    (set_item "processor" (VStr "Unknown Processor") >>
     set_item "cpu_cores_physical" (VInt 0) >>
     set_item "cpu_cores_logical" (VInt 0) >>
     set_item "cpu_usage" (VInt 0) >>
     set_item "cpu_usage_per_core" (VList [])).

Definition gib (bytes : Z) : value := VFloat (fdiv (of_int bytes) GiB).
Definition mib (bytes : Z) : value := VFloat (fdiv (of_int bytes) MiB).

(** Memory information (lines 161-188). *)
Definition collect_memory (h : memory_host) : M unit :=
  try_except
    (let* mem := call q_virtual_memory (virtual_memory h) in
     set_item "ram_total_gb" (gib (vm_total mem)) >>
     set_item "ram_used_gb" (gib (vm_used mem)) >>
     set_item "ram_available_gb" (gib (vm_available mem)) >>
     set_item "ram_free_gb" (gib (vm_free mem)) >>
     set_item "ram_percent" (VFloat (vm_percent mem)) >>
     set_item "ram_cached_gb" (gib (or_zero (vm_cached mem))) >>
     set_item "ram_buffers_gb" (gib (or_zero (vm_buffers mem))) >>
     (* Estimate memory capabilities; [info['ram_total_gb']] is the float
        assigned seven statements above *)
     let* total := get_item "ram_total_gb" in
     let* vendor := get_item_default "cpu_vendor" (VStr "") in
     let* current_ram_gb := as_number total in
     set_item "memory_capabilities"
       (VDict (get_memory_capabilities current_ram_gb vendor)) >>
     let* swap := call q_swap_memory (swap_memory h) in
     set_item "swap_total_gb" (gib (sw_total swap)) >>
     set_item "swap_used_gb" (gib (sw_used swap)) >>
     set_item "swap_free_gb" (gib (sw_free swap)) >>
     set_item "swap_percent" (VFloat (sw_percent swap)))
    (set_item "ram_total_gb" (VInt 0) >>
     set_item "ram_used_gb" (VInt 0) >>
     set_item "ram_available_gb" (VInt 0) >>
     set_item "ram_percent" (VInt 0) >>
     set_item "swap_total_gb" (VInt 0) >>
     set_item "swap_used_gb" (VInt 0) >>
     set_item "swap_percent" (VInt 0) >>
     set_item "memory_capabilities" (VDict [])).

(** The first I/O counter whose disk name contains the device name
    (lines 213-222). *)
Fixpoint find_io_stats (device_name : string) (disk_io : list (string * sdiskio))
  : value :=
  match disk_io with
  | [] => VNone
  | (disk_name, stats) :: rest =>
      if Str.contains (Str.lower device_name) (Str.lower disk_name) then
        VDict [("read_bytes", gib (read_bytes stats));
               ("write_bytes", gib (write_bytes stats));
               ("read_count", VInt (read_count stats));
               ("write_count", VInt (write_count stats))]
      else find_io_stats device_name rest
  end.

(** [partition.device.startswith(('A:', 'B:')) or 'cdrom' in partition.opts] *)
Definition removable (partition : sdiskpart) : bool :=
  Str.startswith "A:" (device partition) || Str.startswith "B:" (device partition)
  || Str.contains "cdrom" (opts partition).

(** [(usage.used / usage.total) * 100] *)
Definition percent_used (usage : sdiskusage) : M value :=
  if du_total usage =? 0 then raise ZeroDivisionError
  else ret (VFloat (fmul (fdiv (of_int (du_used usage)) (of_int (du_total usage)))
                      (of_int 100))).

(** One turn of the loop over the partitions (lines 200-236); [continue]
    ends the turn. *)
Definition scan_partition (system : outcome string) (h : storage_host)
    (partition : sdiskpart) : M unit :=
  try_except_OSError
    (let* sys := call q_platform_system system in
     if String.eqb sys "Windows" && removable partition then ret tt
     else
       let* usage := call (q_disk_usage (mountpoint partition))
                       (disk_usage h (mountpoint partition)) in
       let* total := get_total_storage in
       set_total_storage (total + du_total usage) >>
       let* disk_io := call q_disk_io_counters (disk_io_counters h) in
       let* sys := call q_platform_system system in
       let device_name :=
         if String.eqb sys "Windows"
         then Str.replace "\" "" (Str.replace ":" "" (device partition))
         else List.last (Str.split "/" (device partition)) "" in
       let* disk_io :=
         match disk_io with
         | Some d => ret d
         | None => raise AttributeError   (* [None.items()] *)
         end in
       let io_stats := find_io_stats device_name disk_io in
       let* pct := percent_used usage in
       append_item "storage_devices"
         (VDict [("device", VStr (device partition));
                 ("mountpoint", VStr (mountpoint partition));
                 ("fstype", VStr (fstype partition));
                 ("total_gb", gib (du_total usage));
                 ("used_gb", gib (du_used usage));
                 ("free_gb", gib (du_free usage));
                 ("percent", pct);
                 ("io_stats", io_stats)]))
    (ret tt).

(** Storage information (lines 193-242). *)
Definition collect_storage (system : outcome string) (h : storage_host) : M unit :=
  set_item "storage_devices" (VList []) >>
  set_item "storage_capabilities" (VDict []) >>
  try_except
    (let* partitions := call q_disk_partitions (disk_partitions h) in
     set_total_storage 0 >>
     for_each partitions (scan_partition system h) >>
     let* total := get_total_storage in
     set_item "storage_capabilities"
       (VDict (get_storage_capabilities (fdiv (of_int total) GiB))))
    (ret tt).

(** The first line of [wmic path win32_VideoController get name] that
    names an adapter. *)
Fixpoint first_adapter_line (lines : list string) : option string :=
  match lines with
  | [] => None
  | line :: rest =>
      let line := Str.strip line in
      if negb (String.eqb line "") && negb (String.eqb line "Name")
         && negb (Str.contains "Microsoft" line)
      then Some line
      else first_adapter_line rest
  end.

(** The first display adapter in the output of [lspci]. *)
Fixpoint first_lspci_adapter (lines : list string) : option string :=
  match lines with
  | [] => None
  | line :: rest =>
      if Str.contains "VGA" line || Str.contains "Display" line then
        let parts := Str.split ": " line in
        if (1 <? length parts)%nat
        then Some (hd "" (Str.split " (" (nth 1 parts "")))
        else first_lspci_adapter rest
      else first_lspci_adapter rest
  end.

(** [get_gpu_info] (lines 555-580). *)
Definition get_gpu_info (system : outcome string) (h : graphics_host)
  : M (option string) :=
  try_except
    (let* sys := call q_platform_system system in
     if String.eqb sys "Windows" then
       let* result := call q_wmic_videocontroller (wmic_videocontroller h) in
       if returncode result =? 0
       then ret (first_adapter_line (Str.split newline (Str.strip (stdout result))))
       else ret None
     else
       let* sys := call q_platform_system system in
       if String.eqb sys "Linux" then
         let* result := call q_lspci (lspci h) in
         if returncode result =? 0
         then ret (first_lspci_adapter (Str.split newline (stdout result)))
         else ret None
       else ret None)
    (ret None).

Definition gpu_entry (g : gpu) : value :=
  VDict [("name", VStr (gpu_name g));
         ("memory_total", VFloat (memoryTotal g));
         ("memory_used", VFloat (memoryUsed g));
         ("memory_free", VFloat (memoryFree g));
         ("load", VFloat (fmul (gpu_load g) (of_int 100)));
         ("temperature", VFloat (gpu_temperature g));
         ("uuid", VStr (gpu_uuid g));
         ("driver_version",
          VStr (match gpu_driver g with Some d => d | None => "Unknown" end))].

(** Graphics information (lines 247-269). *)
Definition collect_graphics (system : outcome string) (has_gputil : bool)
    (h : graphics_host) : M unit :=
  set_item "gpu_devices" (VList []) >>
  try_except
    ((if has_gputil then
        let* gpus := call q_getGPUs (getGPUs h) in
        for_each gpus (fun g => append_item "gpu_devices" (gpu_entry g))
      else ret tt) >>
     (* Fallback GPU detection *)
     let* devices := get_item "gpu_devices" in
     if negb (truthy devices) then
       let* gpu_name := get_gpu_info system h in
       match gpu_name with
       | Some name =>
           if negb (String.eqb name "")
              && negb (String.eqb name "Unknown Graphics Card")
           then append_item "gpu_devices" (VDict [("name", VStr name)])
           else ret tt
       | None => ret tt
       end
     else ret tt)
    (ret tt).

(** [name.lower() in ['lo', 'loopback'] or 'virtual' in name.lower()] *)
Definition skipped_interface (name : string) : bool :=
  String.eqb (Str.lower name) "lo" || String.eqb (Str.lower name) "loopback"
  || Str.contains "virtual" (Str.lower name).

(** [interface_info['addresses'].append(v)] *)
Definition append_address (v : value) (interface_info : list (string * value))
  : list (string * value) :=
  match Dict.get "addresses" interface_info with
  | Some (VList l) => Dict.set "addresses" (VList (l ++ [v])) interface_info
  | _ => interface_info
  end.

Definition address_entry (addr : snicaddr) : value :=
  VDict [("type", VStr "IPv4");
         ("address", VStr (address addr));
         ("netmask", of_option VStr (netmask addr));
         ("broadcast", of_option VStr (broadcast addr))].

(** One turn of the loop over the addresses of an interface
    (lines 296-307). *)
Definition add_address (interface_info : list (string * value)) (addr : snicaddr)
  : list (string * value) :=
  match family addr with
  | Some family_str =>
      if Str.contains "AF_INET" family_str
         && negb (Str.startswith "127." (address addr))
      then append_address (address_entry addr) interface_info
      else if Str.contains "AF_LINK" family_str
              || Str.contains "AF_PACKET" family_str
      then Dict.set "mac_address" (VStr (address addr)) interface_info
      else interface_info
  | None => interface_info
  end.

Definition interface_io_stats (io : snetio) : value :=
  VDict [("bytes_sent", mib (bytes_sent io));
         ("bytes_recv", mib (bytes_recv io));
         ("packets_sent", VInt (packets_sent io));
         ("packets_recv", VInt (packets_recv io));
         ("errors_in", VInt (errin io));
         ("errors_out", VInt (errout io));
         ("drops_in", VInt (dropin io));
         ("drops_out", VInt (dropout io))].

(** The dict built for an interface that has statistics (lines 287-321). *)
Definition interface_entry (name : string) (st : snicstats)
    (addresses : list snicaddr) (io_counters : list (string * snetio))
  : list (string * value) :=
  let interface_info :=
    [("name", VStr name);
     ("is_up", VBool (isup st));
     ("speed", VInt (if 0 <? speed st then speed st else 0));
     ("mtu", VInt (mtu st));
     ("addresses", VList [])] in
  let interface_info := fold_left add_address addresses interface_info in
  match lookup_name name io_counters with
  | Some io => Dict.set "io_stats" (interface_io_stats io) interface_info
  | None => interface_info
  end.

(** One turn of the loop over the interfaces (lines 281-324). *)
Definition scan_interface (stats : list (string * snicstats))
    (io_counters : list (string * snetio))
    (interface : string * list snicaddr) : M unit :=
  let name := fst interface in
  let addresses := snd interface in
  if skipped_interface name then ret tt
  else
    match lookup_name name stats with
    | Some st =>
        let interface_info := interface_entry name st addresses io_counters in
        if truthy (Dict.get_default "addresses" VNone interface_info)
        then append_item "network_interfaces" (VDict interface_info)
        else ret tt
    | None => ret tt
    end.

Definition network_totals (net_io : snetio) : value :=
  VDict [("total_bytes_sent", gib (bytes_sent net_io));
         ("total_bytes_recv", gib (bytes_recv net_io));
         ("total_packets_sent", VInt (packets_sent net_io));
         ("total_packets_recv", VInt (packets_recv net_io))].

(** Network information (lines 274-336). *)
Definition collect_network (h : network_host) : M unit :=
  set_item "network_interfaces" (VList []) >>
  set_item "network_stats" (VDict []) >>
  try_except
    (let* interfaces := call q_net_if_addrs (net_if_addrs h) in
     let* stats := call q_net_if_stats (net_if_stats h) in
     let* io_counters := call q_net_io_counters_pernic (net_io_counters_pernic h) in
     for_each interfaces (scan_interface stats io_counters) >>
     (* Overall network statistics *)
     let* net_io := call q_net_io_counters (net_io_counters h) in
     match net_io with
     | Some net_io => set_item "network_stats" (network_totals net_io)
     | None => ret tt
     end)
    (ret tt).

(** The remaining-time string of the battery (lines 344-348). *)
Definition battery_time_left (secs : Z) : value :=
  if negb (secs =? POWER_TIME_UNLIMITED) && (0 <? secs) then
    let hours := secs / 3600 in
    let minutes := (secs mod 3600) / 60 in
    VStr (Str.of_Z hours +:+ "h " +:+ Str.of_Z minutes +:+ "m")
  else VNone.

Definition battery_entry (b : sbattery) : value :=
  VDict [("percent", VFloat (percent b));
         ("plugged", of_option VBool (power_plugged b));
         ("time_left", battery_time_left (secsleft b));
         ("time_left_seconds",
          if secsleft b =? POWER_TIME_UNLIMITED then VNone
          else VInt (secsleft b))].

(** Battery and power information (lines 341-357). *)
Definition collect_battery (query : outcome (option sbattery)) : M unit :=
  try_except
    (let* battery := call q_sensors_battery query in
     match battery with
     | Some b => set_item "battery" (battery_entry b)
     | None => ret tt
     end)
    (set_item "battery" VNone).

(** [label or group] *)
Definition label_or (label group : string) : string :=
  if String.eqb label "" then group else label.

Definition temperature_entry (group : string) (s : shwtemp) : value :=
  VDict [("label", VStr (label_or (temp_label s) group));
         ("current", VFloat (temp_current s));
         ("high", of_option VFloat (temp_high s));
         ("critical", of_option VFloat (temp_critical s))].

Definition fan_entry (group : string) (f : sfan) : value :=
  VDict [("label", VStr (label_or (fan_label f) group));
         ("current", VInt (fan_current f))].

(** The loops filling [info['temperatures']] and [info['fans']]: a group
    with no reading gets no key. *)
Definition group_readings {A} (entry : string -> A -> value)
    (groups : list (string * list A)) : list (string * value) :=
  fold_left
    (fun d g =>
       match snd g with
       | [] => d
       | readings => Dict.set (fst g) (VList (map (entry (fst g)) readings)) d
       end)
    groups [].

(** Temperature sensors (lines 362-376). The dict is assigned empty and
    filled in place by two loops that make no query and cannot raise:
    the second assignment stands for them. *)
Definition collect_temperatures
    (query : outcome (list (string * list shwtemp))) : M unit :=
  try_except
    (let* temps := call q_sensors_temperatures query in
     set_item "temperatures" (VDict []) >>
     set_item "temperatures" (VDict (group_readings temperature_entry temps)))
    (set_item "temperatures" (VDict [])).

(** Fans (lines 379-391), filled like the temperatures. *)
Definition collect_fans (query : outcome (list (string * list sfan))) : M unit :=
  try_except
    (let* fans := call q_sensors_fans query in
     set_item "fans" (VDict []) >>
     set_item "fans" (VDict (group_readings fan_entry fans)))
    (set_item "fans" (VDict [])).

(** [len([p for p in ... if p.info['status'] == status])] *)
Definition count_status (status : string) (statuses : list (option string)) : Z :=
  Z.of_nat
    (length
       (List.filter (fun st => match st with
                          | Some s => String.eqb s status
                          | None => false
                          end)
          statuses)).

(** Process census (lines 396-403). *)
Definition collect_processes (h : process_host) : M unit :=
  try_except
    (let* all := call q_pids (pids h) in
     set_item "process_count" (VInt (Z.of_nat (length all))) >>
     let* first := call (q_process_iter 1) (process_iter_first h) in
     set_item "process_running" (VInt (count_status STATUS_RUNNING first)) >>
     let* second := call (q_process_iter 2) (process_iter_second h) in
     set_item "process_sleeping" (VInt (count_status STATUS_SLEEPING second)))
    (set_item "process_count" (VInt 0) >>
     set_item "process_running" (VInt 0) >>
     set_item "process_sleeping" (VInt 0)).

(** Load average (lines 406-415). *)
Definition collect_load_average (available : bool) (query : outcome (Q * Q * Q))
  : M unit :=
  try_except
    (if available then
       let* load_avg := call q_getloadavg query in
       set_item "load_average"
         (VDict [("1min", VFloat (round2 (fst (fst load_avg))));
                 ("5min", VFloat (round2 (snd (fst load_avg))));
                 ("15min", VFloat (round2 (snd load_avg)))])
     else ret tt)
    (set_item "load_average" VNone).

(** ** The collector *)

(** [gather_system_info] (lines 37-420); it returns the dict [info]. *)
Definition gather_system_info (h : Host) : M (gmap string value) :=
  emit_progress "Detecting operating system..." 5 >>
  time_sleep (3 # 10) >>
  collect_identity (platform_system h) (identity h) >>
  emit_progress "Calculating system uptime..." 10 >>
  time_sleep (2 # 10) >>
  collect_uptime (uptime h) >>
  emit_progress "Scanning motherboard information..." 20 >>
  time_sleep (4 # 10) >>
  collect_motherboard (platform_system h) (motherboard h) >>
  emit_progress "Analyzing processor specifications..." 30 >>
  time_sleep (5 # 10) >>
  collect_processor (HAS_CPUINFO h) (processor h) >>
  emit_progress "Examining memory configuration..." 45 >>
  time_sleep (3 # 10) >>
  collect_memory (memory h) >>
  emit_progress "Scanning storage devices..." 60 >>
  time_sleep (4 # 10) >>
  collect_storage (platform_system h) (storage h) >>
  emit_progress "Detecting graphics hardware..." 70 >>
  time_sleep (3 # 10) >>
  collect_graphics (platform_system h) (HAS_GPUTIL h) (graphics h) >>
  emit_progress "Analyzing network interfaces..." 80 >>
  time_sleep (3 # 10) >>
  collect_network (network h) >>
  emit_progress "Checking power management..." 85 >>
  time_sleep (2 # 10) >>
  collect_battery (sensors_battery h) >>
  emit_progress "Reading sensor data..." 90 >>
  time_sleep (2 # 10) >>
  collect_temperatures (sensors_temperatures h) >>
  collect_fans (sensors_fans h) >>
  emit_progress "Counting system processes..." 95 >>
  time_sleep (2 # 10) >>
  collect_processes (processes h) >>
  collect_load_average (has_getloadavg h) (getloadavg h) >>
  emit_progress "Finalizing system analysis..." 100 >>
  time_sleep (3 # 10) >>
  fun s => (Returns (info s), s).

(** [SystemInfoWorker.run] (lines 33-35). *)
Definition run (h : Host) : M unit :=
  let* snapshot := gather_system_info h in
  observe (info_ready snapshot).

(** A worker thread starts with an empty [info] and nothing observed. *)
Definition start : frame := {| info := ∅; total_storage := 0; trace := [] |}.

(** The snapshot a run hands to [info_ready], when it does. *)
Definition snapshot_of (h : Host) : gmap string value :=
  info (snd (run h start)).

(** The percentages a run sends on [progress_update], in order. *)
Definition percents (t : list event) : list Z :=
  flat_map (fun e => match e with progress_update _ p => [p] | _ => [] end) t.

(** The snapshots a run sends on [info_ready], in order. *)
Definition snapshots (t : list event) : list (gmap string value) :=
  flat_map (fun e => match e with info_ready d => [d] | _ => [] end) t.

(** [gather_system_info] is this list of statements run in order, then
    [return info]. *)
Definition statements (h : Host) : list (M unit) :=
  [ emit_progress "Detecting operating system..." 5; time_sleep (3 # 10);
    collect_identity (platform_system h) (identity h);
    emit_progress "Calculating system uptime..." 10; time_sleep (2 # 10);
    collect_uptime (uptime h);
    emit_progress "Scanning motherboard information..." 20; time_sleep (4 # 10);
    collect_motherboard (platform_system h) (motherboard h);
    emit_progress "Analyzing processor specifications..." 30; time_sleep (5 # 10);
    collect_processor (HAS_CPUINFO h) (processor h);
    emit_progress "Examining memory configuration..." 45; time_sleep (3 # 10);
    collect_memory (memory h);
    emit_progress "Scanning storage devices..." 60; time_sleep (4 # 10);
    collect_storage (platform_system h) (storage h);
    emit_progress "Detecting graphics hardware..." 70; time_sleep (3 # 10);
    collect_graphics (platform_system h) (HAS_GPUTIL h) (graphics h);
    emit_progress "Analyzing network interfaces..." 80; time_sleep (3 # 10);
    collect_network (network h);
    emit_progress "Checking power management..." 85; time_sleep (2 # 10);
    collect_battery (sensors_battery h);
    emit_progress "Reading sensor data..." 90; time_sleep (2 # 10);
    collect_temperatures (sensors_temperatures h);
    collect_fans (sensors_fans h);
    emit_progress "Counting system processes..." 95; time_sleep (2 # 10);
    collect_processes (processes h);
    collect_load_average (has_getloadavg h) (getloadavg h);
    emit_progress "Finalizing system analysis..." 100; time_sleep (3 # 10) ].

Fixpoint sequence {A} (l : list (M unit)) (finish : M A) : M A :=
  match l with
  | [] => finish
  | m :: l' => m >> sequence l' finish
  end.

(** The same statements by phase: the progress value announced, then what
    runs until the next one. *)
Definition phases (h : Host) : list (string * Z * list (M unit)) :=
  [ ("Detecting operating system...", 5,
     [time_sleep (3 # 10); collect_identity (platform_system h) (identity h)]);
    ("Calculating system uptime...", 10,
     [time_sleep (2 # 10); collect_uptime (uptime h)]);
    ("Scanning motherboard information...", 20,
     [time_sleep (4 # 10); collect_motherboard (platform_system h) (motherboard h)]);
    ("Analyzing processor specifications...", 30,
     [time_sleep (5 # 10); collect_processor (HAS_CPUINFO h) (processor h)]);
    ("Examining memory configuration...", 45,
     [time_sleep (3 # 10); collect_memory (memory h)]);
    ("Scanning storage devices...", 60,
     [time_sleep (4 # 10); collect_storage (platform_system h) (storage h)]);
    ("Detecting graphics hardware...", 70,
     [time_sleep (3 # 10);
      collect_graphics (platform_system h) (HAS_GPUTIL h) (graphics h)]);
    ("Analyzing network interfaces...", 80,
     [time_sleep (3 # 10); collect_network (network h)]);
    ("Checking power management...", 85,
     [time_sleep (2 # 10); collect_battery (sensors_battery h)]);
    ("Reading sensor data...", 90,
     [time_sleep (2 # 10); collect_temperatures (sensors_temperatures h);
      collect_fans (sensors_fans h)]);
    ("Counting system processes...", 95,
     [time_sleep (2 # 10); collect_processes (processes h);
      collect_load_average (has_getloadavg h) (getloadavg h)]);
    ("Finalizing system analysis...", 100, [time_sleep (3 # 10)]) ].

Definition unroll (pl : list (string * Z * list (M unit))) : list (M unit) :=
  flat_map (fun ph => emit_progress (fst (fst ph)) (snd (fst ph)) :: snd ph) pl.

(** The frame a statement leaves behind. *)
Definition exec {A} (m : M A) (s : frame) : frame := snd (m s).

Definition exec_all (l : list (M unit)) (s : frame) : frame :=
  fold_left (fun s m => exec m s) l s.

(** ** The battery card of the presenter *)

(** [MainWindow.update_specs], lines 1335-1353: the title of the card
    drawn from [info.get('battery')]. *)
Definition battery_card_title (snapshot : gmap string value) : string :=
  let battery := match snapshot !! "battery" with Some v => v | None => VNone end in
  if truthy battery then "Battery" else "Power".

(** The remaining-time entry of the battery a snapshot reports. *)
Definition time_left_of (snapshot : gmap string value) : option value :=
  match snapshot !! "battery" with
  | Some (VDict d) => Dict.get "time_left" d
  | _ => None
  end.

(** The three counts of the process census as the snapshot reports them:
    all three as collected, or all three zero. *)
Definition census (h : process_host) : Z * Z * Z :=
  match pids h, process_iter_first h, process_iter_second h with
  | Returns all, Returns first, Returns second =>
      (Z.of_nat (length all), count_status STATUS_RUNNING first,
       count_status STATUS_SLEEPING second)
  | _, _, _ => (0, 0, 0)
  end.

(** ** Sample hosts *)

Module Sample.

Definition laptop_identity : identity_host := {|
  platform_release := Returns "6.8.0";
  platform_version := Returns "#1 SMP";
  win32_edition := Raises AttributeError;
  platform_architecture := Returns "64bit";
  gethostname := Returns "thinkpad";
  platform_machine := Returns "x86_64";
  getlogin := Returns "ada";
  environ_USERNAME := None;
  environ_USER := Some "ada"
|}.

Definition laptop_uptime : uptime_host := {|
  boot_time := Returns (1700000000 # 1);
  time_now := Returns (1700090061 # 1);
  fromtimestamp_strftime := Returns "2023-11-14 22:13:20"
|}.

Definition laptop_motherboard : motherboard_host := {|
  wmic_baseboard := Raises FileNotFoundError;
  dmidecode := Returns {| returncode := 1; stdout := "" |}
|}.

Definition laptop_processor : processor_host := {|
  get_cpu_info :=
    Returns [("brand_raw", VStr "Intel(R) Core(TM) i7-8550U CPU @ 1.80GHz");
             ("vendor_id_raw", VStr "GenuineIntel");
             ("family", VInt 6); ("model", VInt 142); ("stepping", VInt 10);
             ("flags", VList [VStr "avx2"; VStr "sse4_2"])];
  platform_processor := Returns "x86_64";
  cpu_count_physical := Returns (Some 4);
  cpu_count_logical := Returns (Some 8);
  cpu_freq := Returns (Some {| freq_current := 1800 # 1; freq_min := 400 # 1;
                               freq_max := 4000 # 1 |});
  cpu_percent := Returns (25 # 2);
  cpu_percent_percpu := Returns [10 # 1; 15 # 1];
  cpu_times := Returns {| cpu_user := 100 # 1; cpu_system := 50 # 1;
                          cpu_idle := 900 # 1 |}
|}.

(** 16 GiB of RAM. *)
Definition laptop_memory : memory_host := {|
  virtual_memory :=
    Returns {| vm_total := 16 * 1024 ^ 3; vm_used := 6 * 1024 ^ 3;
               vm_available := 10 * 1024 ^ 3; vm_free := 8 * 1024 ^ 3;
               vm_percent := 375 # 10; vm_cached := Some (2 * 1024 ^ 3);
               vm_buffers := Some (1024 ^ 3) |};
  swap_memory :=
    Returns {| sw_total := 2 * 1024 ^ 3; sw_used := 0; sw_free := 2 * 1024 ^ 3;
               sw_percent := 0 # 1 |}
|}.

Definition root_partition : sdiskpart :=
  {| device := "/dev/sda1"; mountpoint := "/"; fstype := "ext4"; opts := "rw" |}.
Definition home_partition : sdiskpart :=
  {| device := "/dev/sdb1"; mountpoint := "/home"; fstype := "ext4"; opts := "rw" |}.
Definition empty_partition : sdiskpart :=
  {| device := "/dev/sdc1"; mountpoint := "/mnt/empty"; fstype := "vfat"; opts := "rw" |}.

Definition laptop_disk_usage (mountpoint : string) : outcome sdiskusage :=
  if String.eqb mountpoint "/" then
    Returns {| du_total := 200 * 1024 ^ 3; du_used := 50 * 1024 ^ 3;
               du_free := 150 * 1024 ^ 3 |}
  else if String.eqb mountpoint "/home" then
    Returns {| du_total := 550 * 1024 ^ 3; du_used := 110 * 1024 ^ 3;
               du_free := 440 * 1024 ^ 3 |}
  else if String.eqb mountpoint "/mnt/empty" then
    Returns {| du_total := 0; du_used := 0; du_free := 0 |}
  else Raises FileNotFoundError.

Definition laptop_storage (partitions : list sdiskpart) : storage_host := {|
  disk_partitions := Returns partitions;
  disk_usage := laptop_disk_usage;
  disk_io_counters :=
    Returns (Some [("sda1", {| read_bytes := 1024 ^ 3; write_bytes := 2 * 1024 ^ 3;
                               read_count := 10; write_count := 20 |})])
|}.

Definition laptop_graphics : graphics_host := {|
  getGPUs := Returns [];
  wmic_videocontroller := Raises FileNotFoundError;
  lspci := Returns {| returncode := 0;
                      stdout := "00:02.0 VGA compatible controller: Intel UHD 620 (rev 07)" |}
|}.

Definition inet (a : string) : snicaddr :=
  {| family := Some "AddressFamily.AF_INET"; address := a;
     netmask := Some "255.255.255.0"; broadcast := None |}.
Definition link (a : string) : snicaddr :=
  {| family := Some "AddressFamily.AF_PACKET"; address := a;
     netmask := None; broadcast := None |}.
Definition nic_up : snicstats := {| isup := true; speed := 1000; mtu := 1500 |}.
Definition nic_io (n : Z) : snetio :=
  {| bytes_sent := n * 1024 ^ 2; bytes_recv := 2 * n * 1024 ^ 2;
     packets_sent := n; packets_recv := 2 * n;
     errin := 0; errout := 0; dropin := 0; dropout := 0 |}.

Definition laptop_network : network_host := {|
  net_if_addrs :=
    Returns [("lo", [inet "127.0.0.1"; link "00:00:00:00:00:00"]);
             ("eth0", [inet "192.168.1.7"; link "aa:bb:cc:dd:ee:ff"]);
             ("VirtualBox Host-Only", [inet "192.168.56.1"]);
             ("wlan0", [link "11:22:33:44:55:66"])];
  net_if_stats :=
    Returns [("lo", nic_up); ("eth0", nic_up);
             ("VirtualBox Host-Only", nic_up); ("wlan0", nic_up)];
  net_io_counters_pernic :=
    Returns [("lo", nic_io 1); ("eth0", nic_io 2);
             ("VirtualBox Host-Only", nic_io 3); ("wlan0", nic_io 4)];
  net_io_counters := Returns (Some (nic_io 10))
|}.

Definition laptop_battery : sbattery :=
  {| percent := 80 # 1; secsleft := 5400; power_plugged := Some false |}.

Definition laptop_processes : process_host := {|
  pids := Returns [1; 2; 3];
  process_iter_first := Returns [Some "running"; Some "sleeping"; Some "sleeping"];
  process_iter_second := Returns [Some "running"; Some "sleeping"; Some "sleeping"]
|}.

(** A Linux laptop on which every query answers; the parameters are the
    parts the examples vary. *)
Definition laptop (cpu : processor_host) (disks : storage_host)
    (battery : outcome (option sbattery)) (procs : process_host) : Host := {|
  platform_system := Returns "Linux";
  HAS_CPUINFO := true;
  HAS_GPUTIL := true;
  has_getloadavg := true;
  identity := laptop_identity;
  uptime := laptop_uptime;
  motherboard := laptop_motherboard;
  processor := cpu;
  memory := laptop_memory;
  storage := disks;
  graphics := laptop_graphics;
  network := laptop_network;
  sensors_battery := battery;
  sensors_temperatures :=
    Returns [("coretemp", [{| temp_label := ""; temp_current := 45 # 1;
                              temp_high := Some (100 # 1);
                              temp_critical := None |}])];
  sensors_fans := Returns [];
  processes := procs;
  getloadavg := Returns (123456 # 100000, 1 # 2, 1 # 4)
|}.

Definition healthy : Host :=
  laptop laptop_processor (laptop_storage [root_partition; home_partition])
    (Returns (Some laptop_battery)) laptop_processes.

End Sample.

(** Hosts on which one query of the sample laptop fails. *)
Module Faulty.
Import Sample.

(** [cpuinfo.get_cpu_info()] raises. *)
Definition no_cpuinfo : Host :=
  laptop
    {| get_cpu_info := Raises RuntimeError;
       platform_processor := platform_processor laptop_processor;
       cpu_count_physical := cpu_count_physical laptop_processor;
       cpu_count_logical := cpu_count_logical laptop_processor;
       cpu_freq := cpu_freq laptop_processor;
       cpu_percent := cpu_percent laptop_processor;
       cpu_percent_percpu := cpu_percent_percpu laptop_processor;
       cpu_times := cpu_times laptop_processor |}
    (laptop_storage [root_partition; home_partition])
    (Returns (Some laptop_battery)) laptop_processes.

(** A volume of size zero is mounted, and listed first. *)
Definition zero_sized_volume : Host :=
  laptop laptop_processor
    (laptop_storage [empty_partition; root_partition; home_partition])
    (Returns (Some laptop_battery)) laptop_processes.

(** The same three volumes, the first one unreadable instead of empty. *)
Definition unreadable_volume : Host :=
  laptop laptop_processor
    {| disk_partitions := Returns [empty_partition; root_partition; home_partition];
       disk_usage := fun m => if String.eqb m "/mnt/empty" then Raises PermissionError
                              else laptop_disk_usage m;
       disk_io_counters := disk_io_counters (laptop_storage []) |}
    (Returns (Some laptop_battery)) laptop_processes.

(** The first [process_iter] raises after [pids] has answered. *)
Definition process_iter_denied : Host :=
  laptop laptop_processor (laptop_storage [root_partition; home_partition])
    (Returns (Some laptop_battery))
    {| pids := Returns [1; 2; 3];
       process_iter_first := Raises PermissionError;
       process_iter_second := process_iter_second laptop_processes |}.

(** The processor reports its name as [raw]. *)
Definition named (raw : string) : Host :=
  laptop
    {| get_cpu_info := Returns [("brand_raw", VStr raw);
                                ("vendor_id_raw", VStr "GenuineIntel")];
       platform_processor := platform_processor laptop_processor;
       cpu_count_physical := cpu_count_physical laptop_processor;
       cpu_count_logical := cpu_count_logical laptop_processor;
       cpu_freq := cpu_freq laptop_processor;
       cpu_percent := cpu_percent laptop_processor;
       cpu_percent_percpu := cpu_percent_percpu laptop_processor;
       cpu_times := cpu_times laptop_processor |}
    (laptop_storage [root_partition; home_partition])
    (Returns (Some laptop_battery)) laptop_processes.

(** A desktop, and a platform whose battery query raises. *)
Definition desktop : Host :=
  laptop laptop_processor (laptop_storage [root_partition; home_partition])
    (Returns None) laptop_processes.
Definition battery_query_raises : Host :=
  laptop laptop_processor (laptop_storage [root_partition; home_partition])
    (Raises AttributeError) laptop_processes.

End Faulty.

(** ** Vocabulary of the specification *)

(** The collection steps, and the keys of [info] each one assigns. *)
Inductive step :=
| Identity | Uptime | Motherboard | Processor | Memory | Storage | Graphics
| Network | Battery | Thermal | Fans | Processes | LoadAverage.

Definition keys (st : step) : list string :=
  match st with
  | Identity =>
      ["os_name"; "os_version"; "os_build"; "os_full"; "os_edition";
       "os_architecture"; "hostname"; "machine_type"; "username"]
  | Uptime => ["uptime"; "boot_time"]
  | Motherboard => ["motherboard"]
  | Processor =>
      ["processor"; "cpu_vendor"; "cpu_family"; "cpu_model"; "cpu_stepping";
       "cpu_flags"; "cpu_cache_l1"; "cpu_cache_l2"; "cpu_cache_l3";
       "cpu_cores_physical"; "cpu_cores_logical"; "cpu_freq_current";
       "cpu_freq_max"; "cpu_freq_min"; "cpu_usage"; "cpu_usage_per_core";
       "cpu_times"]
  | Memory =>
      ["ram_total_gb"; "ram_used_gb"; "ram_available_gb"; "ram_free_gb";
       "ram_percent"; "ram_cached_gb"; "ram_buffers_gb"; "memory_capabilities";
       "swap_total_gb"; "swap_used_gb"; "swap_free_gb"; "swap_percent"]
  | Storage => ["storage_devices"; "storage_capabilities"]
  | Graphics => ["gpu_devices"]
  | Network => ["network_interfaces"; "network_stats"]
  | Battery => ["battery"]
  | Thermal => ["temperatures"]
  | Fans => ["fans"]
  | Processes => ["process_count"; "process_running"; "process_sleeping"]
  | LoadAverage => ["load_average"]
  end.

(** The progress value announced last before a step runs. Fans run under
    the checkpoint of the thermal sensors, the load average under that of
    the process census. *)
Definition checkpoint (st : step) : Z :=
  match st with
  | Identity => 5 | Uptime => 10 | Motherboard => 20 | Processor => 30
  | Memory => 45 | Storage => 60 | Graphics => 70 | Network => 80
  | Battery => 85 | Thermal => 90 | Fans => 90 | Processes => 95
  | LoadAverage => 95
  end.

(** The steps that make a query. *)
Definition users (q : query) : list step :=
  match q with
  | q_platform_system => [Identity; Motherboard; Storage; Graphics]
  | q_platform_release | q_platform_version | q_win32_edition
  | q_platform_architecture | q_gethostname | q_platform_machine
  | q_getlogin => [Identity]
  | q_boot_time | q_time | q_fromtimestamp => [Uptime]
  | q_wmic_baseboard | q_dmidecode => [Motherboard]
  | q_get_cpu_info | q_platform_processor | q_cpu_count_physical
  | q_cpu_count_logical | q_cpu_freq | q_cpu_percent | q_cpu_percent_percpu
  | q_cpu_times => [Processor]
  | q_virtual_memory | q_swap_memory => [Memory]
  | q_disk_partitions | q_disk_usage _ | q_disk_io_counters => [Storage]
  | q_getGPUs | q_wmic_videocontroller | q_lspci => [Graphics]
  | q_net_if_addrs | q_net_if_stats | q_net_io_counters_pernic
  | q_net_io_counters => [Network]
  | q_sensors_battery => [Battery]
  | q_sensors_temperatures => [Thermal]
  | q_sensors_fans => [Fans]
  | q_pids | q_process_iter _ => [Processes]
  | q_getloadavg => [LoadAverage]
  end.

Definition owns (K : list string) (k : string) : bool :=
  existsb (String.eqb k) K.

(** A query may be made while [p] is the last progress value announced. *)
Definition due (p : Z) (q : query) : bool :=
  existsb (fun st => checkpoint st =? p) (users q).

(** What a step may let an observer see under checkpoint [p]: pauses and
    the queries due there, no signal. *)
Definition quiet (p : Z) (e : event) : Prop :=
  match e with
  | called q => due p q = true
  | slept _ => True
  | progress_update _ _ => False
  | info_ready _ => False
  end.

(** Every query of a trace is made under a checkpoint of a step that makes
    it; [p] is the value announced last. *)
Fixpoint staged (p : Z) (t : list event) : Prop :=
  match t with
  | [] => True
  | progress_update _ p' :: t' => staged p' t'
  | called q :: t' => due p q = true /\ staged p t'
  | _ :: t' => staged p t'
  end.

Fixpoint nondecreasing (l : list Z) : Prop :=
  match l with
  | x :: ((y :: _) as l') => x <= y /\ nondecreasing l'
  | _ => True
  end.

(** A statement that cannot raise. *)
Definition never_raises {A} (m : M A) : Prop :=
  forall s, exists a s', m s = (Returns a, s').

(** A statement that, under checkpoint [p], shows quiet events only. *)
Definition shows {A} (p : Z) (m : M A) : Prop :=
  forall s, exists t, trace (exec m s) = (trace s ++ t)%list /\ Forall (quiet p) t.

(** A statement that assigns keys of [K] only and, under checkpoint [p],
    shows quiet events only. *)
Definition touches {A} (K : list string) (p : Z) (m : M A) : Prop :=
  forall s,
    (forall k, owns K k = false -> info (exec m s) !! k = info s !! k) /\
    exists t, trace (exec m s) = (trace s ++ t)%list /\ Forall (quiet p) t.

(** A statement that leaves key [k] alone. *)
Definition preserves {A} (k : string) (m : M A) : Prop :=
  forall s, info (exec m s) !! k = info s !! k.

(** Two frames that hold the same [info] outside [K]; with [sync], the
    same [total_storage] too. *)
Definition agree (K : list string) (sync : bool) (s1 s2 : frame) : Prop :=
  (forall k, owns K k = false -> info s1 !! k = info s2 !! k) /\
  (sync = true -> total_storage s1 = total_storage s2).

(** Two statements that, from agreeing frames, end the same way in
    agreeing frames. *)
Definition related {A} (K : list string) (sync : bool) (m1 m2 : M A) : Prop :=
  forall s1 s2, agree K sync s1 s2 ->
    fst (m1 s1) = fst (m2 s2) /\ agree K sync (exec m1 s1) (exec m2 s2).

(** Two statements whose frames agree afterwards; what they return is not
    compared. *)
Definition aligned {A B} (K : list string) (m1 : M A) (m2 : M B) : Prop :=
  forall s1 s2, agree K false s1 s2 -> agree K false (exec m1 s1) (exec m2 s2).

(** Two hosts that answer alike to every query, those of step [i] apart. *)
Definition agree_except (i : step) (h1 h2 : Host) : Prop :=
  platform_system h1 = platform_system h2 /\
  HAS_CPUINFO h1 = HAS_CPUINFO h2 /\
  HAS_GPUTIL h1 = HAS_GPUTIL h2 /\
  has_getloadavg h1 = has_getloadavg h2 /\
  (i <> Identity -> identity h1 = identity h2) /\
  (i <> Uptime -> uptime h1 = uptime h2) /\
  (i <> Motherboard -> motherboard h1 = motherboard h2) /\
  (i <> Processor -> processor h1 = processor h2) /\
  (i <> Memory -> memory h1 = memory h2) /\
  (i <> Storage -> storage h1 = storage h2) /\
  (i <> Graphics -> graphics h1 = graphics h2) /\
  (i <> Network -> network h1 = network h2) /\
  (i <> Battery -> sensors_battery h1 = sensors_battery h2) /\
  (i <> Thermal -> sensors_temperatures h1 = sensors_temperatures h2) /\
  (i <> Fans -> sensors_fans h1 = sensors_fans h2) /\
  (i <> Processes -> processes h1 = processes h2) /\
  (i <> LoadAverage -> getloadavg h1 = getloadavg h2).

(** What the memory step leaves in [memory_capabilities], given the vendor
    it read: the estimate for the RAM found, or the empty dict of its
    handler. *)
Definition memory_estimate (h : memory_host) (vendor : value)
  : list (string * value) :=
  match virtual_memory h, swap_memory h with
  | Returns mem, Returns _ =>
      get_memory_capabilities (fdiv (of_int (vm_total mem)) GiB) vendor
  | _, _ => []
  end.

(** A word of [str.split()]: not empty, no blank in it. *)
Fixpoint no_space (s : string) : bool :=
  match s with
  | EmptyString => true
  | String c s' => negb (Str.is_space c) && no_space s'
  end.

Definition solid (w : string) : Prop := w <> "" /\ no_space w = true.

(** Two blanks in a row: a run of whitespace that was not collapsed. *)
Fixpoint blank_run (s : string) : bool :=
  match s with
  | String a ((String b _) as s') =>
      (Str.is_space a && Str.is_space b) || blank_run s'
  | _ => false
  end.

(** A trademark marker, '(R)' or '(TM)', in any case. *)
Definition has_mark (s : string) : bool :=
  Str.contains "(r)" (Str.lower s) || Str.contains "(tm)" (Str.lower s).

(** The test of lines 297-299 on an address: ['AF_INET' in family_str and
    not addr.address.startswith('127.')]. The family of an IPv6 address
    reads 'AddressFamily.AF_INET6', which contains 'AF_INET': the test
    accepts the IPv6 addresses with the IPv4 ones, the loopback address
    '::1' included. *)
Definition qualifies (addr : snicaddr) : bool :=
  match family addr with
  | Some family_str =>
      Str.contains "AF_INET" family_str
      && negb (Str.startswith "127." (address addr))
  | None => false
  end.

(** An interface the snapshot lists: not loopback, not virtual, known to
    [net_if_stats], with an address collected. *)
Definition listed (stats : list (string * snicstats))
    (interface : string * list snicaddr) : bool :=
  negb (skipped_interface (fst interface))
  && match lookup_name (fst interface) stats with Some _ => true | None => false end
  && existsb qualifies (snd interface).

(** The entries one interface adds to the snapshot: one or none. *)
Definition interface_rows (stats : list (string * snicstats))
    (io_counters : list (string * snetio))
    (interface : string * list snicaddr) : list value :=
  if skipped_interface (fst interface) then []
  else
    match lookup_name (fst interface) stats with
    | Some st =>
        if existsb qualifies (snd interface)
        then [VDict (interface_entry (fst interface) st (snd interface) io_counters)]
        else []
    | None => []
    end.

(** The entries of [network_interfaces]: none when one of the three
    queries the loop needs has raised. *)
Definition network_rows (h : network_host) : list value :=
  match net_if_addrs h, net_if_stats h, net_io_counters_pernic h with
  | Returns interfaces, Returns stats, Returns io_counters =>
      flat_map (interface_rows stats io_counters) interfaces
  | _, _, _ => []
  end.

(** The name an entry of [network_interfaces] carries. *)
Definition name_of (entry : value) : option string :=
  match entry with
  | VDict d => match Dict.get "name" d with Some (VStr n) => Some n | _ => None end
  | _ => None
  end.

(** The keys of other steps that the outcome of step [i] can reach: the
    memory step reads [cpu_vendor], which the processor step assigns. *)
Definition reached (i : step) : list string :=
  match i with
  | Processor => ["memory_capabilities"]
  | _ => []
  end.

(** ** More vocabulary: what every snapshot holds *)

(** The keys a snapshot holds on every host. *)
Definition guaranteed : list string :=
  ["os_full"; "os_architecture"; "hostname"; "username";
   "uptime"; "boot_time"; "motherboard";
   "processor"; "cpu_cores_physical"; "cpu_cores_logical"; "cpu_usage";
   "cpu_usage_per_core";
   "ram_total_gb"; "ram_used_gb"; "ram_available_gb"; "ram_percent";
   "swap_total_gb"; "swap_used_gb"; "swap_percent"; "memory_capabilities";
   "storage_devices"; "storage_capabilities"; "gpu_devices";
   "network_interfaces"; "network_stats";
   "temperatures"; "fans";
   "process_count"; "process_running"; "process_sleeping"].

(** A statement that, when it returns, has left key [k] assigned. *)
Definition settles {A} (k : string) (m : M A) : Prop :=
  forall s, match m s with
            | (Returns _, s') => is_Some (info s' !! k)
            | (Raises _, _) => True
            end.

(** A statement that removes no key. *)
Definition grows {A} (m : M A) : Prop :=
  forall s k, is_Some (info s !! k) -> is_Some (info (exec m s) !! k).

(** A host on which every query raises and no optional library is there. *)
Module Silent.

Definition no {A} : outcome A := Raises OSError.

Definition host : Host := {|
  platform_system := no;
  HAS_CPUINFO := false;
  HAS_GPUTIL := false;
  has_getloadavg := false;
  identity := {| platform_release := no; platform_version := no;
                 win32_edition := no; platform_architecture := no;
                 gethostname := no; platform_machine := no; getlogin := no;
                 environ_USERNAME := None; environ_USER := None |};
  uptime := {| boot_time := no; time_now := no; fromtimestamp_strftime := no |};
  motherboard := {| wmic_baseboard := no; dmidecode := no |};
  processor := {| get_cpu_info := no; platform_processor := no;
                  cpu_count_physical := no; cpu_count_logical := no;
                  cpu_freq := no; cpu_percent := no; cpu_percent_percpu := no;
                  cpu_times := no |};
  memory := {| virtual_memory := no; swap_memory := no |};
  storage := {| disk_partitions := no; disk_usage := fun _ => no;
                disk_io_counters := no |};
  graphics := {| getGPUs := no; wmic_videocontroller := no; lspci := no |};
  network := {| net_if_addrs := no; net_if_stats := no;
                net_io_counters_pernic := no; net_io_counters := no |};
  sensors_battery := Returns None;
  sensors_temperatures := no;
  sensors_fans := no;
  processes := {| pids := no; process_iter_first := no;
                  process_iter_second := no |};
  getloadavg := no
|}.

End Silent.

(** The dict [get_motherboard_info] starts from and returns. *)
Definition motherboard_record (manufacturer product version serial : string)
  : list (string * value) :=
  [("manufacturer", VStr manufacturer); ("product", VStr product);
   ("version", VStr version); ("serial", VStr serial)].

(** A string in which the character [c] does not occur. *)
Fixpoint free (c : ascii) (s : string) : bool :=
  match s with
  | EmptyString => true
  | String a s' => negb (Ascii.eqb a c) && free c s'
  end.

Definition comma : ascii := ascii_of_nat 44.

(** The sample laptop with other parts. *)
Module Vary.

Definition graphics_of (g : graphics_host) (gputil : bool) (h : Host) : Host := {|
  platform_system := platform_system h;
  HAS_CPUINFO := HAS_CPUINFO h;
  HAS_GPUTIL := gputil;
  has_getloadavg := has_getloadavg h;
  identity := identity h;
  uptime := uptime h;
  motherboard := motherboard h;
  processor := processor h;
  memory := memory h;
  storage := storage h;
  graphics := g;
  network := network h;
  sensors_battery := sensors_battery h;
  sensors_temperatures := sensors_temperatures h;
  sensors_fans := sensors_fans h;
  processes := processes h;
  getloadavg := getloadavg h
|}.

Definition nvidia : gpu := {|
  gpu_name := "NVIDIA GeForce RTX 3060"; memoryTotal := 12288 # 1;
  memoryUsed := 1024 # 1; memoryFree := 11264 # 1; gpu_load := 1 # 4;
  gpu_temperature := 55 # 1; gpu_uuid := "GPU-0"; gpu_driver := Some "535.54"
|}.

(** GPUtil lists one adapter. *)
Definition with_gpu : Host :=
  graphics_of
    {| getGPUs := Returns [nvidia];
       wmic_videocontroller := wmic_videocontroller Sample.laptop_graphics;
       lspci := lspci Sample.laptop_graphics |}
    true Sample.healthy.

(** GPUtil is not installed. *)
Definition without_gputil : Host :=
  graphics_of Sample.laptop_graphics false Sample.healthy.

End Vary.

(** The short name under which the I/O counters of a volume are looked up
    (line 211). *)
Definition device_name (sys : string) (p : sdiskpart) : string :=
  if String.eqb sys "Windows"
  then Str.replace "\" "" (Str.replace ":" "" (device p))
  else List.last (Str.split "/" (device p)) "".

(** The entry of a volume whose usage is [u] (lines 224-233). *)
Definition volume_entry (sys : string) (io : list (string * sdiskio))
    (p : sdiskpart) (u : sdiskusage) : value :=
  VDict [("device", VStr (device p));
         ("mountpoint", VStr (mountpoint p));
         ("fstype", VStr (fstype p));
         ("total_gb", gib (du_total u));
         ("used_gb", gib (du_used u));
         ("free_gb", gib (du_free u));
         ("percent",
          VFloat (fmul (fdiv (of_int (du_used u)) (of_int (du_total u)))
                    (of_int 100)));
         ("io_stats", find_io_stats (device_name sys p) io)].

(** The usage of a volume the loop reads: not a removable drive on
    Windows, and the query answers. *)
Definition usage_read (sys : string) (h : storage_host) (p : sdiskpart)
  : option sdiskusage :=
  if String.eqb sys "Windows" && removable p then None
  else match disk_usage h (mountpoint p) with
       | Returns u => Some u
       | Raises _ => None
       end.

(** A volume on which a turn of the loop ends without an exception that
    leaves the loop: it is passed over, or refused with an [OSError], or
    read with a size that is not zero. *)
Definition passable (sys : string) (h : storage_host) (p : sdiskpart) : Prop :=
  String.eqb sys "Windows" && removable p = true \/
  match disk_usage h (mountpoint p) with
  | Returns u => du_total u <> 0
  | Raises e => is_OSError e = true
  end.

Definition total_read (sys : string) (h : storage_host) (ps : list sdiskpart) : Z :=
  fold_right Z.add 0 (map du_total (omap (usage_read sys h) ps)).

(** A volume that is passed over, refused with an [OSError], or read. *)
Definition reachable (sys : string) (h : storage_host) (p : sdiskpart) : Prop :=
  String.eqb sys "Windows" && removable p = true \/
  match disk_usage h (mountpoint p) with
  | Returns _ => True
  | Raises e => is_OSError e = true
  end.

(** The laptop on which the I/O counters are refused. *)
Definition counters_refused : Host :=
  Sample.laptop Sample.laptop_processor
    {| disk_partitions := Returns [Sample.root_partition; Sample.home_partition];
       disk_usage := Sample.laptop_disk_usage;
       disk_io_counters := Raises PermissionError |}
    (Returns (Some Sample.laptop_battery)) Sample.laptop_processes.

(** The whole microseconds between two clock readings, as [timedelta]
    counts them. *)
Definition microseconds (boot now : Q) : Z :=
  round_half_even (Qmult (Qminus now boot) (of_int 1000000)).

(** ["{days} days, {hours:02d}:{minutes:02d}"] *)
Definition uptime_text (days hours minutes : Z) : string :=
  Str.of_Z days +:+ " days, " +:+ Str.of_Z_02d hours +:+ ":"
  +:+ Str.of_Z_02d minutes.

(** A host whose frequency query answers [f], all else being as on [h]. *)
Definition frequency_of (f : outcome (option scpufreq)) (h : Host) : Host := {|
  platform_system := platform_system h;
  HAS_CPUINFO := HAS_CPUINFO h;
  HAS_GPUTIL := HAS_GPUTIL h;
  has_getloadavg := has_getloadavg h;
  identity := identity h;
  uptime := uptime h;
  motherboard := motherboard h;
  processor :=
    {| get_cpu_info := get_cpu_info (processor h);
       platform_processor := platform_processor (processor h);
       cpu_count_physical := cpu_count_physical (processor h);
       cpu_count_logical := cpu_count_logical (processor h);
       cpu_freq := f;
       cpu_percent := cpu_percent (processor h);
       cpu_percent_percpu := cpu_percent_percpu (processor h);
       cpu_times := cpu_times (processor h) |};
  memory := memory h;
  storage := storage h;
  graphics := graphics h;
  network := network h;
  sensors_battery := sensors_battery h;
  sensors_temperatures := sensors_temperatures h;
  sensors_fans := sensors_fans h;
  processes := processes h;
  getloadavg := getloadavg h
|}.

(** The laptop on which the swap query raises. *)
Definition swap_unreadable : Host := {|
  platform_system := platform_system Sample.healthy;
  HAS_CPUINFO := HAS_CPUINFO Sample.healthy;
  HAS_GPUTIL := HAS_GPUTIL Sample.healthy;
  has_getloadavg := has_getloadavg Sample.healthy;
  identity := identity Sample.healthy;
  uptime := uptime Sample.healthy;
  motherboard := motherboard Sample.healthy;
  processor := processor Sample.healthy;
  memory := {| virtual_memory := virtual_memory Sample.laptop_memory;
               swap_memory := Raises RuntimeError |};
  storage := storage Sample.healthy;
  graphics := graphics Sample.healthy;
  network := network Sample.healthy;
  sensors_battery := sensors_battery Sample.healthy;
  sensors_temperatures := sensors_temperatures Sample.healthy;
  sensors_fans := sensors_fans Sample.healthy;
  processes := processes Sample.healthy;
  getloadavg := getloadavg Sample.healthy
|}.

(** The groups a sensor query reports, none when it raises. *)
Definition groups_of {A} (query : outcome (list (string * list A)))
  : list (string * list A) :=
  match query with Returns groups => groups | Raises _ => [] end.

(** One turn of the loops over the sensor groups. *)
Definition add_group {A} (entry : string -> A -> value)
    (d : list (string * value)) (g : string * list A) : list (string * value) :=
  match snd g with
  | [] => d
  | readings => Dict.set (fst g) (VList (map (entry (fst g)) readings)) d
  end.

(** What follows 'Windows <release>' in [os_full]: the edition, when the
    query answers one that is not empty. *)
Definition edition_suffix (h : identity_host) : string :=
  match win32_edition h with
  | Returns (Some edition) => if String.eqb edition "" then "" else " " +:+ edition
  | _ => ""
  end.

(** The user name: the login name, or else the environment. *)
Definition login_name (h : identity_host) : string :=
  match getlogin h with
  | Returns user => user
  | Raises _ =>
      match environ_USERNAME h with
      | Some u => u
      | None => match environ_USER h with Some u => u | None => "Unknown" end
      end
  end.

(** ** The loading screen *)

Module LoadingWidget.

(** What the widget shows: the texts of its three labels, the value of
    its progress bar, and the counter of the dots animation. *)
Record t := {
  dots_count : Z;
  title_label : string;
  status_label : string;
  progress_bar : Z;
  percentage_label : string
}.

(** [s * n] on a string. *)
Fixpoint replicate (n : nat) (s : string) : string :=
  match n with
  | O => ""
  | S n' => s +:+ replicate n' s
  end.

Definition times (s : string) (n : Z) : string := replicate (Z.to_nat n) s.

(** [__init__] and [setup_ui] (lines 586-679). *)
Definition init : t := {|
  dots_count := 0;
  title_label := "Gathering Information";
  status_label := "Initializing system scan...";
  progress_bar := 0;
  percentage_label := "0%"
|}.

(** [update_dots] (lines 681-685), run by the timer every 500 ms. *)
Definition update_dots (w : t) : t :=
  let dots_count := (dots_count w + 1) mod 4 in
  let dots := times "." dots_count in
  {| dots_count := dots_count;
     title_label := "Gathering Information" +:+ dots;
     status_label := status_label w;
     progress_bar := progress_bar w;
     percentage_label := percentage_label w |}.

(** [update_progress] (lines 687-691), the slot of [progress_update]. *)
Definition update_progress (status : string) (percentage : Z) (w : t) : t :=
  {| dots_count := dots_count w;
     title_label := title_label w;
     status_label := status;
     progress_bar := percentage;
     percentage_label := Str.of_Z percentage +:+ "%" |}.

(** The widget after the signals of a trace have reached the slot
    connected in [refresh_specs] (line 1096), in the order they were
    sent. *)
Definition deliver (t : list event) (w : LoadingWidget.t) : LoadingWidget.t :=
  fold_left
    (fun w e =>
       match e with
       | progress_update status percentage => update_progress status percentage w
       | _ => w
       end)
    t w.

End LoadingWidget.

(** ** The usage graph *)

Module MiniGraph.

Inductive brush := bg_color | bg_color_hovered | color | hover_color.

(** [QRect(x, y, width, height)] *)
Record QRect := {
  rect_x : Z; rect_y : Z; rect_width : Z; rect_height : Z
}.

Record t := {
  data : list Q;
  max_value : Q;
  is_hovered : bool
}.

(** [int(x)] on a float: towards zero. *)
Definition int (x : Q) : Z := Z.quot (Qnum x) (Z.pos (Qden x)).

(** [a / b] on floats. *)
Definition div (a b : Q) : outcome Q :=
  if Qeq_bool b 0 then Raises ZeroDivisionError else Returns (Qred (a / b)).

(** What [paintEvent] has painted, and the exception that ended it, if
    one did. *)
Record painted := {
  fills : list (QRect * brush);
  raised : option exn
}.

(** The loop over the bars (lines 750-754). *)
Fixpoint bars (g : t) (width height : Z) (bar_width : Q) (graph_color : brush)
    (i : Z) (values : list Q) (done : list (QRect * brush)) : painted :=
  match values with
  | [] => {| fills := done; raised := None |}
  | value :: rest =>
      match div value (max_value g) with
      | Returns ratio =>
          let h := fmul ratio (of_int height) in
          let bar_rect :=
            {| rect_x := int (fmul (of_int i) bar_width);
               rect_y := height - int h;
               rect_width := int bar_width;
               rect_height := int h |} in
          bars g width height bar_width graph_color (i + 1) rest
            (done ++ [(bar_rect, graph_color)])%list
      | Raises e => {| fills := done; raised := Some e |}
      end
  end.

(** [paintEvent] (lines 725-754) on a widget whose [rect()] is [width]
    by [height]. *)
Definition paintEvent (g : t) (width height : Z) : painted :=
  match data g with
  | [] => {| fills := []; raised := None |}
  | first :: others =>
      let rect := {| rect_x := 0; rect_y := 0; rect_width := width;
                     rect_height := height |} in
      let background :=
        (rect, if is_hovered g then bg_color_hovered else bg_color) in
      let graph_color := if is_hovered g then hover_color else color in
      match others with
      | [] =>
          match div first (max_value g) with
          | Returns ratio =>
              let h := fmul ratio (of_int height) in
              let bar_rect :=
                {| rect_x := 0; rect_y := height - int h;
                   rect_width := width; rect_height := int h |} in
              {| fills := [background; (bar_rect, graph_color)];
                 raised := None |}
          | Raises e => {| fills := [background]; raised := Some e |}
          end
      | _ =>
          (* [len(self.data)] is not zero here *)
          let bar_width :=
            fdiv (of_int width) (of_int (Z.of_nat (length (data g)))) in
          bars g width height bar_width graph_color 0 (data g) [background]
      end
  end.

(** A rectangle that lies within a [width] by [height] widget and stands
    on its lower edge. *)
Definition stands_within (width height : Z) (r : QRect) : Prop :=
  0 <= rect_x r /\ 0 <= rect_width r /\ rect_x r + rect_width r <= width /\
  0 <= rect_y r /\ 0 <= rect_height r /\ rect_y r + rect_height r = height.

End MiniGraph.

(** ** The cards of the main window *)

Module MainWindow.

(** An f-string before it is rendered: literal text and replacement
    fields [{v}] with no format specification. *)
Inductive piece :=
| text (s : string)
| shown (v : value).

(** [info.get(k, default)] *)
Definition get (info : gmap string value) (k : string) (default : value) : value :=
  match info !! k with Some v => v | None => default end.

(** [v != s] where [v] is the result of [info.get(k)] and [s] a string. *)
Definition differs (v : option value) (s : string) : bool :=
  match v with
  | Some (VStr s') => negb (String.eqb s' s)
  | _ => true
  end.

(** The detail rows of the processor card, [update_specs] lines
    1179-1186. *)
Definition cpu_details (info : gmap string value) : list (list piece) :=
  let cpu_details :=
    [ [text "Vendor: "; shown (get info "cpu_vendor" (VStr "Unknown"))];
      [text "Family: "; shown (get info "cpu_family" (VStr "Unknown"));
       text " Model: "; shown (get info "cpu_model" (VStr "Unknown"))] ] in
  if differs (info !! "cpu_cache_l3") "Unknown"
  then (cpu_details
        ++ [[text "L3 Cache: "; shown (get info "cpu_cache_l3" (VStr "Unknown"))]])%list
  else cpu_details.

(** A Python [str] as [len] and slices see it: the sequence of its code
    points. *)
Definition str := list N.

(** ["..."] *)
Definition dots : str := [46%N; 46%N; 46%N].

(** [name[:keep] + "..." if len(name) > limit else name] *)
Definition shorten (limit keep : nat) (name : str) : str :=
  if (limit <? length name)%nat
  then (firstn keep name ++ dots)%list
  else name.

(** The processor name on its card (lines 1166-1167) and the adapter
    name on the graphics card (lines 1228-1229). *)
Definition processor_title : str -> str := shorten 30 27.
Definition gpu_title : str -> str := shorten 25 22.

Section StorageCard.

(** The rows of the storage card are left abstract: [device_item] builds
    the row of a volume (lines 1274-1287), [capabilities_item] the row of
    the capability estimate (lines 1291-1294). *)
Context {item : Type}.
Variable device_item : value -> outcome item.
Variable capabilities_item : value -> outcome item.

(** The loop of lines 1273-1287. *)
Fixpoint device_items (devices : list value) : outcome (list item) :=
  match devices with
  | [] => Returns []
  | device :: rest =>
      match device_item device with
      | Returns row =>
          match device_items rest with
          | Returns rows => Returns (row :: rows)
          | Raises e => Raises e
          end
      | Raises e => Raises e
      end
  end.

(** [storage_items], lines 1269-1294. *)
Definition storage_items (storage_devices : list value)
    (storage_capabilities : value) : outcome (list item) :=
  match device_items (firstn 4 storage_devices) with
  | Returns rows =>
      if truthy storage_capabilities then
        match capabilities_item storage_capabilities with
        | Returns row => Returns (rows ++ [row])%list
        | Raises e => Raises e
        end
      else Returns rows
  | Raises e => Raises e
  end.

End StorageCard.

(** The rows a [DetailCard] lays out (line 900). *)
Definition DetailCard_rows {item} (items : list item) : list item := firstn 4 items.

End MainWindow.

(** The keys the processor step assigns without py-cpuinfo. *)
Definition beyond_cpuinfo : list string :=
  ["processor"; "cpu_vendor"; "cpu_flags";
   "cpu_cores_physical"; "cpu_cores_logical"; "cpu_freq_current";
   "cpu_freq_max"; "cpu_freq_min"; "cpu_usage"; "cpu_usage_per_core";
   "cpu_times"].

(** ** The temperature card of the presenter *)

(** [sensor_list[0]['current']]; [None] when a subscript raises. *)
Definition first_current (sensor_list : value) : option value :=
  match sensor_list with
  | VList (VDict sensor :: _) => Dict.get "current" sensor
  | _ => None
  end.

(** A value that [f"{v:.0f}"] can render. *)
Definition is_number (v : value) : bool :=
  match v with
  | VInt _ | VFloat _ | VBool _ => true
  | _ => false
  end.

(** ['cpu' in sensor_name.lower() or 'core' in sensor_name.lower()] *)
Definition named_cpu (sensor_name : string) : bool :=
  Str.contains "cpu" (Str.lower sensor_name)
  || Str.contains "core" (Str.lower sensor_name).

(** The loop of [MainWindow.update_specs], lines 1362-1369, as far as
    [cpu_temp] goes; [None] when a turn raises. *)
Fixpoint cpu_temp_from (cpu_temp : value) (temperatures : list (string * value))
  : option value :=
  match temperatures with
  | [] => Some cpu_temp
  | (sensor_name, sensor_list) :: rest =>
      if truthy sensor_list then
        match first_current sensor_list with
        | Some temp =>
            let cpu_temp := if named_cpu sensor_name then temp else cpu_temp in
            if is_number temp then cpu_temp_from cpu_temp rest else None
        | None => None
        end
      else cpu_temp_from cpu_temp rest
  end.

(** The two shapes of the card (lines 1371-1383): the temperature of the
    processor, or 'N/A' over 'No sensors detected'. *)
Inductive temperature_card :=
| cpu_temperature (cpu_temp : value)
| not_available.

Definition temp_card (info : gmap string value) : option temperature_card :=
  match MainWindow.get info "temperatures" (VDict []) with
  | VDict temperatures =>
      match cpu_temp_from VNone temperatures with
      | Some cpu_temp =>
          Some (if truthy cpu_temp then cpu_temperature cpu_temp else not_available)
      | None => None
      end
  | _ => None   (* [temperatures.items()] raises *)
  end.

(** The characters of a string. *)
Fixpoint chars (s : string) : list ascii :=
  match s with
  | EmptyString => []
  | String c s' => c :: chars s'
  end.

Definition colon : ascii := ascii_of_nat 58.
Definition backslash : ascii := ascii_of_nat 92.

(** The dict built from an I/O counter (lines 216-221). *)
Definition io_stats_entry (stats : sdiskio) : value :=
  VDict [("read_bytes", gib (read_bytes stats));
         ("write_bytes", gib (write_bytes stats));
         ("read_count", VInt (read_count stats));
         ("write_count", VInt (write_count stats))].

(** ** The rows of the network card *)

(** [interface['addresses'][0]['address'] if interface['addresses'] else
    "No IP"] ([MainWindow.update_specs], line 1306); [None] when a
    subscript raises. *)
Definition ip_addr (interface : value) : option value :=
  match interface with
  | VDict d =>
      match Dict.get "addresses" d with
      | Some addresses =>
          if truthy addresses then
            match addresses with
            | VList (VDict first :: _) => Dict.get "address" first
            | _ => None
            end
          else Some (VStr "No IP")
      | None => None
      end
  | _ => None
  end.

(** ** Steps that fail *)

Definition raised {A} (o : outcome A) : bool :=
  match o with Raises _ => true | Returns _ => false end.

(** A step fails on a host when a query it makes outside any [try] of its
    own raises: the exception reaches the handler of the step. *)
Definition fails (i : step) (h : Host) : bool :=
  match i with
  | Identity =>
      raised (platform_system h) || raised (platform_release (identity h))
      || raised (platform_version (identity h))
      || raised (platform_architecture (identity h))
      || raised (gethostname (identity h))
      || raised (platform_machine (identity h))
  | Uptime =>
      raised (boot_time (uptime h)) || raised (time_now (uptime h))
      || raised (fromtimestamp_strftime (uptime h))
  | Motherboard =>
      match platform_system h with
      | Raises _ => true
      | Returns sys =>
          if String.eqb sys "Windows" then raised (wmic_baseboard (motherboard h))
          else if String.eqb sys "Linux" then raised (dmidecode (motherboard h))
          else false
      end
  | Processor =>
      (HAS_CPUINFO h && raised (get_cpu_info (processor h)))
      || raised (platform_processor (processor h))
      || raised (cpu_count_physical (processor h))
      || raised (cpu_count_logical (processor h))
      || raised (cpu_percent (processor h))
      || raised (cpu_percent_percpu (processor h))
      || raised (cpu_times (processor h))
  | Memory =>
      raised (virtual_memory (memory h)) || raised (swap_memory (memory h))
  | Storage => raised (disk_partitions (storage h))
  | Graphics => HAS_GPUTIL h && raised (getGPUs (graphics h))
  | Network =>
      raised (net_if_addrs (network h)) || raised (net_if_stats (network h))
      || raised (net_io_counters_pernic (network h))
  | Battery => raised (sensors_battery h)
  | Thermal => raised (sensors_temperatures h)
  | Fans => raised (sensors_fans h)
  | Processes =>
      raised (pids (processes h)) || raised (process_iter_first (processes h))
      || raised (process_iter_second (processes h))
  | LoadAverage => has_getloadavg h && raised (getloadavg h)
  end.

(** The unknown and empty values that the handler of a step assigns
    (for the storage, graphics and network steps: the values assigned
    before the [try], which the handler leaves). *)
Definition sentinels (i : step) : list (string * value) :=
  match i with
  | Identity =>
      [("os_full", VStr "Unknown OS"); ("os_architecture", VStr "Unknown");
       ("hostname", VStr "Unknown"); ("username", VStr "Unknown")]
  | Uptime => [("uptime", VStr "Unknown"); ("boot_time", VStr "Unknown")]
  | Motherboard =>
      [("motherboard",
        VDict [("manufacturer", VStr "Unknown"); ("product", VStr "Unknown");
               ("version", VStr "Unknown"); ("serial", VStr "Unknown")])]
  | Processor =>
      [("processor", VStr "Unknown Processor"); ("cpu_cores_physical", VInt 0);
       ("cpu_cores_logical", VInt 0); ("cpu_usage", VInt 0);
       ("cpu_usage_per_core", VList [])]
  | Memory =>
      [("ram_total_gb", VInt 0); ("ram_used_gb", VInt 0);
       ("ram_available_gb", VInt 0); ("ram_percent", VInt 0);
       ("swap_total_gb", VInt 0); ("swap_used_gb", VInt 0);
       ("swap_percent", VInt 0); ("memory_capabilities", VDict [])]
  | Storage => [("storage_devices", VList []); ("storage_capabilities", VDict [])]
  | Graphics => [("gpu_devices", VList [])]
  | Network => [("network_interfaces", VList []); ("network_stats", VDict [])]
  | Battery => [("battery", VNone)]
  | Thermal => [("temperatures", VDict [])]
  | Fans => [("fans", VDict [])]
  | Processes =>
      [("process_count", VInt 0); ("process_running", VInt 0);
       ("process_sleeping", VInt 0)]
  | LoadAverage => [("load_average", VNone)]
  end.

(** A statement that raises whatever the frame. *)
Definition doomed {A} (m : M A) : Prop :=
  forall s, exists e, fst (m s) = Raises e.

(** ** Address families, as the specification names them *)

(** [str(addr.family)] reads 'AddressFamily.AF_INET6' for an IPv6 address
    and 'AddressFamily.AF_INET' for an IPv4 one. *)
Definition ipv6 (addr : snicaddr) : bool :=
  match family addr with
  | Some family_str => Str.contains "AF_INET6" family_str
  | None => false
  end.

Definition ipv4 (addr : snicaddr) : bool :=
  match family addr with
  | Some family_str =>
      Str.contains "AF_INET" family_str && negb (Str.contains "AF_INET6" family_str)
  | None => false
  end.

(** A non-loopback IPv4 address, in the words of the specification. *)
Definition non_loopback_ipv4 (addr : snicaddr) : bool :=
  ipv4 addr && negb (Str.startswith "127." (address addr)).

(** The sum of a counter over the interfaces of
    [psutil.net_io_counters(pernic=True)], filtered out or not. *)
Definition over_all (counter : snetio -> Z) (io_counters : list (string * snetio)) : Z :=
  fold_right Z.add 0 (map (fun nic => counter (snd nic)) io_counters).

(** The global counter is the sum of the counters of all interfaces, as
    [psutil.net_io_counters()] computes it. *)
Definition sums_all (io_counters : list (string * snetio)) (net_io : snetio) : Prop :=
  bytes_sent net_io = over_all bytes_sent io_counters /\
  bytes_recv net_io = over_all bytes_recv io_counters /\
  packets_sent net_io = over_all packets_sent io_counters /\
  packets_recv net_io = over_all packets_recv io_counters.

(** The interfaces [psutil.net_if_addrs()] reports, none when it raises. *)
Definition interfaces_of (h : Host) : list (string * list snicaddr) :=
  match net_if_addrs (network h) with
  | Returns interfaces => interfaces
  | Raises _ => []
  end.

(** A host with the network [n], all else being as on [h]. *)
Definition network_of (n : network_host) (h : Host) : Host := {|
  platform_system := platform_system h;
  HAS_CPUINFO := HAS_CPUINFO h;
  HAS_GPUTIL := HAS_GPUTIL h;
  has_getloadavg := has_getloadavg h;
  identity := identity h;
  uptime := uptime h;
  motherboard := motherboard h;
  processor := processor h;
  memory := memory h;
  storage := storage h;
  graphics := graphics h;
  network := n;
  sensors_battery := sensors_battery h;
  sensors_temperatures := sensors_temperatures h;
  sensors_fans := sensors_fans h;
  processes := processes h;
  getloadavg := getloadavg h
|}.

Definition inet6 (a : string) : snicaddr :=
  {| family := Some "AddressFamily.AF_INET6"; address := a;
     netmask := Some "ffff:ffff:ffff:ffff::"; broadcast := None |}.

(** The laptop with a wireless interface that has a link-local IPv6
    address and no IPv4 address, and a wired one whose IPv6 address comes
    before its IPv4 address. *)
Definition ipv6_interfaces : Host :=
  network_of
    {| net_if_addrs :=
         Returns [("lo", [Sample.inet "127.0.0.1"; inet6 "::1"]);
                  ("wlan0", [inet6 "fe80::1"; Sample.link "11:22:33:44:55:66"]);
                  ("eth0", [inet6 "fe80::2"; Sample.inet "192.168.1.7"])];
       net_if_stats :=
         Returns [("lo", Sample.nic_up); ("wlan0", Sample.nic_up);
                  ("eth0", Sample.nic_up)];
       net_io_counters_pernic :=
         Returns [("lo", Sample.nic_io 1); ("wlan0", Sample.nic_io 2);
                  ("eth0", Sample.nic_io 3)];
       net_io_counters := Returns (Some (Sample.nic_io 6)) |}
    Sample.healthy.

(** ** Timed waits *)

(** The pauses of a trace, in order: what [time.sleep] was called with. *)
Definition sleep_of (e : event) : list Q :=
  match e with slept d => [d] | _ => [] end.

Definition sleeps (t : list event) : list Q := flat_map sleep_of t.

(** The seconds a query waits by request: [psutil.cpu_percent] is called
    with [interval=0.1] (lines 140-141) and compares the CPU times before
    and after a pause of that length. No other query is given a time to
    wait; the time a host takes to answer is not part of the model. *)
Definition interval (q : query) : Q :=
  match q with
  | q_cpu_percent | q_cpu_percent_percpu => 1 # 10
  | _ => 0
  end.

(** The timed waits of a trace, in order: the pauses and the intervals of
    the queries that have one. *)
Definition wait_of (e : event) : list Q :=
  match e with
  | slept d => [d]
  | called q => if Qeq_bool (interval q) 0 then [] else [interval q]
  | _ => []
  end.

Definition waits (t : list event) : list Q := flat_map wait_of t.

(** A statement of which [f] shows nothing. *)
Definition hides {X A} (f : event -> list X) (m : M A) : Prop :=
  forall s, flat_map f (trace (exec m s)) = flat_map f (trace s).

(** A statement of which [f] shows [xs]. *)
Definition yields {X A} (f : event -> list X) (xs : list X) (m : M A) : Prop :=
  forall s, flat_map f (trace (exec m s)) = (flat_map f (trace s) ++ xs)%list.

(** A statement that waits for [ds] when it returns, and for the first of
    them when it raises. *)
Definition spends {A} (ds : list Q) (m : M A) : Prop :=
  forall s, exists l,
    waits (trace (exec m s)) = (waits (trace s) ++ l)%list /\
    match fst (m s) with
    | Returns _ => l = ds
    | Raises _ => l `prefix_of` ds
    end.

(** The pauses of [gather_system_info], in seconds. *)
Definition pauses : list Q :=
  [3 # 10; 2 # 10; 4 # 10; 5 # 10; 3 # 10; 4 # 10; 3 # 10; 3 # 10;
   2 # 10; 2 # 10; 2 # 10; 3 # 10].

(** * Verification *)

Local Open Scope list_scope.

(** ** Statements that cannot raise *)

Section NeverRaises.

Context {A B : Type}.

Lemma never_raises_ret (a : A) : never_raises (ret a).
Proof. intros s. exists a, s. reflexivity. Qed.

Lemma never_raises_bind (m : M A) (k : A -> M B) :
  never_raises m -> (forall a, never_raises (k a)) -> never_raises (bind m k).
Proof.
  intros Hm Hk s. destruct (Hm s) as (a & s' & E).
  destruct (Hk a s') as (b & s'' & E'). exists b, s''.
  unfold bind. rewrite E. exact E'.
Qed.

(** A bare [except] whose handler cannot raise stops every exception. *)
Lemma never_raises_try_except (body handler : M A) :
  never_raises handler -> never_raises (try_except body handler).
Proof.
  intros Hh s. unfold try_except.
  destruct (body s) as [[a | e] s'].
  - exists a, s'. reflexivity.
  - apply Hh.
Qed.

End NeverRaises.

Lemma never_raises_observe e : never_raises (observe e).
Proof. intros s. eexists _, _. reflexivity. Qed.

Lemma never_raises_set_item k v : never_raises (set_item k v).
Proof. intros s. eexists _, _. reflexivity. Qed.

Lemma never_raises_seq {A} (m : M unit) (k : M A) :
  never_raises m -> never_raises k -> never_raises (m >> k).
Proof. intros Hm Hk. apply never_raises_bind; auto. Qed.

Create HintDb collector.

#[local] Hint Resolve never_raises_ret never_raises_observe never_raises_set_item
  never_raises_seq never_raises_try_except : collector.

Ltac never_raises_tac :=
  repeat first
    [ apply never_raises_try_except
    | apply never_raises_seq
    | apply never_raises_set_item
    | apply never_raises_ret
    | apply never_raises_observe ].

Lemma collect_identity_never_raises sys h : never_raises (collect_identity sys h).
Proof. unfold collect_identity. never_raises_tac. Qed.

Lemma collect_uptime_never_raises h : never_raises (collect_uptime h).
Proof. unfold collect_uptime. never_raises_tac. Qed.

Lemma get_motherboard_info_never_raises sys h :
  never_raises (get_motherboard_info sys h).
Proof. unfold get_motherboard_info. never_raises_tac. Qed.

Lemma collect_motherboard_never_raises sys h :
  never_raises (collect_motherboard sys h).
Proof.
  unfold collect_motherboard. apply never_raises_bind.
  - apply get_motherboard_info_never_raises.
  - intros d. apply never_raises_set_item.
Qed.

Lemma collect_processor_never_raises c h : never_raises (collect_processor c h).
Proof. unfold collect_processor. never_raises_tac. Qed.

Lemma collect_memory_never_raises h : never_raises (collect_memory h).
Proof. unfold collect_memory. never_raises_tac. Qed.

Lemma collect_storage_never_raises sys h : never_raises (collect_storage sys h).
Proof. unfold collect_storage. never_raises_tac. Qed.

Lemma collect_graphics_never_raises sys g h :
  never_raises (collect_graphics sys g h).
Proof. unfold collect_graphics. never_raises_tac. Qed.

Lemma collect_network_never_raises h : never_raises (collect_network h).
Proof. unfold collect_network. never_raises_tac. Qed.

Lemma collect_battery_never_raises o : never_raises (collect_battery o).
Proof. unfold collect_battery. never_raises_tac. Qed.

Lemma collect_temperatures_never_raises o : never_raises (collect_temperatures o).
Proof. unfold collect_temperatures. never_raises_tac. Qed.

Lemma collect_fans_never_raises o : never_raises (collect_fans o).
Proof. unfold collect_fans. never_raises_tac. Qed.

Lemma collect_processes_never_raises h : never_raises (collect_processes h).
Proof. unfold collect_processes. never_raises_tac. Qed.

Lemma collect_load_average_never_raises b o :
  never_raises (collect_load_average b o).
Proof. unfold collect_load_average. never_raises_tac. Qed.

#[local] Hint Resolve collect_identity_never_raises collect_uptime_never_raises
  collect_motherboard_never_raises collect_processor_never_raises
  collect_memory_never_raises collect_storage_never_raises
  collect_graphics_never_raises collect_network_never_raises
  collect_battery_never_raises collect_temperatures_never_raises
  collect_fans_never_raises collect_processes_never_raises
  collect_load_average_never_raises : collector.

Lemma statements_never_raise h : Forall never_raises (statements h).
Proof.
  unfold statements, emit_progress, time_sleep.
  repeat constructor; auto with collector.
Qed.

(** A run of statements that cannot raise is the composition of the frames
    they leave. *)
Lemma sequence_exec_all {A} (l : list (M unit)) (finish : M A) s :
  Forall never_raises l -> sequence l finish s = finish (exec_all l s).
Proof.
  intros H. revert s. induction H as [| m l Hm _ IH]; intros s.
  - reflexivity.
  - cbn [sequence exec_all fold_left]. unfold bind at 1.
    destruct (Hm s) as ([] & s' & E). unfold exec at 2. rewrite E. cbn [snd].
    apply IH.
Qed.

Lemma gather_system_info_sequence h :
  gather_system_info h = sequence (statements h) (fun s => (Returns (info s), s)).
Proof. reflexivity. Qed.

(** The frame at the end of [gather_system_info]. *)
Lemma gather_system_info_returns h s :
  gather_system_info h s =
  (Returns (info (exec_all (statements h) s)), exec_all (statements h) s).
Proof.
  rewrite gather_system_info_sequence.
  rewrite sequence_exec_all by apply statements_never_raise.
  reflexivity.
Qed.

Lemma run_returns h s :
  run h s =
  (Returns tt,
   {| info := info (exec_all (statements h) s);
      total_storage := total_storage (exec_all (statements h) s);
      trace := trace (exec_all (statements h) s)
               ++ [info_ready (info (exec_all (statements h) s))] |}).
Proof. unfold run, bind. rewrite gather_system_info_returns. reflexivity. Qed.

Lemma snapshot_of_exec_all h :
  snapshot_of h = info (exec_all (statements h) start).
Proof. unfold snapshot_of. rewrite run_returns. reflexivity. Qed.

(** ** What a statement assigns and shows *)

Lemma owns_false_ne K k k' : owns K k = true -> owns K k' = false -> k <> k'.
Proof. intros H H' ->. congruence. Qed.

Section Touches.

Context {A B : Type} (K : list string) (p : Z).

Lemma touches_still (m : M A) :
  (forall s, info (exec m s) = info s /\ trace (exec m s) = trace s) ->
  touches K p m.
Proof.
  intros H s. destruct (H s) as [Hi Ht]. split.
  - intros k _. rewrite Hi. reflexivity.
  - exists []. rewrite Ht, app_nil_r. split; [reflexivity | constructor].
Qed.

Lemma touches_ret (a : A) : touches K p (ret a).
Proof. apply touches_still. intros s. split; reflexivity. Qed.

Lemma touches_raise e : touches K p (@raise A e).
Proof. apply touches_still. intros s. split; reflexivity. Qed.

Lemma touches_bind (m : M A) (k : A -> M B) :
  touches K p m -> (forall a, touches K p (k a)) -> touches K p (bind m k).
Proof.
  intros Hm Hk s. destruct (Hm s) as [Hi (t & Ht & Hq)].
  unfold exec, bind in *. destruct (m s) as [[a | e] s']; cbn [snd] in *.
  - destruct (Hk a s') as [Hi' (t' & Ht' & Hq')]. unfold exec in *. split.
    + intros k0 Hk0. rewrite Hi', Hi by assumption. reflexivity.
    + exists (t ++ t')%list. rewrite Ht', Ht, app_assoc. split; [reflexivity |].
      apply Forall_app. split; assumption.
  - split; [assumption | exists t; split; assumption].
Qed.

Lemma touches_try_except (body handler : M A) :
  touches K p body -> touches K p handler -> touches K p (try_except body handler).
Proof.
  intros Hb Hh s. destruct (Hb s) as [Hi (t & Ht & Hq)].
  unfold exec, try_except in *. destruct (body s) as [[a | e] s']; cbn [snd] in *.
  - split; [assumption | exists t; split; assumption].
  - destruct (Hh s') as [Hi' (t' & Ht' & Hq')]. unfold exec in *. split.
    + intros k0 Hk0. rewrite Hi', Hi by assumption. reflexivity.
    + exists (t ++ t')%list. rewrite Ht', Ht, app_assoc. split; [reflexivity |].
      apply Forall_app. split; assumption.
Qed.

Lemma touches_try_except_OSError (body handler : M A) :
  touches K p body -> touches K p handler ->
  touches K p (try_except_OSError body handler).
Proof.
  intros Hb Hh s. destruct (Hb s) as [Hi (t & Ht & Hq)].
  unfold exec, try_except_OSError in *.
  destruct (body s) as [[a | e] s']; cbn [snd] in *.
  - split; [assumption | exists t; split; assumption].
  - destruct (is_OSError e).
    + destruct (Hh s') as [Hi' (t' & Ht' & Hq')]. unfold exec in *. split.
      * intros k0 Hk0. rewrite Hi', Hi by assumption. reflexivity.
      * exists (t ++ t')%list. rewrite Ht', Ht, app_assoc. split; [reflexivity |].
        apply Forall_app. split; assumption.
    + split; [assumption | exists t; split; assumption].
Qed.

Lemma touches_call q (o : outcome A) : due p q = true -> touches K p (call q o).
Proof.
  intros Hq s. split; [reflexivity |].
  exists [called q]. split; [reflexivity |]. repeat constructor. exact Hq.
Qed.

End Touches.

Section TouchesInfo.

Context (K : list string) (p : Z).

Lemma touches_set_item k v : owns K k = true -> touches K p (set_item k v).
Proof.
  intros Hk s. split.
  - intros k' Hk'. cbn. apply lookup_insert_ne. eapply owns_false_ne; eassumption.
  - exists []. cbn. rewrite app_nil_r. split; [reflexivity | constructor].
Qed.

Lemma touches_get_item k : touches K p (get_item k).
Proof.
  apply touches_still. intros s. unfold exec, get_item.
  destruct (info s !! k); split; reflexivity.
Qed.

Lemma touches_get_item_default k d : touches K p (get_item_default k d).
Proof. apply touches_still. intros s. split; reflexivity. Qed.

Lemma touches_append_item k v : owns K k = true -> touches K p (append_item k v).
Proof.
  intros Hk. unfold append_item. apply touches_bind.
  - apply touches_get_item.
  - intros [| | | | | l |]; try apply touches_raise. apply touches_set_item, Hk.
Qed.

Lemma touches_get_total_storage : touches K p get_total_storage.
Proof. apply touches_still. intros s. split; reflexivity. Qed.

Lemma touches_set_total_storage n : touches K p (set_total_storage n).
Proof. apply touches_still. intros s. split; reflexivity. Qed.

Lemma touches_for_each {A} (l : list A) (body : A -> M unit) :
  (forall x, touches K p (body x)) -> touches K p (for_each l body).
Proof.
  intros Hb. induction l as [| x l IH]; cbn [for_each].
  - apply touches_ret.
  - apply touches_bind; [apply Hb | intros _; exact IH].
Qed.

End TouchesInfo.

Ltac touches_step :=
  lazymatch goal with
  | |- touches _ _ (bind _ _) => apply touches_bind; [| intros ?]
  | |- touches _ _ (ret _) => apply touches_ret
  | |- touches _ _ (raise _) => apply touches_raise
  | |- touches _ _ (try_except _ _) => apply touches_try_except
  | |- touches _ _ (try_except_OSError _ _) => apply touches_try_except_OSError
  | |- touches _ _ (call _ _) => apply touches_call; reflexivity
  | |- touches _ _ (set_item _ _) => apply touches_set_item; reflexivity
  | |- touches _ _ (get_item _) => apply touches_get_item
  | |- touches _ _ (get_item_default _ _) => apply touches_get_item_default
  | |- touches _ _ (append_item _ _) => apply touches_append_item; reflexivity
  | |- touches _ _ get_total_storage => apply touches_get_total_storage
  | |- touches _ _ (set_total_storage _) => apply touches_set_total_storage
  | |- touches _ _ (for_each _ _) => apply touches_for_each; intros ?
  | |- touches _ _ (if ?b then _ else _) => destruct b
  | |- touches _ _ (match ?x with _ => _ end) => destruct x
  end.

Ltac touches_tac := repeat touches_step.

Lemma collect_identity_touches sys h :
  touches (keys Identity) 5 (collect_identity sys h).
Proof. unfold collect_identity, as_str. touches_tac. Qed.

Lemma collect_uptime_touches h : touches (keys Uptime) 10 (collect_uptime h).
Proof. unfold collect_uptime, timedelta. cbv zeta. touches_tac. Qed.

Lemma collect_motherboard_touches sys h :
  touches (keys Motherboard) 20 (collect_motherboard sys h).
Proof.
  unfold collect_motherboard, get_motherboard_info. cbv zeta. touches_tac.
Qed.

Lemma collect_processor_touches c h :
  touches (keys Processor) 30 (collect_processor c h).
Proof. unfold collect_processor, as_str. touches_tac. Qed.

Lemma collect_memory_touches h : touches (keys Memory) 45 (collect_memory h).
Proof. unfold collect_memory, as_number. touches_tac. Qed.

Lemma collect_storage_touches sys h :
  touches (keys Storage) 60 (collect_storage sys h).
Proof.
  unfold collect_storage, scan_partition, percent_used. cbv zeta. touches_tac.
Qed.

Lemma collect_graphics_touches sys g h :
  touches (keys Graphics) 70 (collect_graphics sys g h).
Proof. unfold collect_graphics, get_gpu_info. touches_tac. Qed.

Lemma collect_network_touches h : touches (keys Network) 80 (collect_network h).
Proof. unfold collect_network, scan_interface. cbv zeta. touches_tac. Qed.

Lemma collect_battery_touches o : touches (keys Battery) 85 (collect_battery o).
Proof. unfold collect_battery. touches_tac. Qed.

Lemma collect_temperatures_touches o :
  touches (keys Thermal) 90 (collect_temperatures o).
Proof. unfold collect_temperatures. touches_tac. Qed.

Lemma collect_fans_touches o : touches (keys Fans) 90 (collect_fans o).
Proof. unfold collect_fans. touches_tac. Qed.

Lemma collect_processes_touches h :
  touches (keys Processes) 95 (collect_processes h).
Proof. unfold collect_processes. touches_tac. Qed.

Lemma collect_load_average_touches b o :
  touches (keys LoadAverage) 95 (collect_load_average b o).
Proof. unfold collect_load_average. touches_tac. Qed.

(** ** The progress stream *)

Lemma touches_shows {A} K p (m : M A) : touches K p m -> shows p m.
Proof. intros H s. apply H. Qed.

Lemma time_sleep_shows p x : shows p (time_sleep x).
Proof. intros s. exists [slept x]. split; [reflexivity | repeat constructor]. Qed.

Lemma exec_all_app l1 l2 s : exec_all (l1 ++ l2) s = exec_all l2 (exec_all l1 s).
Proof. apply fold_left_app. Qed.

Lemma percents_app t1 t2 : percents (t1 ++ t2) = (percents t1 ++ percents t2)%list.
Proof. apply flat_map_app. Qed.

Lemma percents_quiet p t : Forall (quiet p) t -> percents t = [].
Proof.
  induction 1 as [| e t He _ IH]; [reflexivity |].
  destruct e; cbn in *; try contradiction; exact IH.
Qed.

Lemma snapshots_app t1 t2 :
  snapshots (t1 ++ t2) = (snapshots t1 ++ snapshots t2)%list.
Proof. apply flat_map_app. Qed.

Lemma snapshots_quiet p t : Forall (quiet p) t -> snapshots t = [].
Proof.
  induction 1 as [| e t He _ IH]; [reflexivity |].
  destruct e; cbn in *; try contradiction; exact IH.
Qed.

Lemma staged_quiet p t rest : Forall (quiet p) t -> staged p rest -> staged p (t ++ rest).
Proof.
  induction 1 as [| e t He _ IH]; intros Hr; [exact Hr |].
  destruct e; cbn in *; try contradiction; auto.
Qed.

(** What the statements of one phase show. *)
Lemma phase_shows p (ms : list (M unit)) :
  Forall (shows p) ms ->
  forall s, exists t, trace (exec_all ms s) = (trace s ++ t)%list /\ Forall (quiet p) t.
Proof.
  induction 1 as [| m ms Hm _ IH]; intros s.
  - exists []. cbn. rewrite app_nil_r. split; [reflexivity | constructor].
  - cbn [exec_all fold_left]. destruct (Hm s) as (t & Ht & Hq).
    destruct (IH (exec m s)) as (t' & Ht' & Hq'). unfold exec_all in Ht'.
    exists (t ++ t')%list. rewrite Ht', Ht, app_assoc. split; [reflexivity |].
    apply Forall_app. split; assumption.
Qed.

(** What a run of phases shows: the announced values in order, and every
    query under the checkpoint of a step that makes it. *)
Lemma phases_trace (pl : list (string * Z * list (M unit))) :
  Forall (fun ph => Forall (shows (snd (fst ph))) (snd ph)) pl ->
  forall s, exists t,
    trace (exec_all (unroll pl) s) = (trace s ++ t)%list /\
    percents t = map (fun ph => snd (fst ph)) pl /\
    snapshots t = [] /\
    forall p0, staged p0 t.
Proof.
  induction 1 as [| [[msg p] ms] pl Hms _ IH]; intros s.
  - exists []. cbn. rewrite app_nil_r. repeat split.
  - cbn [unroll flat_map fst snd] in *. rewrite <- app_comm_cons.
    cbn [exec_all fold_left]. fold (exec_all (ms ++ unroll pl)).
    fold (unroll pl). rewrite exec_all_app.
    destruct (phase_shows p ms Hms (exec (emit_progress msg p) s)) as (t & Ht & Hq).
    destruct (IH (exec_all ms (exec (emit_progress msg p) s)))
      as (t' & Ht' & Hp' & Hn' & Hs').
    exists (progress_update msg p :: t ++ t')%list. split; [| split; [| split]].
    + rewrite Ht', Ht. cbn. rewrite <- !app_assoc. reflexivity.
    + cbn. rewrite percents_app, (percents_quiet p t Hq), Hp'. reflexivity.
    + cbn. rewrite snapshots_app, (snapshots_quiet p t Hq), Hn'. reflexivity.
    + intros p0. cbn. apply staged_quiet; auto.
Qed.

Lemma statements_phases h : statements h = unroll (phases h).
Proof. reflexivity. Qed.

Lemma phases_show h :
  Forall (fun ph => Forall (shows (snd (fst ph))) (snd ph)) (phases h).
Proof.
  unfold phases.
  repeat (constructor; cbn [fst snd]);
    first [ apply time_sleep_shows
          | eapply touches_shows; first
              [ apply collect_identity_touches | apply collect_uptime_touches
              | apply collect_motherboard_touches | apply collect_processor_touches
              | apply collect_memory_touches | apply collect_storage_touches
              | apply collect_graphics_touches | apply collect_network_touches
              | apply collect_battery_touches | apply collect_temperatures_touches
              | apply collect_fans_touches | apply collect_processes_touches
              | apply collect_load_average_touches ] ].
Qed.

(** C2. In every run of [gather_system_info] the percentages sent on
    [progress_update] are 5, 10, 20, 30, 45, 60, 70, 80, 85, 90, 95, 100 in
    this order: a non-decreasing sequence of values between 0 and 100 that
    ends with 100. Each is sent before its step runs: every query of the
    host is made while the value of a step that makes it is the last one
    sent. *)
Theorem C2_progress_sequence (h : Host) :
  let t := trace (exec (gather_system_info h) start) in
  percents t = [5; 10; 20; 30; 45; 60; 70; 80; 85; 90; 95; 100] /\
  nondecreasing (percents t) /\
  Forall (fun p => 0 <= p <= 100) (percents t) /\
  List.last (percents t) 0 = 100 /\
  staged 0 t.
Proof.
  cbv zeta. unfold exec. rewrite gather_system_info_returns. cbn [snd].
  rewrite statements_phases.
  destruct (phases_trace (phases h) (phases_show h) start)
    as (t & Ht & Hp & _ & Hs).
  rewrite Ht. cbn [start trace app]. rewrite Hp. cbn [phases map fst snd].
  repeat split; try lia; try apply Hs.
  repeat constructor; lia.
Qed.

(** ** Reading a key of the snapshot *)

Lemma touches_preserves {A} K p (m : M A) k :
  touches K p m -> owns K k = false -> preserves k m.
Proof. intros H Hk s. apply H, Hk. Qed.

Lemma observe_preserves k e : preserves k (observe e).
Proof. intros s. reflexivity. Qed.

Lemma exec_all_preserves k l :
  Forall (preserves k) l -> forall s, info (exec_all l s) !! k = info s !! k.
Proof.
  induction 1 as [| m l Hm _ IH]; intros s; [reflexivity |].
  cbn [exec_all fold_left]. fold (exec_all l (exec m s)). rewrite IH. apply Hm.
Qed.

(** A key of the snapshot is as a statement left it once the later
    statements leave it alone. *)
Lemma snapshot_split h k l1 m l2 :
  statements h = (l1 ++ m :: l2)%list ->
  Forall (preserves k) l2 ->
  snapshot_of h !! k = info (exec m (exec_all l1 start)) !! k.
Proof.
  intros E Hl. rewrite snapshot_of_exec_all, E, exec_all_app.
  cbn [exec_all fold_left]. fold (exec_all l2 (exec m (exec_all l1 start))).
  apply exec_all_preserves, Hl.
Qed.

Ltac preserves_step :=
  first
    [ apply observe_preserves
    | eapply touches_preserves;
      [ first
          [ apply collect_identity_touches | apply collect_uptime_touches
          | apply collect_motherboard_touches | apply collect_processor_touches
          | apply collect_memory_touches | apply collect_storage_touches
          | apply collect_graphics_touches | apply collect_network_touches
          | apply collect_battery_touches | apply collect_temperatures_touches
          | apply collect_fans_touches | apply collect_processes_touches
          | apply collect_load_average_touches ]
      | reflexivity ] ].

Ltac preserves_tac := repeat (constructor; [preserves_step |]); try constructor.

(** The same with the statement given by its position; the frame [s] the
    statement starts from holds [k] as the start did. *)
Ltac snapshot_at h k n s Hs :=
  rewrite (snapshot_split h k (firstn n (statements h))
             (nth n (statements h) (ret tt)) (skipn (S n) (statements h))
             eq_refl);
  [ cbn [statements firstn nth skipn];
    match goal with
    | |- context [exec_all ?l start] =>
        assert (Hs : info (exec_all l start) !! k = None)
          by (rewrite exec_all_preserves;
              [ reflexivity
              | unfold emit_progress, time_sleep; preserves_tac ]);
        generalize dependent (exec_all l start); intros s Hs
    end
  | cbn [statements skipn]; unfold emit_progress, time_sleep; preserves_tac ].

(** ** The battery *)

Lemma snapshot_battery h :
  snapshot_of h !! "battery" =
  match sensors_battery h with
  | Returns (Some b) => Some (battery_entry b)
  | Returns None => None
  | Raises _ => Some VNone
  end.
Proof.
  snapshot_at h "battery" 26%nat s Hs.
  destruct (sensors_battery h) as [[b |] | e]; cbn.
  - apply lookup_insert_eq.
  - exact Hs.
  - apply lookup_insert_eq.
Qed.

(** C7. When the platform reports a battery whose [secsleft] is 5400, the
    remaining-time string of the snapshot is ["1h 30m"]; when [secsleft] is
    the unlimited sentinel, or is not greater than zero, the snapshot
    holds [None] as remaining time. *)
Theorem C7_battery_time_left (h : Host) (b : sbattery) :
  sensors_battery h = Returns (Some b) ->
  (secsleft b = 5400 -> time_left_of (snapshot_of h) = Some (VStr "1h 30m")) /\
  (secsleft b = POWER_TIME_UNLIMITED \/ secsleft b <= 0 ->
   time_left_of (snapshot_of h) = Some VNone).
Proof.
  intros Hb. unfold time_left_of. rewrite snapshot_battery, Hb.
  cbn [battery_entry Dict.get String.eqb Ascii.eqb Bool.eqb]. split.
  - intros ->. reflexivity.
  - intros H. unfold battery_time_left.
    destruct (secsleft b =? POWER_TIME_UNLIMITED) eqn:E; [reflexivity |].
    destruct H as [H | H]; [apply Z.eqb_neq in E; contradiction |].
    destruct (0 <? secsleft b) eqn:E'; [apply Z.ltb_lt in E'; lia | reflexivity].
Qed.

Lemma C7_battery_time_left_witness :
  sensors_battery Sample.healthy = Returns (Some Sample.laptop_battery) /\
  secsleft Sample.laptop_battery = 5400 /\
  time_left_of (snapshot_of Sample.healthy) = Some (VStr "1h 30m").
Proof.
  split; [reflexivity |]. split; [reflexivity |].
  apply (C7_battery_time_left Sample.healthy Sample.laptop_battery);
    reflexivity.
Defined.

(** C10. The snapshot has two ways of saying that there is no battery:
    when the query answers that there is none, the key ['battery'] is
    absent; when the query raises, the key is present and holds [None].
    The presenter reads the key with [info.get('battery')] and draws the
    same card for both, the one of a system without battery. *)
Theorem C10_battery_absence (h1 h2 : Host) (e : exn) :
  sensors_battery h1 = Returns None ->
  sensors_battery h2 = Raises e ->
  snapshot_of h1 !! "battery" = None /\
  snapshot_of h2 !! "battery" = Some VNone /\
  battery_card_title (snapshot_of h1) = "Power" /\
  battery_card_title (snapshot_of h2) = "Power".
Proof.
  intros H1 H2. unfold battery_card_title.
  rewrite !snapshot_battery, H1, H2. repeat split.
Qed.

Lemma C10_battery_absence_witness :
  sensors_battery Faulty.desktop = Returns None /\
  sensors_battery Faulty.battery_query_raises = Raises AttributeError /\
  snapshot_of Faulty.desktop !! "battery" = None /\
  snapshot_of Faulty.battery_query_raises !! "battery" = Some VNone.
Proof.
  split; [reflexivity |]. split; [reflexivity |].
  destruct (C10_battery_absence Faulty.desktop Faulty.battery_query_raises
              AttributeError eq_refl eq_refl) as (H1 & H2 & _).
  split; assumption.
Defined.

(** ** The capability heuristics *)

Lemma Qle_bool_true x y : (x <= y)%Q -> Qle_bool x y = true.
Proof. apply Qle_bool_iff. Qed.

Lemma Qle_bool_false x y : (y < x)%Q -> Qle_bool x y = false.
Proof.
  intros H. destruct (Qle_bool x y) eqn:E; [| reflexivity].
  apply Qle_bool_iff in E. exfalso. eapply Qlt_not_le; eassumption.
Qed.

Lemma memory_capabilities_vendor gb vendor k :
  k <> "memory_type" ->
  Dict.get k (get_memory_capabilities gb vendor) =
  Dict.get k (get_memory_capabilities gb VNone).
Proof.
  intros Hk. apply String.eqb_neq in Hk.
  unfold get_memory_capabilities. cbv zeta.
  destruct vendor as [| | | | vendor | |]; try reflexivity.
  destruct (Str.contains "intel" (Str.lower vendor)),
           (Str.contains "amd" (Str.lower vendor)),
           (Qle_bool (of_int 16) gb); try reflexivity;
    destruct (Qle_bool gb (of_int 4)), (Qle_bool gb (of_int 8)),
             (Qle_bool gb (of_int 16)), (Qle_bool gb (of_int 32));
    cbn [Dict.set Dict.get String.eqb Ascii.eqb Bool.eqb];
    rewrite ?Hk; reflexivity.
Qed.

Lemma memory_capabilities_max gb vendor :
  Dict.get "max_capacity_gb" (get_memory_capabilities gb vendor) =
  Some (VStr (if Qle_bool gb (of_int 4) then "32 GB"
              else if Qle_bool gb (of_int 8) then "64 GB"
              else if Qle_bool gb (of_int 16) then "128 GB"
              else if Qle_bool gb (of_int 32) then "256 GB"
              else "512+ GB")).
Proof.
  rewrite memory_capabilities_vendor by discriminate.
  unfold get_memory_capabilities. cbv zeta.
  destruct (Qle_bool gb (of_int 4)), (Qle_bool gb (of_int 8)),
           (Qle_bool gb (of_int 16)), (Qle_bool gb (of_int 32)); reflexivity.
Qed.

(** C4. With 6 GB of RAM, whatever the vendor, [get_memory_capabilities]
    returns the tier up to 8 GB: '64 GB', 'DDR4', 'DDR4-3200', '2-4 slots'.
    With 20 GB it returns the tier up to 32 GB: '256 GB', '4-8 slots'. The
    tier changes at 4, 8, 16 and 32 GB, and the vendor changes nothing but
    the memory-type label. *)
Theorem C4_memory_capability_tiers :
  (forall vendor,
     get_memory_capabilities (of_int 6) vendor =
     [("max_capacity_gb", VStr "64 GB"); ("memory_type", VStr "DDR4");
      ("max_speed", VStr "DDR4-3200"); ("slots_estimated", VStr "2-4 slots")]) /\
  (forall vendor,
     Dict.get "max_capacity_gb" (get_memory_capabilities (of_int 20) vendor)
       = Some (VStr "256 GB") /\
     Dict.get "max_speed" (get_memory_capabilities (of_int 20) vendor)
       = Some (VStr "DDR5-5600") /\
     Dict.get "slots_estimated" (get_memory_capabilities (of_int 20) vendor)
       = Some (VStr "4-8 slots")) /\
  (forall gb vendor,
     let max := Dict.get "max_capacity_gb" (get_memory_capabilities gb vendor) in
     ((gb <= 4)%Q -> max = Some (VStr "32 GB")) /\
     ((4 < gb)%Q -> (gb <= 8)%Q -> max = Some (VStr "64 GB")) /\
     ((8 < gb)%Q -> (gb <= 16)%Q -> max = Some (VStr "128 GB")) /\
     ((16 < gb)%Q -> (gb <= 32)%Q -> max = Some (VStr "256 GB")) /\
     ((32 < gb)%Q -> max = Some (VStr "512+ GB"))) /\
  (forall gb vendor vendor' k,
     k <> "memory_type" ->
     Dict.get k (get_memory_capabilities gb vendor) =
     Dict.get k (get_memory_capabilities gb vendor')).
Proof.
  split; [| split; [| split]].
  - intros vendor. unfold get_memory_capabilities. cbv zeta.
    destruct vendor as [| | | | vendor | |]; try reflexivity.
    destruct (Str.contains "intel" (Str.lower vendor)),
             (Str.contains "amd" (Str.lower vendor)); reflexivity.
  - intros vendor.
    rewrite (memory_capabilities_vendor _ vendor "max_capacity_gb"),
      (memory_capabilities_vendor _ vendor "max_speed"),
      (memory_capabilities_vendor _ vendor "slots_estimated") by discriminate.
    repeat split.
  - intros gb vendor. cbv zeta. rewrite memory_capabilities_max.
    assert (H48 : (4 < 8)%Q) by reflexivity.
    assert (H816 : (8 < 16)%Q) by reflexivity.
    assert (H1632 : (16 < 32)%Q) by reflexivity.
    repeat split; intros;
      repeat first
        [ rewrite (Qle_bool_true gb) by (unfold of_int; cbn; assumption)
        | rewrite (Qle_bool_false gb)
            by (unfold of_int; cbn;
                first [ assumption
                      | eapply Qlt_trans; [| eassumption]; first
                          [ assumption
                          | eapply Qlt_trans; [| eassumption]; first
                              [ assumption
                              | eapply Qlt_trans; [| eassumption]; assumption ] ] ]) ];
      reflexivity.
  - intros gb vendor vendor' k Hk.
    rewrite (memory_capabilities_vendor gb vendor k Hk),
      (memory_capabilities_vendor gb vendor' k Hk). reflexivity.
Qed.

(** C5. With 750 GB of storage [get_storage_capabilities] returns the tier
    up to 1000 GB, whose maximum is '16-32 TB' and whose interfaces include
    'PCIe 4.0'; with 3000 GB it returns the tier above 2000 GB. The tier
    changes at 500, 1000 and 2000 GB. *)
Theorem C5_storage_capability_tiers :
  Dict.get "max_capacity" (get_storage_capabilities (of_int 750))
    = Some (VStr "16-32 TB") /\
  (exists l, Dict.get "interface_types" (get_storage_capabilities (of_int 750))
               = Some (VList l) /\ In (VStr "PCIe 4.0") l) /\
  get_storage_capabilities (of_int 3000) =
    [("max_capacity", VStr "64+ TB");
     ("interface_types",
      VList [VStr "SATA III"; VStr "M.2 NVMe"; VStr "PCIe 5.0"; VStr "U.2";
             VStr "Enterprise SAS"]);
     ("max_drives", VStr "8+ drives")] /\
  (forall gb,
     let max := Dict.get "max_capacity" (get_storage_capabilities gb) in
     ((gb <= 500)%Q -> max = Some (VStr "8-16 TB")) /\
     ((500 < gb)%Q -> (gb <= 1000)%Q -> max = Some (VStr "16-32 TB")) /\
     ((1000 < gb)%Q -> (gb <= 2000)%Q -> max = Some (VStr "32-64 TB")) /\
     ((2000 < gb)%Q -> max = Some (VStr "64+ TB"))).
Proof.
  split; [reflexivity |]. split.
  - eexists. split; [reflexivity |]. cbn. tauto.
  - split; [reflexivity |]. intros gb. cbv zeta.
    assert (H1 : (500 < 1000)%Q) by reflexivity.
    assert (H2 : (1000 < 2000)%Q) by reflexivity.
    unfold get_storage_capabilities. cbv zeta.
    repeat split; intros;
      repeat first
        [ rewrite (Qle_bool_true gb) by (unfold of_int; cbn; assumption)
        | rewrite (Qle_bool_false gb)
            by (unfold of_int; cbn;
                first [ assumption
                      | eapply Qlt_trans; [| eassumption]; first
                          [ assumption
                          | eapply Qlt_trans; [| eassumption]; assumption ] ]) ];
      reflexivity.
Qed.

Lemma C4_memory_capability_tiers_witness :
  (4 < 6)%Q /\ (6 <= 8)%Q /\
  Dict.get "max_capacity_gb"
    (get_memory_capabilities (of_int 6) (VStr "GenuineIntel"))
  = Some (VStr "64 GB").
Proof.
  split; [reflexivity |]. split; [unfold Qle; cbn; lia |].
  destruct C4_memory_capability_tiers as (_ & _ & H & _).
  apply (H (of_int 6) (VStr "GenuineIntel")); [reflexivity | unfold Qle; cbn; lia].
Defined.

Lemma C5_storage_capability_tiers_witness :
  (500 < 750)%Q /\ (750 <= 1000)%Q /\
  Dict.get "max_capacity" (get_storage_capabilities (of_int 750))
  = Some (VStr "16-32 TB").
Proof.
  split; [reflexivity |]. split; [unfold Qle; cbn; lia |].
  destruct C5_storage_capability_tiers as (_ & _ & _ & H).
  apply (H (of_int 750)); [reflexivity | unfold Qle; cbn; lia].
Defined.

(** ** The process census *)

Lemma collect_processes_sets h s :
  let s' := exec (collect_processes h) s in
  info s' !! "process_count" = Some (VInt (fst (fst (census h)))) /\
  info s' !! "process_running" = Some (VInt (snd (fst (census h)))) /\
  info s' !! "process_sleeping" = Some (VInt (snd (census h))).
Proof.
  cbv zeta. unfold collect_processes, census.
  destruct (pids h) as [all | e1], (process_iter_first h) as [first | e2],
           (process_iter_second h) as [second | e3];
    cbn [exec bind try_except call set_item fst snd info];
    rewrite ?lookup_insert_eq;
    repeat (rewrite lookup_insert_ne by discriminate; rewrite ?lookup_insert_eq);
    repeat split.
Qed.

Lemma snapshot_processes h :
  snapshot_of h !! "process_count"
    = Some (VInt (fst (fst (census (processes h))))) /\
  snapshot_of h !! "process_running"
    = Some (VInt (snd (fst (census (processes h))))) /\
  snapshot_of h !! "process_sleeping"
    = Some (VInt (snd (census (processes h)))).
Proof.
  split; [| split].
  - snapshot_at h "process_count" 33%nat s Hs. apply collect_processes_sets.
  - snapshot_at h "process_running" 33%nat s Hs. apply collect_processes_sets.
  - snapshot_at h "process_sleeping" 33%nat s Hs. apply collect_processes_sets.
Qed.

(** C8, as the collector does it. The three counts stand or fall
    together: when [pids] and both enumerations answer, the snapshot holds
    the three collected counts; when any of the three raises, it holds 0
    for all three. *)
Theorem C8_process_census_all_or_nothing (h : Host) :
  snapshot_of h !! "process_count"
    = Some (VInt (fst (fst (census (processes h))))) /\
  snapshot_of h !! "process_running"
    = Some (VInt (snd (fst (census (processes h))))) /\
  snapshot_of h !! "process_sleeping"
    = Some (VInt (snd (census (processes h)))) /\
  (forall all first second,
     pids (processes h) = Returns all ->
     process_iter_first (processes h) = Returns first ->
     process_iter_second (processes h) = Returns second ->
     census (processes h) =
     (Z.of_nat (length all), count_status STATUS_RUNNING first,
      count_status STATUS_SLEEPING second)) /\
  ((exists e, pids (processes h) = Raises e) \/
   (exists e, process_iter_first (processes h) = Raises e) \/
   (exists e, process_iter_second (processes h) = Raises e) ->
   census (processes h) = (0, 0, 0)).
Proof.
  destruct (snapshot_processes h) as (H1 & H2 & H3).
  repeat split; try assumption.
  - intros all first second Ha Hf Hs. unfold census. rewrite Ha, Hf, Hs.
    reflexivity.
  - unfold census. intros [[e H] | [[e H] | [e H]]]; rewrite H;
      destruct (pids (processes h)); try reflexivity;
      destruct (process_iter_first (processes h)); reflexivity.
Qed.

Lemma C8_process_census_all_or_nothing_witness :
  (exists e, process_iter_first (processes Faulty.process_iter_denied) = Raises e) /\
  snapshot_of Faulty.process_iter_denied !! "process_count" = Some (VInt 0).
Proof.
  split; [exists PermissionError; reflexivity |].
  destruct (C8_process_census_all_or_nothing Faulty.process_iter_denied)
    as (H & _ & _ & _ & H0).
  rewrite H, H0; [reflexivity |].
  right. left. exists PermissionError. reflexivity.
Defined.

(** C8, as stated, fails: on a host whose first [process_iter] raises
    after [pids] has listed three processes, the total count did not fail,
    and yet the snapshot does not hold it. *)
Lemma C8_count_that_did_not_fail_is_lost :
  ~ (forall h all,
       pids (processes h) = Returns all ->
       snapshot_of h !! "process_count" = Some (VInt (Z.of_nat (length all)))).
Proof.
  intros H.
  specialize (H Faulty.process_iter_denied [1; 2; 3] eq_refl).
  destruct (snapshot_processes Faulty.process_iter_denied) as (H' & _).
  rewrite H' in H. discriminate H.
Qed.

(** ** Statements that do not look at the keys of another step *)

Lemma agree_weaken K sync s1 s2 : agree K true s1 s2 -> agree K sync s1 s2.
Proof. intros [Hi Ht]. split; [exact Hi | intros _; apply Ht; reflexivity]. Qed.

Section Related.

Context {A B : Type} (K : list string) (sync : bool).

(** A statement that leaves the frame as it is and whose result is read
    from what agreeing frames share. *)
Lemma related_reader (m : M A) :
  (forall s, exec m s = s) ->
  (forall s1 s2, agree K sync s1 s2 -> fst (m s1) = fst (m s2)) ->
  related K sync m m.
Proof.
  intros Hs Hr s1 s2 Hag. split; [apply Hr, Hag |]. rewrite !Hs. exact Hag.
Qed.

Lemma related_ret (a : A) : related K sync (ret a) (ret a).
Proof. apply related_reader; reflexivity. Qed.

Lemma related_raise e : related K sync (@raise A e) (raise e).
Proof. apply related_reader; reflexivity. Qed.

Lemma related_bind (m1 m2 : M A) (k1 k2 : A -> M B) :
  related K sync m1 m2 -> (forall a, related K sync (k1 a) (k2 a)) ->
  related K sync (bind m1 k1) (bind m2 k2).
Proof.
  intros Hm Hk s1 s2 Hag. destruct (Hm s1 s2 Hag) as [Ho Hag'].
  unfold exec, bind in *.
  destruct (m1 s1) as [[a1 | e1] s1'], (m2 s2) as [[a2 | e2] s2'];
    cbn [fst snd] in *; try discriminate Ho.
  - injection Ho as ->. apply Hk, Hag'.
  - injection Ho as ->. split; [reflexivity | exact Hag'].
Qed.

Lemma related_try_except (b1 b2 h1 h2 : M A) :
  related K sync b1 b2 -> related K sync h1 h2 ->
  related K sync (try_except b1 h1) (try_except b2 h2).
Proof.
  intros Hb Hh s1 s2 Hag. destruct (Hb s1 s2 Hag) as [Ho Hag'].
  unfold exec, try_except in *.
  destruct (b1 s1) as [[a1 | e1] s1'], (b2 s2) as [[a2 | e2] s2'];
    cbn [fst snd] in *; try discriminate Ho.
  - split; assumption.
  - apply Hh, Hag'.
Qed.

Lemma related_try_except_OSError (b1 b2 h1 h2 : M A) :
  related K sync b1 b2 -> related K sync h1 h2 ->
  related K sync (try_except_OSError b1 h1) (try_except_OSError b2 h2).
Proof.
  intros Hb Hh s1 s2 Hag. destruct (Hb s1 s2 Hag) as [Ho Hag'].
  unfold exec, try_except_OSError in *.
  destruct (b1 s1) as [[a1 | e1] s1'], (b2 s2) as [[a2 | e2] s2'];
    cbn [fst snd] in *; try discriminate Ho.
  - split; assumption.
  - injection Ho as ->. destruct (is_OSError e2).
    + apply Hh, Hag'.
    + split; [reflexivity | exact Hag'].
Qed.

Lemma related_call q (o : outcome A) : related K sync (call q o) (call q o).
Proof. intros s1 s2 Hag. split; [reflexivity | exact Hag]. Qed.

End Related.

Section RelatedInfo.

Context (K : list string) (sync : bool).

Lemma related_observe e : related K sync (observe e) (observe e).
Proof. intros s1 s2 Hag. split; [reflexivity | exact Hag]. Qed.

Lemma related_set_item k v : related K sync (set_item k v) (set_item k v).
Proof.
  intros s1 s2 [Hi Ht]. split; [reflexivity |]. split; [| exact Ht].
  intros k' Hk'. cbn. destruct (decide (k = k')) as [-> | Hne].
  - rewrite !lookup_insert_eq. reflexivity.
  - rewrite !lookup_insert_ne by exact Hne. apply Hi, Hk'.
Qed.

(** Assigning a key of [K] keeps the agreement, whatever is assigned. *)
Lemma related_set_item_owned k v1 v2 :
  owns K k = true -> related K sync (set_item k v1) (set_item k v2).
Proof.
  intros Hk s1 s2 [Hi Ht]. split; [reflexivity |]. split; [| exact Ht].
  intros k' Hk'. cbn.
  rewrite !lookup_insert_ne by (eapply owns_false_ne; eassumption).
  apply Hi, Hk'.
Qed.

Lemma related_get_item k : owns K k = false -> related K sync (get_item k) (get_item k).
Proof.
  intros Hk. apply related_reader.
  - intros s. unfold exec, get_item. destruct (info s !! k); reflexivity.
  - intros s1 s2 [Hi _]. unfold get_item. rewrite (Hi k Hk).
    destruct (info s2 !! k); reflexivity.
Qed.

Lemma related_get_item_default k d :
  owns K k = false -> related K sync (get_item_default k d) (get_item_default k d).
Proof.
  intros Hk. apply related_reader; [reflexivity |].
  intros s1 s2 [Hi _]. unfold get_item_default. cbn. rewrite (Hi k Hk). reflexivity.
Qed.

(** Reading a key of [K]: what follows must agree whatever was read. *)
Lemma related_read_owned {B} k d (k1 k2 : value -> M B) :
  (forall v1 v2, related K sync (k1 v1) (k2 v2)) ->
  related K sync (bind (get_item_default k d) k1) (bind (get_item_default k d) k2).
Proof. intros Hk s1 s2 Hag. unfold bind, get_item_default. apply Hk, Hag. Qed.

Lemma related_append_item k v :
  owns K k = false -> related K sync (append_item k v) (append_item k v).
Proof.
  intros Hk. unfold append_item. apply related_bind.
  - apply related_get_item, Hk.
  - intros [| | | | | l |]; try apply related_raise. apply related_set_item.
Qed.

Lemma related_set_total_storage n :
  related K sync (set_total_storage n) (set_total_storage n).
Proof.
  intros s1 s2 [Hi Ht]. split; [reflexivity |]. split; [exact Hi | reflexivity].
Qed.

Lemma related_for_each {A} (l : list A) (body : A -> M unit) :
  (forall x, related K sync (body x) (body x)) ->
  related K sync (for_each l body) (for_each l body).
Proof.
  intros Hb. induction l as [| x l IH]; cbn [for_each].
  - apply related_ret.
  - apply related_bind; [apply Hb | intros _; exact IH].
Qed.

End RelatedInfo.

Lemma related_get_total_storage K :
  related K true get_total_storage get_total_storage.
Proof.
  apply related_reader; [reflexivity |].
  intros s1 s2 [_ Ht]. cbn. rewrite Ht; reflexivity.
Qed.

(** Once [total_storage] is assigned, the statements that read it agree. *)
Lemma related_set_total_storage_then {B} K sync n (m1 m2 : M B) :
  related K true m1 m2 ->
  related K sync (set_total_storage n >> m1) (set_total_storage n >> m2).
Proof.
  intros Hm s1 s2 [Hi _]. unfold bind, set_total_storage.
  edestruct Hm as [Ho Hag]; [| split; [exact Ho | apply agree_weaken, Hag]].
  split; [exact Hi | reflexivity].
Qed.

Ltac related_step :=
  lazymatch goal with
  | |- related _ false (bind (set_total_storage _) _) (bind (set_total_storage _) _) =>
      apply related_set_total_storage_then
  | |- related _ _ (bind (get_item_default _ _) _) (bind (get_item_default _ _) _) =>
      first [ apply related_bind;
              [ apply related_get_item_default; assumption | intros ? ]
            | apply related_read_owned; intros ? ? ]
  | |- related _ _ (bind _ _) (bind _ _) => apply related_bind; [| intros ?]
  | |- related _ _ (ret _) (ret _) => apply related_ret
  | |- related _ _ (raise _) (raise _) => apply related_raise
  | |- related _ _ (try_except _ _) (try_except _ _) => apply related_try_except
  | |- related _ _ (try_except_OSError _ _) (try_except_OSError _ _) =>
      apply related_try_except_OSError
  | |- related _ _ (call _ _) (call _ _) => apply related_call
  | |- related _ _ (set_item ?k ?v) (set_item ?k ?v) => apply related_set_item
  | |- related _ _ (set_item ?k _) (set_item ?k _) =>
      apply related_set_item_owned; assumption
  | |- related _ _ (get_item _) (get_item _) => apply related_get_item; assumption
  | |- related _ _ (append_item _ _) (append_item _ _) =>
      apply related_append_item; assumption
  | |- related _ _ get_total_storage get_total_storage =>
      apply related_get_total_storage
  | |- related _ _ (set_total_storage _) (set_total_storage _) =>
      apply related_set_total_storage
  | |- related _ _ (for_each _ _) (for_each _ _) =>
      apply related_for_each; intros ?
  | |- related _ _ (if ?b then _ else _) (if ?b then _ else _) => destruct b
  | |- related _ _ (match ?x with _ => _ end) (match ?x with _ => _ end) =>
      destruct x
  end.

Ltac related_tac := repeat related_step.

Section StepsRelated.

Context (K : list string) (sync : bool).

Lemma collect_identity_related sys h :
  owns K "os_edition" = false -> owns K "os_full" = false ->
  related K sync (collect_identity sys h) (collect_identity sys h).
Proof. intros H1 H2. unfold collect_identity, as_str. related_tac. Qed.

Lemma collect_uptime_related h :
  related K sync (collect_uptime h) (collect_uptime h).
Proof. unfold collect_uptime, timedelta. cbv zeta. related_tac. Qed.

Lemma collect_motherboard_related sys h :
  related K sync (collect_motherboard sys h) (collect_motherboard sys h).
Proof.
  unfold collect_motherboard, get_motherboard_info. cbv zeta. related_tac.
Qed.

Lemma collect_processor_related c h :
  owns K "processor" = false ->
  related K sync (collect_processor c h) (collect_processor c h).
Proof. intros H1. unfold collect_processor, as_str. related_tac. Qed.

(** The memory step when [K] has nothing it reads. *)
Lemma collect_memory_related h :
  owns K "ram_total_gb" = false -> owns K "cpu_vendor" = false ->
  related K sync (collect_memory h) (collect_memory h).
Proof. intros H1 H2. unfold collect_memory, as_number. related_tac. Qed.

(** The memory step when [K] has [cpu_vendor], which it reads, and
    [memory_capabilities], the one key it computes from it. *)
Lemma collect_memory_related_vendor h :
  owns K "ram_total_gb" = false -> owns K "cpu_vendor" = true ->
  owns K "memory_capabilities" = true ->
  related K sync (collect_memory h) (collect_memory h).
Proof.
  intros H1 H2 H3. unfold collect_memory, as_number. related_tac.
Qed.

Lemma collect_graphics_related sys g h :
  owns K "gpu_devices" = false ->
  related K sync (collect_graphics sys g h) (collect_graphics sys g h).
Proof. intros H1. unfold collect_graphics, get_gpu_info. related_tac. Qed.

Lemma collect_network_related h :
  owns K "network_interfaces" = false ->
  related K sync (collect_network h) (collect_network h).
Proof.
  intros H1. unfold collect_network, scan_interface. cbv zeta. related_tac.
Qed.

Lemma collect_battery_related o :
  related K sync (collect_battery o) (collect_battery o).
Proof. unfold collect_battery. related_tac. Qed.

Lemma collect_temperatures_related o :
  related K sync (collect_temperatures o) (collect_temperatures o).
Proof. unfold collect_temperatures. related_tac. Qed.

Lemma collect_fans_related o : related K sync (collect_fans o) (collect_fans o).
Proof. unfold collect_fans. related_tac. Qed.

Lemma collect_processes_related h :
  related K sync (collect_processes h) (collect_processes h).
Proof. unfold collect_processes. related_tac. Qed.

Lemma collect_load_average_related b o :
  related K sync (collect_load_average b o) (collect_load_average b o).
Proof. unfold collect_load_average. related_tac. Qed.

End StepsRelated.

Lemma collect_storage_related K sys h :
  owns K "storage_devices" = false ->
  related K false (collect_storage sys h) (collect_storage sys h).
Proof.
  intros H1. unfold collect_storage, scan_partition, percent_used. cbv zeta.
  related_tac.
Qed.

(** ** One step fails, the others do not notice *)

Lemma owns_app K1 K2 k : owns (K1 ++ K2) k = owns K1 k || owns K2 k.
Proof. apply existsb_app. Qed.

Lemma related_aligned {A} K (m1 m2 : M A) : related K false m1 m2 -> aligned K m1 m2.
Proof. intros H s1 s2 Hag. apply H, Hag. Qed.

Lemma observe_aligned K e : aligned K (observe e) (observe e).
Proof. apply related_aligned, related_observe. Qed.

(** Two statements that assign keys of [K] only keep agreeing frames in
    agreement outside [K]. *)
Lemma touches_aligned {A B} K R p1 p2 (m1 : M A) (m2 : M B) :
  touches K p1 m1 -> touches K p2 m2 -> aligned (K ++ R) m1 m2.
Proof.
  intros H1 H2 s1 s2 [Hi _]. split; [| discriminate].
  intros k Hk. pose proof Hk as Hk'. rewrite owns_app in Hk'.
  apply orb_false_iff in Hk' as [Hk' _].
  rewrite (proj1 (H1 s1) k Hk'), (proj1 (H2 s2) k Hk'). apply Hi, Hk.
Qed.

Lemma exec_all_aligned K l1 l2 :
  Forall2 (aligned K) l1 l2 ->
  forall s1 s2, agree K false s1 s2 ->
    agree K false (exec_all l1 s1) (exec_all l2 s2).
Proof.
  induction 1 as [| m1 m2 l1 l2 Hm _ IH]; intros s1 s2 Hag; [exact Hag |].
  cbn [exec_all fold_left]. apply IH, Hm, Hag.
Qed.

Ltac aligned_step :=
  first
    [ apply observe_aligned
    | apply related_aligned; first
        [ apply collect_identity_related; reflexivity
        | apply collect_uptime_related
        | apply collect_motherboard_related
        | apply collect_processor_related; reflexivity
        | apply collect_memory_related; reflexivity
        | apply collect_memory_related_vendor; reflexivity
        | apply collect_storage_related; reflexivity
        | apply collect_graphics_related; reflexivity
        | apply collect_network_related; reflexivity
        | apply collect_battery_related
        | apply collect_temperatures_related
        | apply collect_fans_related
        | apply collect_processes_related
        | apply collect_load_average_related ]
    | eapply touches_aligned; first
        [ apply collect_identity_touches | apply collect_uptime_touches
        | apply collect_motherboard_touches | apply collect_processor_touches
        | apply collect_memory_touches | apply collect_storage_touches
        | apply collect_graphics_touches | apply collect_network_touches
        | apply collect_battery_touches | apply collect_temperatures_touches
        | apply collect_fans_touches | apply collect_processes_touches
        | apply collect_load_average_touches ] ].

(** On two hosts that differ in the answers to step [i] only, every
    statement of the collector keeps the two frames in agreement outside
    the keys of step [i] and those it reaches. *)
Lemma statements_aligned i h1 h2 :
  agree_except i h1 h2 ->
  Forall2 (aligned (keys i ++ reached i)) (statements h1) (statements h2).
Proof.
  intros (Hsys & Hc & Hg & Hl & H1 & H2 & H3 & H4 & H5 & H6 & H7 & H8 & H9
          & H10 & H11 & H12 & H13).
  unfold statements, emit_progress, time_sleep.
  rewrite <- Hsys, <- Hc, <- Hg, <- Hl.
  destruct i;
    try rewrite <- H1 by discriminate; try rewrite <- H2 by discriminate;
    try rewrite <- H3 by discriminate; try rewrite <- H4 by discriminate;
    try rewrite <- H5 by discriminate; try rewrite <- H6 by discriminate;
    try rewrite <- H7 by discriminate; try rewrite <- H8 by discriminate;
    try rewrite <- H9 by discriminate; try rewrite <- H10 by discriminate;
    try rewrite <- H11 by discriminate; try rewrite <- H12 by discriminate;
    try rewrite <- H13 by discriminate;
    repeat (constructor; [aligned_step |]); constructor.
Qed.

(** No statement of [gather_system_info] sends [info_ready]. *)
Lemma gather_sends_no_snapshot h :
  snapshots (trace (exec_all (statements h) start)) = [].
Proof.
  rewrite statements_phases.
  destruct (phases_trace (phases h) (phases_show h) start) as (t & -> & _ & Hn & _).
  exact Hn.
Qed.

(** [run] returns, and sends [info_ready] once, with the dict that
    [gather_system_info] returned. *)
Lemma run_sends_one_snapshot h :
  exists final,
    run h start = (Returns tt, final) /\
    snapshots (trace final) = [snapshot_of h].
Proof.
  eexists. split; [apply run_returns |].
  cbn [trace]. rewrite snapshots_app, gather_sends_no_snapshot.
  rewrite snapshot_of_exec_all. reflexivity.
Qed.

(** The one key the processor step reaches in another step. *)
Lemma collect_memory_estimate h s :
  exists vendor,
    info (exec (collect_memory h) s) !! "memory_capabilities"
    = Some (VDict (memory_estimate h vendor)).
Proof.
  exists (match info s !! "cpu_vendor" with Some v => v | None => VStr "" end).
  unfold collect_memory, memory_estimate, exec, try_except, bind, call,
    get_item, get_item_default, as_number, gib.
  destruct (virtual_memory h) as [mem | e1];
    [| cbn -[get_memory_capabilities fdiv GiB]; apply lookup_insert_eq].
  cbn -[get_memory_capabilities fdiv GiB].
  rewrite !(lookup_insert_ne _ _ "ram_total_gb") by discriminate.
  rewrite lookup_insert_eq.
  cbn -[get_memory_capabilities fdiv GiB].
  rewrite !(lookup_insert_ne _ _ "cpu_vendor") by discriminate.
  destruct (swap_memory h) as [swap | e2];
    cbn -[get_memory_capabilities fdiv GiB];
    repeat (rewrite lookup_insert_ne by discriminate);
    apply lookup_insert_eq.
Qed.

Lemma snapshot_memory_estimate h :
  exists vendor,
    snapshot_of h !! "memory_capabilities"
    = Some (VDict (memory_estimate (memory h) vendor)).
Proof.
  snapshot_at h "memory_capabilities" 14%nat s Hs. apply collect_memory_estimate.
Qed.

Lemma memory_estimate_vendor h vendor vendor' k :
  k <> "memory_type" ->
  Dict.get k (memory_estimate h vendor) = Dict.get k (memory_estimate h vendor').
Proof.
  intros Hk. unfold memory_estimate.
  destruct (virtual_memory h); [| reflexivity].
  destruct (swap_memory h); [| reflexivity].
  rewrite (memory_capabilities_vendor _ vendor k Hk),
    (memory_capabilities_vendor _ vendor' k Hk). reflexivity.
Qed.

(** ** The storage step *)

(** The sibling path: a volume whose usage query raises an [OSError] is
    skipped, and the loop goes on with the frame it had. *)
Lemma scan_partition_skips_unreadable sys h p e s :
  platform_system h = Returns sys ->
  String.eqb sys "Windows" && removable p = false ->
  disk_usage (storage h) (mountpoint p) = Raises e ->
  is_OSError e = true ->
  fst (scan_partition (platform_system h) (storage h) p s) = Returns tt /\
  info (exec (scan_partition (platform_system h) (storage h) p) s) = info s /\
  total_storage (exec (scan_partition (platform_system h) (storage h) p) s)
  = total_storage s.
Proof.
  intros Hsys Hskip Hu He. unfold scan_partition, exec. rewrite Hsys.
  unfold try_except_OSError, bind, call. cbn [fst snd]. rewrite Hskip, Hu.
  cbn [fst snd]. rewrite He. repeat split.
Qed.

(** A volume of size zero: the division raises, the handler of the loop
    does not catch it, and the loop is over. *)
Lemma scan_partition_zero_sized sys h p u d s :
  platform_system h = Returns sys ->
  String.eqb sys "Windows" && removable p = false ->
  disk_usage (storage h) (mountpoint p) = Returns u ->
  du_total u = 0 ->
  disk_io_counters (storage h) = Returns (Some d) ->
  fst (scan_partition (platform_system h) (storage h) p s)
  = Raises ZeroDivisionError /\
  info (exec (scan_partition (platform_system h) (storage h) p) s) = info s.
Proof.
  intros Hsys Hskip Hu Hz Hd. unfold scan_partition, exec. rewrite Hsys.
  unfold try_except_OSError, bind, call, percent_used. cbn [fst snd].
  rewrite Hskip, Hu. cbn [fst snd get_total_storage set_total_storage].
  rewrite Hd, Hz. cbn. split; reflexivity.
Qed.

(** C3, at the failing input. When the first mounted volume reports a
    total size of zero (its usage and the I/O counters are read without
    error), the storage step lists no volume at all, whatever volumes
    follow, and computes no capability estimate: both keys keep their
    empty initial values. *)
Theorem C3_zero_sized_volume_ends_storage_step
    (h : Host) (sys : string) (p : sdiskpart) (rest : list sdiskpart)
    (u : sdiskusage) (d : list (string * sdiskio)) :
  platform_system h = Returns sys ->
  disk_partitions (storage h) = Returns (p :: rest) ->
  String.eqb sys "Windows" && removable p = false ->
  disk_usage (storage h) (mountpoint p) = Returns u ->
  du_total u = 0 ->
  disk_io_counters (storage h) = Returns (Some d) ->
  snapshot_of h !! "storage_devices" = Some (VList []) /\
  snapshot_of h !! "storage_capabilities" = Some (VDict []).
Proof.
  intros Hsys Hp Hskip Hu Hz Hd.
  assert (G : forall s,
    info (exec (collect_storage (platform_system h) (storage h)) s)
    = <["storage_capabilities" := VDict []]>
        (<["storage_devices" := VList []]> (info s))).
  { intros s. unfold collect_storage, exec.
    unfold bind at 1. cbn [set_item]. unfold bind at 1. cbn [set_item].
    unfold try_except, bind at 1. rewrite Hp. cbn [call].
    unfold bind at 1. cbn [set_total_storage]. unfold bind at 1.
    cbn [for_each]. unfold bind at 1.
    match goal with
    | |- context [scan_partition _ _ p ?s0] =>
        destruct (scan_partition_zero_sized sys h p u d s0 Hsys Hskip Hu Hz Hd)
          as [Ho Hi];
        unfold exec in Hi;
        destruct (scan_partition (platform_system h) (storage h) p s0)
          as [o s1]
    end.
    cbn [fst snd] in *. subst o. cbn [snd ret]. rewrite Hi. reflexivity. }
  split.
  - snapshot_at h "storage_devices" 17%nat s Hs. rewrite G.
    rewrite lookup_insert_ne by discriminate. apply lookup_insert_eq.
  - snapshot_at h "storage_capabilities" 17%nat s Hs. rewrite G.
    apply lookup_insert_eq.
Qed.

Lemma C3_zero_sized_volume_ends_storage_step_witness :
  disk_partitions (storage Faulty.zero_sized_volume)
  = Returns [Sample.empty_partition; Sample.root_partition; Sample.home_partition] /\
  snapshot_of Faulty.zero_sized_volume !! "storage_devices" = Some (VList []) /\
  snapshot_of Faulty.zero_sized_volume !! "storage_capabilities" = Some (VDict []).
Proof.
  split; [reflexivity |].
  apply (C3_zero_sized_volume_ends_storage_step Faulty.zero_sized_volume "Linux"
           Sample.empty_partition [Sample.root_partition; Sample.home_partition]
           {| du_total := 0; du_used := 0; du_free := 0 |}
           [("sda1", {| read_bytes := 1024 ^ 3; write_bytes := 2 * 1024 ^ 3;
                        read_count := 10; write_count := 20 |})]);
    reflexivity.
Defined.

(** The same three volumes with the first one unreadable instead of
    empty: the two others are listed and the estimate is computed from
    their 750 GB. *)
Lemma unreadable_volume_is_skipped :
  (exists root home,
     snapshot_of Faulty.unreadable_volume !! "storage_devices"
     = Some (VList [VDict root; VDict home]) /\
     Dict.get "mountpoint" root = Some (VStr "/") /\
     Dict.get "mountpoint" home = Some (VStr "/home")) /\
  snapshot_of Faulty.unreadable_volume !! "storage_capabilities"
  = Some (VDict (get_storage_capabilities (of_int 750))).
Proof.
  split.
  - eexists _, _. split; [vm_compute; reflexivity |]. split; reflexivity.
  - vm_compute. reflexivity.
Qed.

(** ** The network step *)

Lemma dict_get_set k k' v d :
  Dict.get k (Dict.set k' v d) = if String.eqb k k' then Some v else Dict.get k d.
Proof.
  induction d as [| [k0 v0] d IH]; cbn.
  - destruct (String.eqb k k'); reflexivity.
  - destruct (String.eqb k' k0) eqn:E0; cbn.
    + apply String.eqb_eq in E0. subst k0.
      destruct (String.eqb k k'); reflexivity.
    + rewrite IH. destruct (String.eqb k k0) eqn:E; [| reflexivity].
      apply String.eqb_eq in E. subst k0.
      rewrite String.eqb_sym, E0. reflexivity.
Qed.

(** The loop over the addresses collects the qualifying ones, in order,
    and leaves the name of the interface alone. *)
Lemma fold_add_address addrs : forall d l,
  Dict.get "addresses" d = Some (VList l) ->
  Dict.get "addresses" (fold_left add_address addrs d)
  = Some (VList (l ++ map address_entry (List.filter qualifies addrs))) /\
  Dict.get "name" (fold_left add_address addrs d) = Dict.get "name" d.
Proof.
  induction addrs as [| a addrs IH]; intros d l Hd; cbn [fold_left List.filter map].
  - rewrite app_nil_r. split; [exact Hd | reflexivity].
  - unfold add_address at 2 4, qualifies.
    destruct (family a) as [f |]; [| apply IH, Hd].
    destruct (Str.contains "AF_INET" f && negb (Str.startswith "127." (address a))).
    + unfold append_address. rewrite Hd.
      destruct (IH (Dict.set "addresses" (VList (l ++ [address_entry a])) d)
                  (l ++ [address_entry a])) as [H1 H2].
      { rewrite dict_get_set. reflexivity. }
      rewrite H1, H2, dict_get_set. cbn [map]. rewrite <- app_assoc.
      split; reflexivity.
    + destruct (Str.contains "AF_LINK" f || Str.contains "AF_PACKET" f);
        [| apply IH, Hd].
      destruct (IH (Dict.set "mac_address" (VStr (address a)) d) l) as [H1 H2].
      { rewrite dict_get_set. exact Hd. }
      rewrite H1, H2, dict_get_set. split; reflexivity.
Qed.

Lemma interface_entry_fields name st addrs ios :
  Dict.get "addresses" (interface_entry name st addrs ios)
  = Some (VList (map address_entry (List.filter qualifies addrs))) /\
  Dict.get "name" (interface_entry name st addrs ios) = Some (VStr name).
Proof.
  unfold interface_entry. cbv zeta.
  match goal with
  | |- context [fold_left add_address addrs ?d0] =>
      destruct (fold_add_address addrs d0 []) as [H1 H2]; [reflexivity |]
  end.
  destruct (lookup_name name ios); rewrite ?dict_get_set; cbn [String.eqb Ascii.eqb Bool.eqb];
    rewrite H1, H2; split; reflexivity.
Qed.

Lemma filter_nil_existsb {A} (f : A -> bool) l :
  existsb f l = false -> List.filter f l = [].
Proof.
  induction l as [| x l IH]; cbn; [reflexivity |].
  destruct (f x); cbn; [discriminate | exact IH].
Qed.

Lemma filter_cons_existsb {A} (f : A -> bool) l :
  existsb f l = true -> exists x l', List.filter f l = x :: l'.
Proof.
  induction l as [| x l IH]; cbn; [discriminate |].
  destruct (f x); cbn; [eauto | exact IH].
Qed.

(** One turn of the loop over the interfaces adds the rows of the
    interface to the list, and returns. *)
Lemma scan_interface_exec stats ios iface s l :
  info s !! "network_interfaces" = Some (VList l) ->
  exists s',
    scan_interface stats ios iface s = (Returns tt, s') /\
    info s' = <["network_interfaces" := VList (l ++ interface_rows stats ios iface)]> (info s).
Proof.
  intros Hl. unfold scan_interface, interface_rows. cbv zeta.
  assert (Hid : info s = <["network_interfaces" := VList (l ++ [])]> (info s)).
  { rewrite app_nil_r. symmetry. apply insert_id, Hl. }
  destruct (skipped_interface (fst iface)); [exists s; split; [reflexivity | exact Hid] |].
  destruct (lookup_name (fst iface) stats) as [st |];
    [| exists s; split; [reflexivity | exact Hid]].
  destruct (interface_entry_fields (fst iface) st (snd iface) ios) as [Ha _].
  unfold Dict.get_default. rewrite Ha.
  destruct (existsb qualifies (snd iface)) eqn:E.
  - destruct (filter_cons_existsb _ _ E) as (x & l' & ->). cbn [map truthy].
    unfold append_item, bind, get_item. rewrite Hl. eexists. split; reflexivity.
  - rewrite (filter_nil_existsb _ _ E). cbn [map truthy].
    exists s. split; [reflexivity | exact Hid].
Qed.

Lemma scan_interfaces_exec stats ios ifs : forall s l,
  info s !! "network_interfaces" = Some (VList l) ->
  exists s',
    for_each ifs (scan_interface stats ios) s = (Returns tt, s') /\
    info s' = <["network_interfaces" :=
                  VList (l ++ flat_map (interface_rows stats ios) ifs)]> (info s).
Proof.
  induction ifs as [| iface ifs IH]; intros s l Hl; cbn [for_each flat_map].
  - exists s. split; [reflexivity |]. rewrite app_nil_r. symmetry.
    apply insert_id, Hl.
  - destruct (scan_interface_exec stats ios iface s l Hl) as (s1 & E1 & H1).
    destruct (IH s1 (l ++ interface_rows stats ios iface)) as (s2 & E2 & H2).
    { rewrite H1. apply lookup_insert_eq. }
    exists s2. unfold bind. rewrite E1. split; [exact E2 |].
    rewrite H2, H1, insert_insert_eq, app_assoc. reflexivity.
Qed.

(** What the network step leaves in the two keys it assigns. *)
Lemma collect_network_sets h s :
  info (exec (collect_network h) s) !! "network_interfaces"
  = Some (VList (network_rows h)) /\
  (forall ifs stats ios io,
     net_if_addrs h = Returns ifs -> net_if_stats h = Returns stats ->
     net_io_counters_pernic h = Returns ios ->
     net_io_counters h = Returns (Some io) ->
     info (exec (collect_network h) s) !! "network_stats"
     = Some (network_totals io)).
Proof.
  unfold collect_network, network_rows, exec, try_except, bind, call.
  destruct (net_if_addrs h) as [ifs | e1];
    [| split; [cbn; rewrite lookup_insert_ne by discriminate; apply lookup_insert_eq
              | discriminate]].
  destruct (net_if_stats h) as [stats | e2];
    [| split; [cbn; rewrite lookup_insert_ne by discriminate; apply lookup_insert_eq
              | discriminate]].
  destruct (net_io_counters_pernic h) as [ios | e3];
    [| split; [cbn; rewrite lookup_insert_ne by discriminate; apply lookup_insert_eq
              | discriminate]].
  cbn -[scan_interface for_each network_totals].
  match goal with
  | |- context [for_each ifs _ ?s0] =>
      destruct (scan_interfaces_exec stats ios ifs s0 []) as (s' & E & Hi);
        [ cbn; rewrite lookup_insert_ne by discriminate; apply lookup_insert_eq
        | rewrite E ]
  end.
  cbn [app info] in Hi.
  destruct (net_io_counters h) as [[io |] | e4]; cbn -[network_totals].
  - split.
    + rewrite lookup_insert_ne by discriminate. rewrite Hi. apply lookup_insert_eq.
    + intros ? ? ? ? [= <-] [= <-] [= <-] [= <-]. apply lookup_insert_eq.
  - split; [rewrite Hi; apply lookup_insert_eq | discriminate].
  - split; [rewrite Hi; apply lookup_insert_eq | discriminate].
Qed.

Lemma snapshot_network h :
  snapshot_of h !! "network_interfaces" = Some (VList (network_rows (network h))) /\
  (forall ifs stats ios io,
     net_if_addrs (network h) = Returns ifs ->
     net_if_stats (network h) = Returns stats ->
     net_io_counters_pernic (network h) = Returns ios ->
     net_io_counters (network h) = Returns (Some io) ->
     snapshot_of h !! "network_stats" = Some (network_totals io)).
Proof.
  split.
  - snapshot_at h "network_interfaces" 23%nat s Hs. apply collect_network_sets.
  - intros ifs stats ios io H1 H2 H3 H4.
    snapshot_at h "network_stats" 23%nat s Hs.
    eapply collect_network_sets; eassumption.
Qed.

(** Every row is the entry of an interface that is neither loopback nor
    virtual and has an address collected. *)
Lemma interface_rows_sound stats ios iface v :
  In v (interface_rows stats ios iface) ->
  exists d a l,
    v = VDict d /\ Dict.get "name" d = Some (VStr (fst iface)) /\
    skipped_interface (fst iface) = false /\
    Dict.get "addresses" d = Some (VList (a :: l)).
Proof.
  unfold interface_rows.
  destruct (skipped_interface (fst iface)) eqn:Hs; [intros [] |].
  destruct (lookup_name (fst iface) stats) as [st |]; [| intros []].
  destruct (existsb qualifies (snd iface)) eqn:E; [| intros []].
  intros [<- | []].
  destruct (interface_entry_fields (fst iface) st (snd iface) ios) as [Ha Hn].
  destruct (filter_cons_existsb _ _ E) as (x & l' & Hf). rewrite Hf in Ha.
  eexists _, _, _. repeat split; [exact Hn | exact Ha].
Qed.

Lemma interface_rows_names stats ios ifs :
  omap name_of (flat_map (interface_rows stats ios) ifs)
  = map fst (List.filter (listed stats) ifs).
Proof.
  induction ifs as [| iface ifs IH]; [reflexivity |].
  cbn [flat_map List.filter]. rewrite omap_app, IH.
  unfold interface_rows, listed.
  destruct (skipped_interface (fst iface)); [reflexivity |].
  destruct (lookup_name (fst iface) stats) as [st |]; [| reflexivity].
  destruct (existsb qualifies (snd iface)); [| reflexivity].
  cbn [negb andb omap list_omap name_of map app].
  destruct (interface_entry_fields (fst iface) st (snd iface) ios) as [_ ->].
  reflexivity.
Qed.

(** ** The processor name *)

(** When [cpuinfo] reports a non-empty brand string and the queries of the
    processor step answer, the name in the snapshot is the brand string
    cleaned by the two assignments of the step. *)
Lemma collect_processor_name h d raw fb pc lc u pu t s :
  get_cpu_info h = Returns d ->
  Dict.get "brand_raw" d = Some (VStr raw) ->
  raw <> "" ->
  platform_processor h = Returns fb ->
  cpu_count_physical h = Returns pc ->
  cpu_count_logical h = Returns lc ->
  cpu_percent h = Returns u ->
  cpu_percent_percpu h = Returns pu ->
  cpu_times h = Returns t ->
  info (exec (collect_processor true h) s) !! "processor"
  = Some (VStr (clean_processor_name raw)).
Proof.
  intros Hd Hb Hraw Hfb Hpc Hlc Hu Hpu Ht.
  apply String.eqb_neq in Hraw.
  unfold collect_processor, exec, try_except, bind, call, get_item, as_str.
  rewrite Hd, Hfb, Hpc, Hlc, Hu, Hpu, Ht. unfold Dict.get_default at 1. rewrite Hb.
  cbn -[collapse_whitespace strip_marks Dict.get_default String.eqb].
  repeat (rewrite lookup_insert_ne by discriminate).
  rewrite lookup_insert_eq.
  cbn -[collapse_whitespace strip_marks Dict.get_default String.eqb].
  rewrite Hraw.
  cbn -[collapse_whitespace strip_marks Dict.get_default String.eqb].
  rewrite lookup_insert_eq.
  cbn -[collapse_whitespace strip_marks Dict.get_default String.eqb].
  destruct (cpu_freq h) as [[f |] | e];
    cbn -[collapse_whitespace strip_marks Dict.get_default String.eqb];
    repeat (rewrite lookup_insert_ne by discriminate);
    apply lookup_insert_eq.
Qed.

Lemma snapshot_processor_name h d raw fb pc lc u pu t :
  HAS_CPUINFO h = true ->
  get_cpu_info (processor h) = Returns d ->
  Dict.get "brand_raw" d = Some (VStr raw) ->
  raw <> "" ->
  platform_processor (processor h) = Returns fb ->
  cpu_count_physical (processor h) = Returns pc ->
  cpu_count_logical (processor h) = Returns lc ->
  cpu_percent (processor h) = Returns u ->
  cpu_percent_percpu (processor h) = Returns pu ->
  cpu_times (processor h) = Returns t ->
  snapshot_of h !! "processor" = Some (VStr (clean_processor_name raw)).
Proof.
  intros Hc. intros.
  snapshot_at h "processor" 11%nat s Hs. rewrite Hc.
  eapply collect_processor_name; eassumption.
Qed.

Lemma snapshot_named raw :
  raw <> "" ->
  snapshot_of (Faulty.named raw) !! "processor"
  = Some (VStr (clean_processor_name raw)).
Proof.
  intros Hraw.
  eapply (snapshot_processor_name (Faulty.named raw)); try reflexivity.
  exact Hraw.
Qed.

(** The first assignment does what its name says: after it no two blanks
    stand in a row. The blanks of C9 come back with the second one. *)

Lemma append_empty s : "" +:+ s = s.
Proof. reflexivity. Qed.

Lemma append_String a s t : String a s +:+ t = String a (s +:+ t).
Proof. reflexivity. Qed.

Lemma no_space_snoc w c :
  no_space w = true -> Str.is_space c = false ->
  no_space (w +:+ String c "") = true.
Proof.
  intros Hw Hc.
  induction w as [| a w IH]; rewrite ?append_empty, ?append_String;
    cbn [no_space] in *.
  - rewrite Hc. reflexivity.
  - apply andb_true_iff in Hw as [Ha Hw]. rewrite Ha, (IH Hw). reflexivity.
Qed.

Lemma snoc_not_empty w c : w +:+ String c "" <> "".
Proof. destruct w; discriminate. Qed.

Lemma split_ws_from_solid s : forall cur,
  (forall w, cur = Some w -> solid w) ->
  Forall solid (Str.split_ws_from cur s).
Proof.
  induction s as [| c s IH]; intros cur Hcur; cbn [Str.split_ws_from].
  - destruct cur as [w |]; [| constructor].
    constructor; [apply Hcur; reflexivity | constructor].
  - destruct (Str.is_space c) eqn:Hc.
    + destruct cur as [w |].
      * constructor; [apply Hcur; reflexivity |]. apply IH. discriminate.
      * apply IH. discriminate.
    + apply IH. intros w' [= <-]. destruct cur as [w |].
      * destruct (Hcur w eq_refl) as [_ Hw].
        split; [apply snoc_not_empty | apply no_space_snoc; assumption].
      * split; [discriminate | cbn [no_space]; rewrite Hc; reflexivity].
Qed.

Lemma blank_run_two a b s :
  blank_run (String a (String b s))
  = (Str.is_space a && Str.is_space b) || blank_run (String b s).
Proof. reflexivity. Qed.

Lemma no_space_blank_run w : no_space w = true -> blank_run w = false.
Proof.
  induction w as [| a w IH]; [reflexivity |]. cbn [no_space].
  intros H. apply andb_true_iff in H as [Ha Hw]. apply negb_true_iff in Ha.
  destruct w as [| b w']; [reflexivity |].
  rewrite blank_run_two, Ha, (IH Hw). reflexivity.
Qed.

(** A word, one blank, then text that starts with no blank. *)
Lemma blank_run_word_then w c rest :
  no_space w = true -> Str.is_space c = false ->
  blank_run (String c rest) = false ->
  blank_run (w +:+ " " +:+ String c rest) = false.
Proof.
  intros Hw Hc Hr. induction w as [| a w IH].
  - rewrite append_empty, append_String, append_empty, blank_run_two.
    rewrite Hc, andb_false_r. exact Hr.
  - cbn [no_space] in Hw. apply andb_true_iff in Hw as [Ha Hw].
    apply negb_true_iff in Ha. specialize (IH Hw).
    rewrite append_String.
    destruct w as [| b w']; rewrite ?append_empty, ?append_String in *;
      rewrite blank_run_two, Ha, IH; reflexivity.
Qed.

Lemma join_solid_head w ws :
  Forall solid (w :: ws) ->
  exists c rest, Str.join " " (w :: ws) = String c rest /\ Str.is_space c = false.
Proof.
  intros H. inversion_clear H as [| ? ? [Hne Hw] _].
  destruct w as [| c w']; [contradiction |].
  cbn [no_space] in Hw. apply andb_true_iff in Hw as [Hc _].
  apply negb_true_iff in Hc.
  destruct ws; cbn [Str.join]; rewrite ?append_String; eauto.
Qed.

Lemma blank_run_join ws : Forall solid ws -> blank_run (Str.join " " ws) = false.
Proof.
  induction ws as [| w ws IH]; intros H; [reflexivity |].
  destruct ws as [| w' ws'].
  - cbn [Str.join]. apply no_space_blank_run. inversion_clear H as [| ? ? [_ Hw] _].
    exact Hw.
  - pose proof H as H'. inversion_clear H' as [| ? ? [_ Hw] Hws].
    destruct (join_solid_head w' ws' Hws) as (c & rest & E & Hc).
    specialize (IH Hws).
    change (Str.join " " (w :: w' :: ws'))
      with (w +:+ " " +:+ Str.join " " (w' :: ws')).
    rewrite E in *. apply blank_run_word_then; assumption.
Qed.

Lemma collapse_whitespace_no_blank_run raw :
  blank_run (collapse_whitespace raw) = false.
Proof.
  apply blank_run_join, split_ws_from_solid. discriminate.
Qed.

(** C9, at failing inputs. A marker set off by blanks leaves two blanks
    in a row in the stored name; '(Tm)' and '(r)' are not removed; and
    removing '(TM)' from '((TM)R)' leaves '(R)' in the stored name. The
    usual spelling of a vendor string is cleaned as the claim says. *)
Theorem C9_stored_name_keeps_blanks_and_marks :
  (snapshot_of (Faulty.named "Intel (R) Core (TM) i7") !! "processor"
   = Some (VStr "Intel  Core  i7") /\
   blank_run "Intel  Core  i7" = true) /\
  (snapshot_of (Faulty.named "AMD Athlon(Tm) 64 (r)") !! "processor"
   = Some (VStr "AMD Athlon(Tm) 64 (r)") /\
   has_mark "AMD Athlon(Tm) 64 (r)" = true) /\
  (snapshot_of (Faulty.named "Intel((TM)R) Core") !! "processor"
   = Some (VStr "Intel(R) Core") /\
   has_mark "Intel(R) Core" = true) /\
  (snapshot_of (Faulty.named "Intel(R)  Core(TM) i7-8550U   CPU @ 1.80GHz")
     !! "processor"
   = Some (VStr "Intel Core i7-8550U CPU @ 1.80GHz") /\
   blank_run "Intel Core i7-8550U CPU @ 1.80GHz" = false /\
   has_mark "Intel Core i7-8550U CPU @ 1.80GHz" = false).
Proof.
  repeat split; try reflexivity;
    rewrite snapshot_named by discriminate; reflexivity.
Qed.

(** * More of the code *)

(** ** The keys every snapshot holds *)

Section Grows.

Context {A B : Type}.

Lemma grows_still (m : M A) : (forall s, info (exec m s) = info s) -> grows m.
Proof. intros H s k Hk. rewrite H. exact Hk. Qed.

Lemma grows_ret (a : A) : grows (ret a).
Proof. apply grows_still. reflexivity. Qed.

Lemma grows_raise e : grows (@raise A e).
Proof. apply grows_still. reflexivity. Qed.

Lemma grows_call q (o : outcome A) : grows (call q o).
Proof. apply grows_still. reflexivity. Qed.

Lemma grows_bind (m : M A) (f : A -> M B) :
  grows m -> (forall a, grows (f a)) -> grows (bind m f).
Proof.
  intros Hm Hf s k Hk. specialize (Hm s k Hk). unfold exec, bind in *.
  destruct (m s) as [[a | e] s']; cbn [snd] in *; [apply Hf, Hm | exact Hm].
Qed.

Lemma grows_try_except (body handler : M A) :
  grows body -> grows handler -> grows (try_except body handler).
Proof.
  intros Hb Hh s k Hk. specialize (Hb s k Hk). unfold exec, try_except in *.
  destruct (body s) as [[a | e] s']; cbn [snd] in *; [exact Hb | apply Hh, Hb].
Qed.

Lemma grows_try_except_OSError (body handler : M A) :
  grows body -> grows handler -> grows (try_except_OSError body handler).
Proof.
  intros Hb Hh s k Hk. specialize (Hb s k Hk).
  unfold exec, try_except_OSError in *.
  destruct (body s) as [[a | e] s']; cbn [snd] in *; [exact Hb |].
  destruct (is_OSError e); [apply Hh, Hb | exact Hb].
Qed.

End Grows.

Lemma grows_observe e : grows (observe e).
Proof. apply grows_still. reflexivity. Qed.

Lemma grows_set_item k v : grows (set_item k v).
Proof.
  intros s k' Hk'. cbn. destruct (decide (k = k')) as [-> | Hne].
  - rewrite lookup_insert_eq. eauto.
  - rewrite lookup_insert_ne by exact Hne. exact Hk'.
Qed.

Lemma grows_get_item k : grows (get_item k).
Proof.
  apply grows_still. intros s. unfold exec, get_item.
  destruct (info s !! k); reflexivity.
Qed.

Lemma grows_get_item_default k d : grows (get_item_default k d).
Proof. apply grows_still. reflexivity. Qed.

Lemma grows_append_item k v : grows (append_item k v).
Proof.
  unfold append_item. apply grows_bind; [apply grows_get_item |].
  intros [| | | | | l |]; try apply grows_raise. apply grows_set_item.
Qed.

Lemma grows_get_total_storage : grows get_total_storage.
Proof. apply grows_still. reflexivity. Qed.

Lemma grows_set_total_storage n : grows (set_total_storage n).
Proof. apply grows_still. reflexivity. Qed.

Lemma grows_for_each {A} (l : list A) (body : A -> M unit) :
  (forall x, grows (body x)) -> grows (for_each l body).
Proof.
  intros Hb. induction l as [| x l IH]; cbn [for_each].
  - apply grows_ret.
  - apply grows_bind; [apply Hb | intros _; exact IH].
Qed.

Ltac grows_step :=
  lazymatch goal with
  | |- grows (bind _ _) => apply grows_bind; [| intros ?]
  | |- grows (ret _) => apply grows_ret
  | |- grows (raise _) => apply grows_raise
  | |- grows (try_except _ _) => apply grows_try_except
  | |- grows (try_except_OSError _ _) => apply grows_try_except_OSError
  | |- grows (call _ _) => apply grows_call
  | |- grows (observe _) => apply grows_observe
  | |- grows (set_item _ _) => apply grows_set_item
  | |- grows (get_item _) => apply grows_get_item
  | |- grows (get_item_default _ _) => apply grows_get_item_default
  | |- grows (append_item _ _) => apply grows_append_item
  | |- grows get_total_storage => apply grows_get_total_storage
  | |- grows (set_total_storage _) => apply grows_set_total_storage
  | |- grows (for_each _ _) => apply grows_for_each; intros ?
  | |- grows (if ?b then _ else _) => destruct b
  | |- grows (match ?x with _ => _ end) => destruct x
  end.

Ltac grows_tac := repeat grows_step.

(** No statement of the collector removes a key. *)
Lemma statements_grow h : Forall grows (statements h).
Proof.
  unfold statements, emit_progress, time_sleep,
    collect_identity, collect_uptime, collect_motherboard, get_motherboard_info,
    collect_processor, collect_memory, collect_storage, scan_partition,
    collect_graphics, get_gpu_info, collect_network, scan_interface,
    collect_battery, collect_temperatures, collect_fans, collect_processes,
    collect_load_average, timedelta, percent_used, as_str, as_number.
  cbv zeta. repeat (constructor; [grows_tac |]). constructor.
Qed.

Lemma exec_all_grows l :
  Forall grows l ->
  forall s k, is_Some (info s !! k) -> is_Some (info (exec_all l s) !! k).
Proof.
  induction 1 as [| m l Hm _ IH]; intros s k Hk; [exact Hk |].
  cbn [exec_all fold_left]. apply IH, Hm, Hk.
Qed.

Section Settles.

Context {A B : Type} (k : string).

Lemma settles_raise e : settles k (@raise A e).
Proof. intros s. exact I. Qed.

Lemma settles_here (m : M A) (f : A -> M B) :
  settles k m -> (forall a, grows (f a)) -> settles k (bind m f).
Proof.
  intros Hm Hf s. specialize (Hm s). unfold bind.
  destruct (m s) as [[a | e] s']; [| exact I].
  specialize (Hf a s' k Hm). unfold exec in Hf.
  destruct (f a s') as [[b | e] s'']; [exact Hf | exact I].
Qed.

Lemma settles_later (m : M A) (f : A -> M B) :
  (forall a, settles k (f a)) -> settles k (bind m f).
Proof.
  intros Hf s. unfold bind. destruct (m s) as [[a | e] s']; [apply Hf | exact I].
Qed.

Lemma settles_try_except (body handler : M A) :
  settles k body -> settles k handler -> settles k (try_except body handler).
Proof.
  intros Hb Hh s. specialize (Hb s). unfold try_except.
  destruct (body s) as [[a | e] s']; [exact Hb | apply Hh].
Qed.

End Settles.

Lemma settles_set_item k v : settles k (set_item k v).
Proof. intros s. cbn. rewrite lookup_insert_eq. eauto. Qed.

(** A statement that cannot raise and settles [k] leaves [k] assigned. *)
Lemma settled {A} k (m : M A) :
  never_raises m -> settles k m -> forall s, is_Some (info (exec m s) !! k).
Proof.
  intros Hn Hs s. specialize (Hs s). destruct (Hn s) as (a & s' & E).
  unfold exec. rewrite E in *. exact Hs.
Qed.

Ltac settles_tac :=
  lazymatch goal with
  | |- settles ?k (set_item ?k _) => apply settles_set_item
  | |- settles _ (raise _) => apply settles_raise
  | |- settles _ (try_except _ _) => apply settles_try_except; settles_tac
  | |- settles _ (bind _ _) =>
      first [ solve [apply settles_later; intros ?; settles_tac]
            | solve [apply settles_here; [settles_tac | intros ?; grows_tac]] ]
  | |- settles _ (if ?b then _ else _) => destruct b; settles_tac
  | |- settles _ (match ?x with _ => _ end) => destruct x; settles_tac
  end.

Lemma collect_identity_settles sys h k :
  In k ["os_full"; "os_architecture"; "hostname"; "username"] ->
  settles k (collect_identity sys h).
Proof.
  intros Hk. unfold collect_identity, as_str.
  repeat (destruct Hk as [<- | Hk]; [settles_tac |]). destruct Hk.
Qed.

Lemma collect_uptime_settles h k :
  In k ["uptime"; "boot_time"] -> settles k (collect_uptime h).
Proof.
  intros Hk. unfold collect_uptime, timedelta. cbv zeta.
  repeat (destruct Hk as [<- | Hk]; [settles_tac |]). destruct Hk.
Qed.

Lemma collect_motherboard_settles sys h :
  settles "motherboard" (collect_motherboard sys h).
Proof. unfold collect_motherboard. settles_tac. Qed.

Lemma collect_processor_settles c h k :
  In k ["processor"; "cpu_cores_physical"; "cpu_cores_logical"; "cpu_usage";
        "cpu_usage_per_core"] ->
  settles k (collect_processor c h).
Proof.
  intros Hk. unfold collect_processor, as_str.
  repeat (destruct Hk as [<- | Hk]; [settles_tac |]). destruct Hk.
Qed.

Lemma collect_memory_settles h k :
  In k ["ram_total_gb"; "ram_used_gb"; "ram_available_gb"; "ram_percent";
        "swap_total_gb"; "swap_used_gb"; "swap_percent"; "memory_capabilities"] ->
  settles k (collect_memory h).
Proof.
  intros Hk. unfold collect_memory, as_number.
  repeat (destruct Hk as [<- | Hk]; [settles_tac |]). destruct Hk.
Qed.

Lemma collect_storage_settles sys h k :
  In k ["storage_devices"; "storage_capabilities"] ->
  settles k (collect_storage sys h).
Proof.
  intros Hk. unfold collect_storage, scan_partition, percent_used. cbv zeta.
  repeat (destruct Hk as [<- | Hk]; [settles_tac |]). destruct Hk.
Qed.

Lemma collect_graphics_settles sys g h :
  settles "gpu_devices" (collect_graphics sys g h).
Proof. unfold collect_graphics, get_gpu_info. settles_tac. Qed.

Lemma collect_network_settles h k :
  In k ["network_interfaces"; "network_stats"] -> settles k (collect_network h).
Proof.
  intros Hk. unfold collect_network, scan_interface. cbv zeta.
  repeat (destruct Hk as [<- | Hk]; [settles_tac |]). destruct Hk.
Qed.

Lemma collect_temperatures_settles o : settles "temperatures" (collect_temperatures o).
Proof. unfold collect_temperatures. settles_tac. Qed.

Lemma collect_fans_settles o : settles "fans" (collect_fans o).
Proof. unfold collect_fans. settles_tac. Qed.

Lemma collect_processes_settles h k :
  In k ["process_count"; "process_running"; "process_sleeping"] ->
  settles k (collect_processes h).
Proof.
  intros Hk. unfold collect_processes.
  repeat (destruct Hk as [<- | Hk]; [settles_tac |]). destruct Hk.
Qed.

(** A key settled by a statement that cannot raise is in the snapshot. *)
Lemma snapshot_settled h l1 m l2 (ks : list string) :
  statements h = l1 ++ m :: l2 ->
  never_raises m ->
  (forall k, In k ks -> settles k m) ->
  Forall (fun k => is_Some (snapshot_of h !! k)) ks.
Proof.
  intros E Hn Hs. apply Forall_forall. intros k Hk.
  apply list_elem_of_In in Hk.
  rewrite snapshot_of_exec_all, E, exec_all_app.
  cbn [exec_all fold_left]. fold (exec_all l2 (exec m (exec_all l1 start))).
  pose proof (statements_grow h) as Hg. rewrite E in Hg.
  apply Forall_app in Hg as [_ Hg]. inversion_clear Hg as [| ? ? _ Hg2].
  apply exec_all_grows; [exact Hg2 |]. apply settled; auto.
Qed.

Ltac at_statement h n :=
  apply (snapshot_settled h (firstn n (statements h)) _
           (skipn (S n) (statements h)) _ eq_refl).

(** Whatever the host answers, the snapshot holds each of the thirty
    guaranteed keys; on a host where every query raises it holds no other
    key. *)
Theorem snapshot_guaranteed_keys (h : Host) :
  Forall (fun k => is_Some (snapshot_of h !! k)) guaranteed /\
  dom (snapshot_of Silent.host) = list_to_set guaranteed.
Proof.
  split.
  - change guaranteed with
      (["os_full"; "os_architecture"; "hostname"; "username"]
       ++ ["uptime"; "boot_time"] ++ ["motherboard"]
       ++ ["processor"; "cpu_cores_physical"; "cpu_cores_logical"; "cpu_usage";
           "cpu_usage_per_core"]
       ++ ["ram_total_gb"; "ram_used_gb"; "ram_available_gb"; "ram_percent";
           "swap_total_gb"; "swap_used_gb"; "swap_percent"; "memory_capabilities"]
       ++ ["storage_devices"; "storage_capabilities"] ++ ["gpu_devices"]
       ++ ["network_interfaces"; "network_stats"]
       ++ ["temperatures"] ++ ["fans"]
       ++ ["process_count"; "process_running"; "process_sleeping"]).
    repeat (apply Forall_app; split).
    + at_statement h 2%nat;
        [apply collect_identity_never_raises | apply collect_identity_settles].
    + at_statement h 5%nat;
        [apply collect_uptime_never_raises | apply collect_uptime_settles].
    + at_statement h 8%nat; [apply collect_motherboard_never_raises |].
      intros k [<- | []]. apply collect_motherboard_settles.
    + at_statement h 11%nat;
        [apply collect_processor_never_raises | apply collect_processor_settles].
    + at_statement h 14%nat;
        [apply collect_memory_never_raises | apply collect_memory_settles].
    + at_statement h 17%nat;
        [apply collect_storage_never_raises | apply collect_storage_settles].
    + at_statement h 20%nat; [apply collect_graphics_never_raises |].
      intros k [<- | []]. apply collect_graphics_settles.
    + at_statement h 23%nat;
        [apply collect_network_never_raises | apply collect_network_settles].
    + at_statement h 29%nat; [apply collect_temperatures_never_raises |].
      intros k [<- | []]. apply collect_temperatures_settles.
    + at_statement h 30%nat; [apply collect_fans_never_raises |].
      intros k [<- | []]. apply collect_fans_settles.
    + at_statement h 33%nat;
        [apply collect_processes_never_raises | apply collect_processes_settles].
  - apply (bool_decide_unpack _). vm_compute. exact I.
Qed.

(** ** Reading a key of the snapshot, under binders *)

Lemma split_at_nth {A} (d : A) (l : list A) : forall n,
  (n < length l)%nat -> l = firstn n l ++ nth n l d :: skipn (S n) l.
Proof.
  induction l as [| x l IH]; intros n Hn; cbn in Hn; [lia |].
  destruct n as [| n]; [reflexivity |].
  cbn [firstn nth skipn app]. f_equal. apply IH. lia.
Qed.

Lemma snapshot_through h k n (P : option value -> Prop) :
  (n < length (statements h))%nat ->
  (forall s, P (info (exec (nth n (statements h) (ret tt)) s) !! k)) ->
  Forall (preserves k) (skipn (S n) (statements h)) ->
  P (snapshot_of h !! k).
Proof.
  intros Hn HP Hl.
  rewrite (snapshot_split h k (firstn n (statements h))
             (nth n (statements h) (ret tt)) (skipn (S n) (statements h))).
  - apply HP.
  - apply split_at_nth, Hn.
  - exact Hl.
Qed.

(** What the [n]-th statement leaves in [k] is what the snapshot holds. *)
Ltac snapshot_via h k n s :=
  pattern (snapshot_of h !! k);
  apply (snapshot_through h k n);
  [ cbn; lia
  | cbn [statements nth]; intros s
  | cbn [statements skipn]; unfold emit_progress, time_sleep; preserves_tac ].

(** ** The motherboard record *)

Lemma or_unknown_not_empty s : or_unknown s <> "".
Proof. unfold or_unknown. destruct (String.eqb s "") eqn:E; [discriminate |].
  apply String.eqb_neq, E. Qed.

(** The rows of [wmic] leave the record as it is or fill its four entries,
    none of them with an empty string. *)
Lemma wmic_rows_record lines m p v sn :
  exists m' p' v' sn',
    wmic_rows lines (motherboard_record m p v sn) = motherboard_record m' p' v' sn' /\
    ((m', p', v', sn') = (m, p, v, sn) \/
     (m' <> "" /\ p' <> "" /\ v' <> "" /\ sn' <> "")).
Proof.
  induction lines as [| line rest IH]; cbn [wmic_rows].
  - exists m, p, v, sn. split; [reflexivity | left; reflexivity].
  - destruct (negb (String.eqb (Str.strip line) "") && Str.contains "," line);
      [| exact IH].
    destruct (5 <=? length (Str.split "," line))%nat; [| exact IH].
    eexists _, _, _, _. split; [reflexivity |]. right.
    repeat split; apply or_unknown_not_empty.
Qed.

(** The lines of [dmidecode] keep the shape of the record and never touch
    the serial number. *)
Lemma dmidecode_lines_record lines : forall m p v sn,
  exists m' p' v',
    fold_left dmidecode_line lines (motherboard_record m p v sn)
    = motherboard_record m' p' v' sn.
Proof.
  induction lines as [| line rest IH]; intros m p v sn; cbn [fold_left].
  - exists m, p, v. reflexivity.
  - unfold dmidecode_line at 2. cbv zeta.
    destruct (Str.contains "Manufacturer:" (Str.strip line)); [apply IH |].
    destruct (Str.contains "Product Name:" (Str.strip line)); [apply IH |].
    destruct (Str.contains "Version:" (Str.strip line)); apply IH.
Qed.

Lemma get_motherboard_info_record sys h s :
  exists m p v sn s',
    get_motherboard_info sys h s = (Returns (motherboard_record m p v sn), s') /\
    (sys <> Returns "Windows" -> sn = "Unknown") /\
    (sys = Returns "Windows" ->
     (m, p, v, sn) = ("Unknown", "Unknown", "Unknown", "Unknown") \/
     (m <> "" /\ p <> "" /\ v <> "" /\ sn <> "")) /\
    (sys <> Returns "Windows" -> sys <> Returns "Linux" ->
     (m, p, v, sn) = ("Unknown", "Unknown", "Unknown", "Unknown")).
Proof.
  unfold get_motherboard_info. cbv zeta.
  fold (motherboard_record "Unknown" "Unknown" "Unknown" "Unknown").
  unfold try_except, bind, call, ret.
  destruct sys as [sys | e]; cbn [fst snd].
  2:{ eexists _, _, _, _, _. split; [reflexivity |].
      repeat split; try reflexivity; try discriminate. }
  destruct (String.eqb sys "Windows") eqn:Ew.
  - apply String.eqb_eq in Ew. subst sys.
    destruct (wmic_baseboard h) as [r | e]; cbn [fst snd].
    + destruct (returncode r =? 0).
      * destruct (wmic_rows_record (tl (Str.split newline (Str.strip (stdout r))))
                    "Unknown" "Unknown" "Unknown" "Unknown")
          as (m & p & v & sn & E & H).
        rewrite E. eexists _, _, _, _, _. split; [reflexivity |].
        split; [intros C; contradiction C; reflexivity |].
        split; [intros _; exact H |]. intros C; contradiction C; reflexivity.
      * eexists _, _, _, _, _. split; [reflexivity |].
        split; [reflexivity |]. split; [left; reflexivity | reflexivity].
    + eexists _, _, _, _, _. split; [reflexivity |].
      split; [reflexivity |]. split; [left; reflexivity | reflexivity].
  - assert (Hw : Returns sys <> Returns "Windows").
    { intros [= ->]. discriminate Ew. }
    destruct (String.eqb sys "Linux") eqn:El.
    + apply String.eqb_eq in El. subst sys.
      destruct (dmidecode h) as [r | e]; cbn [fst snd].
      * destruct (returncode r =? 0).
        -- destruct (dmidecode_lines_record (Str.split newline (stdout r))
                       "Unknown" "Unknown" "Unknown" "Unknown")
             as (m & p & v & E).
           rewrite E. eexists _, _, _, _, _. split; [reflexivity |].
           split; [reflexivity |]. split; [intros C; contradiction |].
           intros _ C. contradiction C. reflexivity.
        -- eexists _, _, _, _, _. split; [reflexivity |].
           split; [reflexivity |]. split; [intros C; contradiction | reflexivity].
      * eexists _, _, _, _, _. split; [reflexivity |].
        split; [reflexivity |]. split; [intros C; contradiction | reflexivity].
    + eexists _, _, _, _, _. split; [reflexivity |].
      split; [reflexivity |]. split; [intros C; contradiction | reflexivity].
Qed.

(** Whatever the inventory tools print or raise, the snapshot holds a
    motherboard record with exactly the entries manufacturer, product,
    version and serial, all strings. Off Windows the serial is 'Unknown';
    on Windows the four entries are all 'Unknown' or all non-empty; on a
    system that is neither Windows nor Linux all four are 'Unknown'. *)
Theorem snapshot_motherboard_record (h : Host) :
  exists m p v sn,
    snapshot_of h !! "motherboard" = Some (VDict (motherboard_record m p v sn)) /\
    (platform_system h <> Returns "Windows" -> sn = "Unknown") /\
    (platform_system h = Returns "Windows" ->
     (m, p, v, sn) = ("Unknown", "Unknown", "Unknown", "Unknown") \/
     (m <> "" /\ p <> "" /\ v <> "" /\ sn <> "")) /\
    (platform_system h <> Returns "Windows" ->
     platform_system h <> Returns "Linux" ->
     (m, p, v, sn) = ("Unknown", "Unknown", "Unknown", "Unknown")).
Proof.
  snapshot_via h "motherboard" 8%nat s.
  destruct (get_motherboard_info_record (platform_system h) (motherboard h) s)
    as (m & p & v & sn & s' & E & H).
  exists m, p, v, sn. split; [| exact H].
  unfold collect_motherboard, exec, bind. rewrite E. cbn.
  apply lookup_insert_eq.
Qed.

(** ** One row of [wmic] *)

Lemma append_empty_r s : s +:+ "" = s.
Proof. induction s as [| a s IH]; [reflexivity |]. rewrite append_String, IH. reflexivity. Qed.

Lemma append_snoc s a t : (s +:+ String a "") +:+ t = s +:+ String a t.
Proof.
  induction s as [| b s IH]; [reflexivity |].
  rewrite !append_String, IH. reflexivity.
Qed.

Lemma prefix_comma a s : String.prefix "," (String a s) = Ascii.eqb a comma.
Proof.
  change (String.prefix "," (String a s))
    with (if ascii_dec "," a then String.prefix "" s else false).
  destruct (ascii_dec "," a) as [<- | Hne]; [destruct s; reflexivity |].
  symmetry. apply Ascii.eqb_neq. intros ->. apply Hne. reflexivity.
Qed.

(** Splitting at commas a text without comma gives the text. *)
Lemma split_from_free w : forall cur,
  free comma w = true -> Str.split_from "," 0 cur w = [cur +:+ w].
Proof.
  induction w as [| a w IH]; intros cur Hw.
  - rewrite append_empty_r. reflexivity.
  - cbn [free] in Hw. apply andb_true_iff in Hw as [Ha Hw].
    apply negb_true_iff in Ha. cbn [Str.split_from].
    rewrite prefix_comma, Ha, (IH _ Hw), append_snoc. reflexivity.
Qed.

(** Splitting at commas cuts after a field without comma. *)
Lemma split_from_field w rest : forall cur,
  free comma w = true ->
  Str.split_from "," 0 cur (w +:+ String comma rest)
  = (cur +:+ w) :: Str.split_from "," 0 "" rest.
Proof.
  induction w as [| a w IH]; intros cur Hw.
  - rewrite append_empty, append_empty_r. cbn [Str.split_from].
    rewrite prefix_comma. reflexivity.
  - cbn [free] in Hw. apply andb_true_iff in Hw as [Ha Hw].
    apply negb_true_iff in Ha. rewrite append_String. cbn [Str.split_from].
    rewrite prefix_comma, Ha, (IH _ Hw), append_snoc. reflexivity.
Qed.

Lemma contains_comma w rest : Str.contains "," (w +:+ String comma rest) = true.
Proof.
  induction w as [| a w IH].
  - rewrite append_empty. cbn [Str.contains]. rewrite prefix_comma. reflexivity.
  - rewrite append_String. cbn [Str.contains]. rewrite IH. apply orb_true_r.
Qed.

(** Joining fields without comma and splitting the line gives the fields
    back. *)
Lemma split_join_comma (fields : list string) :
  fields <> [] ->
  Forall (fun f => free comma f = true) fields ->
  Str.split "," (Str.join "," fields) = fields.
Proof.
  intros Hne H. unfold Str.split.
  induction H as [| f fields Hf Hfs IH]; [contradiction |].
  destruct fields as [| g fields].
  - cbn [Str.join]. rewrite split_from_free by exact Hf. reflexivity.
  - change (Str.join "," (f :: g :: fields))
      with (f +:+ String comma (Str.join "," (g :: fields))).
    rewrite split_from_field by exact Hf. rewrite append_empty.
    f_equal. apply IH. discriminate.
Qed.

(** The first row of [wmic baseboard ... /format:csv] that is not blank
    and has five columns fills the record: manufacturer, product, serial
    number and version are read from columns 2 to 5 in this order, each
    without the blanks around it and 'Unknown' when nothing is left; the
    rows after it are not read. *)
Theorem wmic_row_fills_record
    (node manufacturer product serial version : string) (rest : list string)
    (m p v sn : string) :
  let row := Str.join "," [node; manufacturer; product; serial; version] in
  Forall (fun f => free comma f = true)
    [node; manufacturer; product; serial; version] ->
  Str.strip row <> "" ->
  wmic_rows (row :: rest) (motherboard_record m p v sn)
  = motherboard_record (or_unknown (Str.strip manufacturer))
      (or_unknown (Str.strip product)) (or_unknown (Str.strip version))
      (or_unknown (Str.strip serial)).
Proof.
  intros row Hf Hrow. cbn [wmic_rows]. apply String.eqb_neq in Hrow.
  rewrite Hrow. cbn [negb andb].
  assert (Hc : Str.contains "," row = true).
  { subst row.
    change (Str.join "," [node; manufacturer; product; serial; version])
      with (node +:+ String comma
              (Str.join "," [manufacturer; product; serial; version])).
    apply contains_comma. }
  rewrite Hc. subst row. rewrite split_join_comma by (discriminate || exact Hf).
  reflexivity.
Qed.

Lemma wmic_row_fills_record_witness :
  wmic_rows ["DESKTOP-1,ASUSTeK COMPUTER INC., PRIME B450M-A ,,Rev X.0x";
             "DESKTOP-1,Other,Board,123,1"]
    (motherboard_record "Unknown" "Unknown" "Unknown" "Unknown")
  = motherboard_record "ASUSTeK COMPUTER INC." "PRIME B450M-A" "Rev X.0x" "Unknown".
Proof.
  apply (wmic_row_fills_record "DESKTOP-1" "ASUSTeK COMPUTER INC."
           " PRIME B450M-A " "" "Rev X.0x").
  - repeat constructor.
  - discriminate.
Defined.

(** ** The graphics step *)

(** Appending the images of a list, one by one, to a list held by [k]. *)
Lemma for_each_append_item {A} k (f : A -> value) (xs : list A) : forall s l,
  info s !! k = Some (VList l) ->
  exists s',
    for_each xs (fun x => append_item k (f x)) s = (Returns tt, s') /\
    info s' = <[k := VList (l ++ map f xs)]> (info s) /\
    trace s' = trace s /\ total_storage s' = total_storage s.
Proof.
  induction xs as [| x xs IH]; intros s l Hl; cbn [for_each map].
  - exists s. rewrite app_nil_r. repeat split. symmetry. apply insert_id, Hl.
  - unfold bind at 1. unfold append_item at 1, bind at 1, get_item. rewrite Hl.
    cbn [set_item].
    match goal with
    | |- context [for_each xs _ ?s0] =>
        destruct (IH s0 (l ++ [f x])) as (s' & E & Hi & Ht & Hts);
          [cbn; apply lookup_insert_eq |]
    end.
    exists s'. split; [exact E |]. cbn in Hi, Ht, Hts.
    rewrite Hi, insert_insert_eq, <- app_assoc. repeat split; assumption.
Qed.

(** When GPUtil lists an adapter, the snapshot holds the adapters it
    lists; when GPUtil raises, the snapshot holds none. Either way the step
    asks nothing else: the inventory command of the fallback is not run. *)
Lemma collect_graphics_gputil sys h s :
  getGPUs h <> Returns [] ->
  info (exec (collect_graphics sys true h) s) !! "gpu_devices"
  = Some (VList (match getGPUs h with
                 | Returns gpus => map gpu_entry gpus
                 | Raises _ => []
                 end)) /\
  trace (exec (collect_graphics sys true h) s) = trace s ++ [called q_getGPUs].
Proof.
  intros Hne. unfold exec.
  enough (exists s', collect_graphics sys true h s = (Returns tt, s') /\
            info s' !! "gpu_devices"
            = Some (VList (match getGPUs h with
                           | Returns gpus => map gpu_entry gpus
                           | Raises _ => []
                           end)) /\
            trace s' = trace s ++ [called q_getGPUs]) as (s' & -> & H).
  { exact H. }
  unfold collect_graphics.
  unfold bind at 1. cbn [set_item]. unfold try_except. unfold bind at 1.
  unfold bind at 1, call at 1.
  destruct (getGPUs h) as [gpus | e].
  - match goal with
    | |- context [for_each gpus _ ?s0] =>
        destruct (for_each_append_item "gpu_devices" gpu_entry gpus s0 [])
          as (s' & E & Hi & Ht & _); [cbn; apply lookup_insert_eq | rewrite E]
    end.
    cbn [app info trace] in Hi, Ht.
    unfold bind, get_item. rewrite Hi, lookup_insert_eq.
    destruct gpus as [| g gs]; [contradiction Hne; reflexivity |].
    cbn [map truthy negb fst snd ret]. exists s'.
    rewrite Hi, lookup_insert_eq. repeat split. exact Ht.
  - cbn. eexists. split; [reflexivity |]. cbn.
    split; [apply lookup_insert_eq | reflexivity].
Qed.

Theorem gputil_answer_is_final (h : Host) :
  HAS_GPUTIL h = true ->
  getGPUs (graphics h) <> Returns [] ->
  snapshot_of h !! "gpu_devices"
  = Some (VList (match getGPUs (graphics h) with
                 | Returns gpus => map gpu_entry gpus
                 | Raises _ => []
                 end)) /\
  forall s,
    trace (exec (collect_graphics (platform_system h) (HAS_GPUTIL h) (graphics h)) s)
    = trace s ++ [called q_getGPUs].
Proof.
  intros Hg Hne. split.
  - snapshot_via h "gpu_devices" 20%nat s. rewrite Hg.
    apply collect_graphics_gputil, Hne.
  - intros s. rewrite Hg. apply collect_graphics_gputil, Hne.
Qed.

Lemma gputil_answer_is_final_witness :
  snapshot_of Vary.with_gpu !! "gpu_devices"
  = Some (VList [gpu_entry Vary.nvidia]).
Proof.
  apply (gputil_answer_is_final Vary.with_gpu); [reflexivity | discriminate].
Defined.

(** The line the Windows fallback picks is not blank, is not the header
    and does not name a Microsoft adapter. *)
Lemma first_adapter_line_picks lines name :
  first_adapter_line lines = Some name ->
  name <> "" /\ name <> "Name" /\ Str.contains "Microsoft" name = false.
Proof.
  induction lines as [| line rest IH]; cbn [first_adapter_line]; [discriminate |].
  destruct (String.eqb (Str.strip line) "") eqn:E1; cbn [negb andb]; [exact IH |].
  destruct (String.eqb (Str.strip line) "Name") eqn:E2; cbn [negb andb]; [exact IH |].
  destruct (Str.contains "Microsoft" (Str.strip line)) eqn:E3; cbn [negb];
    [exact IH |].
  intros [= <-]. apply String.eqb_neq in E1, E2. repeat split; assumption.
Qed.

Lemma get_gpu_info_result sys h s :
  exists r s',
    get_gpu_info sys h s = (Returns r, s') /\ info s' = info s /\
    (sys = Returns "Windows" -> forall name, r = Some name ->
     name <> "" /\ name <> "Name" /\ Str.contains "Microsoft" name = false).
Proof.
  unfold get_gpu_info, try_except, bind, call, ret.
  destruct sys as [sys | e]; cbn [fst snd];
    [| eexists _, _; repeat split; discriminate].
  destruct (String.eqb sys "Windows") eqn:Ew.
  - destruct (wmic_videocontroller h) as [r | e]; cbn [fst snd];
      [| eexists _, _; repeat split; discriminate].
    destruct (returncode r =? 0); [| eexists _, _; repeat split; discriminate].
    eexists _, _. split; [reflexivity |]. split; [reflexivity |].
    intros _ name. apply first_adapter_line_picks.
  - assert (Hw : Returns sys <> Returns "Windows").
    { intros [= ->]. discriminate Ew. }
    destruct (String.eqb sys "Linux").
    + destruct (lspci h) as [r | e]; cbn [fst snd];
        [| eexists _, _; repeat split; contradiction].
      destruct (returncode r =? 0);
        eexists _, _; (split; [reflexivity |]); (split; [reflexivity |]);
        intros C; contradiction.
    + eexists _, _. split; [reflexivity |]. split; [reflexivity |].
      intros C; contradiction.
Qed.

(** Without GPUtil, or when it lists nothing, the fallback adds one
    entry at most. *)
Lemma collect_graphics_fallback sys gputil h s :
  gputil = false \/ getGPUs h = Returns [] ->
  exists l,
    info (exec (collect_graphics sys gputil h) s) !! "gpu_devices" = Some (VList l) /\
    (l = [] \/
     exists name,
       l = [VDict [("name", VStr name)]] /\
       name <> "" /\ name <> "Unknown Graphics Card" /\
       (sys = Returns "Windows" ->
        name <> "Name" /\ Str.contains "Microsoft" name = false)).
Proof.
  intros Hcase. unfold collect_graphics, exec.
  unfold bind at 1. cbn [set_item]. unfold try_except. unfold bind at 1.
  assert (Hfirst : forall s0, info s0 !! "gpu_devices" = Some (VList []) ->
     exists s1,
       (if gputil
        then let* gpus := call q_getGPUs (getGPUs h) in
             for_each gpus (fun g => append_item "gpu_devices" (gpu_entry g))
        else ret tt) s0 = (Returns tt, s1) /\ info s1 = info s0).
  { intros s0 H0. destruct Hcase as [-> | Hg].
    - exists s0. split; reflexivity.
    - destruct gputil; [| exists s0; split; reflexivity].
      unfold bind, call. rewrite Hg. cbn [for_each ret]. eexists. split; reflexivity. }
  match goal with
  | |- context [(if gputil then _ else _) ?s0] =>
      destruct (Hfirst s0) as (s1 & E1 & Hi1); [cbn; apply lookup_insert_eq |];
        rewrite E1
  end.
  cbn [info] in Hi1. unfold bind at 1, get_item.
  rewrite Hi1, lookup_insert_eq. cbn [truthy negb]. unfold bind at 1.
  destruct (get_gpu_info_result sys h s1) as (r & s2 & E2 & Hi2 & Hr).
  rewrite E2.
  assert (Hnone : exists l,
    info (ret tt s2).2 !! "gpu_devices" = Some (VList l) /\
    (l = [] \/
     exists name,
       l = [VDict [("name", VStr name)]] /\
       name <> "" /\ name <> "Unknown Graphics Card" /\
       (sys = Returns "Windows" ->
        name <> "Name" /\ Str.contains "Microsoft" name = false))).
  { exists []. cbn [ret fst snd]. rewrite Hi2, Hi1, lookup_insert_eq.
    split; [reflexivity | left; reflexivity]. }
  destruct r as [name |]; [| exact Hnone].
  destruct (String.eqb name "") eqn:En; cbn [negb andb]; [exact Hnone |].
  destruct (String.eqb name "Unknown Graphics Card") eqn:Eu; cbn [negb];
    [exact Hnone |].
  unfold append_item, bind, get_item. rewrite Hi2, Hi1, lookup_insert_eq.
  cbn [set_item fst snd info app]. rewrite lookup_insert_eq.
  eexists. split; [reflexivity |]. right. exists name.
  apply String.eqb_neq in En, Eu. split; [reflexivity |].
  split; [exact En |]. split; [exact Eu |].
  intros Hw. destruct (Hr Hw name eq_refl) as (_ & ? & ?). split; assumption.
Qed.

(** Without GPUtil, or when GPUtil lists no adapter, the snapshot lists
    no adapter or exactly one, found by the inventory command; its entry
    has a name only, which is not empty; on Windows it is not the header
    'Name' and does not contain 'Microsoft'. *)
Theorem gpu_fallback_lists_one_adapter_at_most (h : Host) :
  HAS_GPUTIL h = false \/ getGPUs (graphics h) = Returns [] ->
  exists l,
    snapshot_of h !! "gpu_devices" = Some (VList l) /\
    (l = [] \/
     exists name,
       l = [VDict [("name", VStr name)]] /\
       name <> "" /\ name <> "Unknown Graphics Card" /\
       (platform_system h = Returns "Windows" ->
        name <> "Name" /\ Str.contains "Microsoft" name = false)).
Proof.
  intros Hcase. snapshot_via h "gpu_devices" 20%nat s.
  apply collect_graphics_fallback, Hcase.
Qed.

Lemma gpu_fallback_lists_one_adapter_at_most_witness :
  exists l,
    snapshot_of Vary.without_gputil !! "gpu_devices" = Some (VList l) /\
    (l = [] \/
     exists name,
       l = [VDict [("name", VStr name)]] /\
       name <> "" /\ name <> "Unknown Graphics Card" /\
       (platform_system Vary.without_gputil = Returns "Windows" ->
        name <> "Name" /\ Str.contains "Microsoft" name = false)).
Proof.
  apply (gpu_fallback_lists_one_adapter_at_most Vary.without_gputil).
  left. reflexivity.
Defined.

(** ** The loop over the volumes *)

Lemma scan_partition_passable sys h io p s l :
  disk_io_counters h = Returns (Some io) ->
  passable sys h p ->
  info s !! "storage_devices" = Some (VList l) ->
  exists s',
    scan_partition (Returns sys) h p s = (Returns tt, s') /\
    info s' = <["storage_devices" :=
                 VList (l ++ match usage_read sys h p with
                             | Some u => [volume_entry sys io p u]
                             | None => []
                             end)]> (info s) /\
    total_storage s' = total_storage s
                       + match usage_read sys h p with
                         | Some u => du_total u
                         | None => 0
                         end.
Proof.
  intros Hio Hp Hl. unfold scan_partition, usage_read, try_except_OSError.
  unfold bind at 1, call at 1. cbn [fst snd].
  destruct (String.eqb sys "Windows" && removable p) eqn:Hskip.
  - eexists. split; [reflexivity |]. cbn. rewrite app_nil_r, Z.add_0_r.
    split; [| reflexivity]. symmetry. apply insert_id, Hl.
  - destruct Hp as [Hp | Hp]; [congruence |].
    unfold bind at 1, call at 1.
    destruct (disk_usage h (mountpoint p)) as [u | e].
    + unfold bind, call, get_total_storage, set_total_storage, percent_used.
      cbn [fst snd info trace total_storage]. rewrite Hio.
      destruct (du_total u =? 0) eqn:Hz; [apply Z.eqb_eq in Hz; contradiction |].
      cbn [fst snd ret info]. unfold append_item, bind, get_item.
      cbn [info]. rewrite Hl. cbn [fst snd set_item info total_storage].
      eexists. split; [reflexivity |]. cbn. split; reflexivity.
    + cbn [fst snd]. rewrite Hp. eexists. split; [reflexivity |]. cbn.
      rewrite app_nil_r, Z.add_0_r. split; [| reflexivity].
      symmetry. apply insert_id, Hl.
Qed.

Lemma scan_partitions_passable sys h io (ps : list sdiskpart) :
  disk_io_counters h = Returns (Some io) ->
  Forall (passable sys h) ps ->
  forall s l,
    info s !! "storage_devices" = Some (VList l) ->
    exists s',
      for_each ps (scan_partition (Returns sys) h) s = (Returns tt, s') /\
      info s' = <["storage_devices" :=
                   VList (l ++ omap (fun p => volume_entry sys io p
                                                <$> usage_read sys h p) ps)]>
                  (info s) /\
      total_storage s' = total_storage s + total_read sys h ps.
Proof.
  intros Hio Hps. induction Hps as [| p ps Hp Hps IH]; intros s l Hl.
  - exists s. cbn. rewrite app_nil_r. unfold total_read. cbn.
    rewrite Z.add_0_r. repeat split. symmetry. apply insert_id, Hl.
  - cbn [for_each]. unfold bind at 1.
    destruct (scan_partition_passable sys h io p s l Hio Hp Hl)
      as (s1 & E1 & Hi1 & Ht1).
    rewrite E1.
    destruct (IH s1 (l ++ match usage_read sys h p with
                          | Some u => [volume_entry sys io p u]
                          | None => []
                          end)) as (s2 & E2 & Hi2 & Ht2).
    { rewrite Hi1. apply lookup_insert_eq. }
    exists s2. split; [exact E2 |]. rewrite Hi2, Hi1, insert_insert_eq, Ht2, Ht1.
    unfold total_read. cbn [omap list_omap].
    destruct (usage_read sys h p) as [u |]; cbn [fmap option_fmap option_map];
      cbn [map fold_right]; rewrite <- app_assoc; split;
      first [reflexivity | lia].
Qed.

Lemma collect_storage_passable sys h ps io s :
  disk_partitions h = Returns ps ->
  disk_io_counters h = Returns (Some io) ->
  Forall (passable sys h) ps ->
  info (exec (collect_storage (Returns sys) h) s) !! "storage_devices"
  = Some (VList (omap (fun p => volume_entry sys io p <$> usage_read sys h p) ps)) /\
  info (exec (collect_storage (Returns sys) h) s) !! "storage_capabilities"
  = Some (VDict (get_storage_capabilities
                   (fdiv (of_int (total_read sys h ps)) GiB))).
Proof.
  intros Hps Hio Hall. unfold exec.
  enough (exists s',
    collect_storage (Returns sys) h s = (Returns tt, s') /\
    info s' !! "storage_devices"
    = Some (VList (omap (fun p => volume_entry sys io p <$> usage_read sys h p) ps)) /\
    info s' !! "storage_capabilities"
    = Some (VDict (get_storage_capabilities
                     (fdiv (of_int (total_read sys h ps)) GiB))))
    as (s' & -> & H) by exact H.
  unfold collect_storage. unfold bind at 1. cbn [set_item].
  unfold bind at 1. cbn [set_item info total_storage trace].
  unfold try_except. unfold bind at 1, call at 1. rewrite Hps.
  unfold bind at 1. cbn [set_total_storage info total_storage trace].
  unfold bind at 1.
  match goal with
  | |- context [for_each ps _ ?s0] =>
      destruct (scan_partitions_passable sys h io ps Hio Hall s0 [])
        as (s1 & E1 & Hi1 & Ht1)
  end.
  { cbn. rewrite lookup_insert_ne by discriminate. apply lookup_insert_eq. }
  rewrite E1. cbn [app info total_storage] in Hi1, Ht1.
  unfold bind, get_total_storage. cbn [set_item fst snd].
  eexists. split; [reflexivity |]. cbn [info]. rewrite Ht1, Hi1.
  split.
  - rewrite lookup_insert_ne by discriminate. apply lookup_insert_eq.
  - rewrite Z.add_0_l. apply lookup_insert_eq.
Qed.

(** When the partitions and the I/O counters are read and every volume is
    passable, the snapshot lists the volumes whose usage was read, in the
    order of the partitions and with nothing else, and the capability
    estimate is made from the sum of their sizes. *)
Theorem storage_devices_follow_partitions
    (h : Host) (sys : string) (ps : list sdiskpart) (io : list (string * sdiskio)) :
  platform_system h = Returns sys ->
  disk_partitions (storage h) = Returns ps ->
  disk_io_counters (storage h) = Returns (Some io) ->
  Forall (passable sys (storage h)) ps ->
  snapshot_of h !! "storage_devices"
  = Some (VList (omap (fun p => volume_entry sys io p
                                  <$> usage_read sys (storage h) p) ps)) /\
  snapshot_of h !! "storage_capabilities"
  = Some (VDict (get_storage_capabilities
                   (fdiv (of_int (total_read sys (storage h) ps)) GiB))).
Proof.
  intros Hsys Hps Hio Hall. split.
  - snapshot_via h "storage_devices" 17%nat s. rewrite Hsys.
    apply (collect_storage_passable sys (storage h) ps io s Hps Hio Hall).
  - snapshot_via h "storage_capabilities" 17%nat s. rewrite Hsys.
    apply (collect_storage_passable sys (storage h) ps io s Hps Hio Hall).
Qed.

Lemma storage_devices_follow_partitions_witness :
  exists root home,
    snapshot_of Faulty.unreadable_volume !! "storage_devices"
    = Some (VList [VDict (("device", VStr "/dev/sda1") :: root);
                   VDict (("device", VStr "/dev/sdb1") :: home)]) /\
    total_read "Linux" (storage Faulty.unreadable_volume)
      [Sample.empty_partition; Sample.root_partition; Sample.home_partition]
    = 750 * 1024 ^ 3.
Proof.
  eexists _, _. split; [| reflexivity].
  apply (storage_devices_follow_partitions Faulty.unreadable_volume "Linux"
           [Sample.empty_partition; Sample.root_partition; Sample.home_partition]
           [("sda1", {| read_bytes := 1024 ^ 3; write_bytes := 2 * 1024 ^ 3;
                        read_count := 10; write_count := 20 |})]).
  - reflexivity.
  - reflexivity.
  - reflexivity.
  - repeat (apply Forall_cons; split; [right; vm_compute; congruence |]).
    apply Forall_nil. exact I.
Defined.

Lemma scan_partitions_counters_refused sys h e (ps : list sdiskpart) :
  disk_io_counters h = Raises e ->
  is_OSError e = true ->
  Forall (reachable sys h) ps ->
  forall s,
    exists s',
      for_each ps (scan_partition (Returns sys) h) s = (Returns tt, s') /\
      info s' = info s /\
      total_storage s' = total_storage s + total_read sys h ps.
Proof.
  intros Hio He Hps. induction Hps as [| p ps Hp Hps IH]; intros s.
  - exists s. unfold total_read. cbn. rewrite Z.add_0_r. repeat split.
  - cbn [for_each]. unfold bind at 1.
    assert (exists s1,
      scan_partition (Returns sys) h p s = (Returns tt, s1) /\
      info s1 = info s /\
      total_storage s1 = total_storage s
                         + match usage_read sys h p with
                           | Some u => du_total u
                           | None => 0
                           end) as (s1 & E1 & Hi1 & Ht1).
    { unfold scan_partition, usage_read, try_except_OSError.
      unfold bind at 1, call at 1. cbn [fst snd].
      destruct (String.eqb sys "Windows" && removable p) eqn:Hskip.
      - eexists. split; [reflexivity |]. cbn. rewrite Z.add_0_r.
        split; reflexivity.
      - destruct Hp as [Hp | Hp]; [congruence |].
        unfold bind at 1, call at 1.
        destruct (disk_usage h (mountpoint p)) as [u | e'].
        + unfold bind, call, get_total_storage, set_total_storage.
          cbn [fst snd info trace total_storage]. rewrite Hio.
          cbn [fst snd]. rewrite He. eexists. split; [reflexivity |].
          cbn. split; reflexivity.
        + cbn [fst snd]. rewrite Hp. eexists. split; [reflexivity |]. cbn.
          rewrite Z.add_0_r. split; reflexivity. }
    rewrite E1. destruct (IH s1) as (s2 & E2 & Hi2 & Ht2).
    exists s2. split; [exact E2 |]. rewrite Hi2, Hi1, Ht2, Ht1.
    split; [reflexivity |]. unfold total_read. cbn [omap list_omap].
    destruct (usage_read sys h p) as [u |]; cbn [map fold_right]; lia.
Qed.

(** The size of a volume is added to the total before the I/O counters
    are asked for. When they are refused with an [OSError], no volume is
    listed, and the capability estimate is still made, from the sizes of
    all the volumes whose usage was read. *)
Theorem refused_counters_list_nothing_and_count_all
    (h : Host) (sys : string) (ps : list sdiskpart) (e : exn) :
  platform_system h = Returns sys ->
  disk_partitions (storage h) = Returns ps ->
  disk_io_counters (storage h) = Raises e ->
  is_OSError e = true ->
  Forall (reachable sys (storage h)) ps ->
  snapshot_of h !! "storage_devices" = Some (VList []) /\
  snapshot_of h !! "storage_capabilities"
  = Some (VDict (get_storage_capabilities
                   (fdiv (of_int (total_read sys (storage h) ps)) GiB))).
Proof.
  intros Hsys Hps Hio He Hall.
  assert (Hstep : forall s, exists s',
    collect_storage (Returns sys) (storage h) s = (Returns tt, s') /\
    info s' !! "storage_devices" = Some (VList []) /\
    info s' !! "storage_capabilities"
    = Some (VDict (get_storage_capabilities
                     (fdiv (of_int (total_read sys (storage h) ps)) GiB)))).
  { intros s. unfold collect_storage. unfold bind at 1. cbn [set_item].
    unfold bind at 1. cbn [set_item info total_storage trace].
    unfold try_except. unfold bind at 1, call at 1. rewrite Hps.
    unfold bind at 1. cbn [set_total_storage info total_storage trace].
    unfold bind at 1.
    match goal with
    | |- context [for_each ps _ ?s0] =>
        destruct (scan_partitions_counters_refused sys (storage h) e ps
                    Hio He Hall s0) as (s1 & E1 & Hi1 & Ht1)
    end.
    rewrite E1. cbn [info total_storage] in Hi1, Ht1.
    unfold bind, get_total_storage. cbn [set_item fst snd].
    eexists. split; [reflexivity |]. cbn [info]. rewrite Ht1, Hi1. split.
    - rewrite lookup_insert_ne by discriminate.
      rewrite lookup_insert_ne by discriminate. apply lookup_insert_eq.
    - rewrite Z.add_0_l. apply lookup_insert_eq. }
  split.
  - snapshot_via h "storage_devices" 17%nat s. rewrite Hsys. unfold exec.
    destruct (Hstep s) as (s' & -> & H & _). exact H.
  - snapshot_via h "storage_capabilities" 17%nat s. rewrite Hsys. unfold exec.
    destruct (Hstep s) as (s' & -> & _ & H). exact H.
Qed.

Lemma refused_counters_list_nothing_and_count_all_witness :
  snapshot_of counters_refused !! "storage_devices" = Some (VList []) /\
  snapshot_of counters_refused !! "storage_capabilities"
  = Some (VDict (get_storage_capabilities (750 # 1))).
Proof.
  apply (refused_counters_list_nothing_and_count_all counters_refused "Linux"
           [Sample.root_partition; Sample.home_partition] PermissionError).
  - reflexivity.
  - reflexivity.
  - reflexivity.
  - reflexivity.
  - repeat (apply Forall_cons; split; [right; vm_compute; exact I |]).
    apply Forall_nil. exact I.
Defined.

(** ** Two keys of one statement *)

Lemma snapshot_through2 h k1 k2 n (P : option value -> option value -> Prop) :
  (n < length (statements h))%nat ->
  (forall s, P (info (exec (nth n (statements h) (ret tt)) s) !! k1)
               (info (exec (nth n (statements h) (ret tt)) s) !! k2)) ->
  Forall (preserves k1) (skipn (S n) (statements h)) ->
  Forall (preserves k2) (skipn (S n) (statements h)) ->
  P (snapshot_of h !! k1) (snapshot_of h !! k2).
Proof.
  intros Hn HP H1 H2.
  rewrite (snapshot_split h k1 (firstn n (statements h))
             (nth n (statements h) (ret tt)) (skipn (S n) (statements h))),
          (snapshot_split h k2 (firstn n (statements h))
             (nth n (statements h) (ret tt)) (skipn (S n) (statements h)));
    try (apply split_at_nth, Hn); try assumption.
  apply HP.
Qed.

Ltac snapshot_via2 h k1 k2 n s :=
  pattern (snapshot_of h !! k1), (snapshot_of h !! k2);
  apply (snapshot_through2 h k1 k2 n);
  [ cbn; lia
  | cbn [statements nth]; intros s
  | cbn [statements skipn]; unfold emit_progress, time_sleep; preserves_tac
  | cbn [statements skipn]; unfold emit_progress, time_sleep; preserves_tac ].

(** ** The uptime *)

(** The uptime and the boot time are known together or unknown together.
    When they are known, the hours are under 24 and the minutes under 60,
    the days are within the range of a [timedelta], whole minutes are
    counted and the seconds beyond them dropped, and the boot time is the
    string the clock gave. *)
Theorem snapshot_uptime (h : Host) :
  (snapshot_of h !! "uptime" = Some (VStr "Unknown") /\
   snapshot_of h !! "boot_time" = Some (VStr "Unknown")) \/
  (exists boot now stamp days hours minutes,
     boot_time (uptime h) = Returns boot /\
     time_now (uptime h) = Returns now /\
     fromtimestamp_strftime (uptime h) = Returns stamp /\
     snapshot_of h !! "uptime" = Some (VStr (uptime_text days hours minutes)) /\
     snapshot_of h !! "boot_time" = Some (VStr stamp) /\
     -999999999 <= days <= 999999999 /\
     0 <= hours < 24 /\ 0 <= minutes < 60 /\
     let whole := days * 86400 + hours * 3600 + minutes * 60 in
     whole <= microseconds boot now / 1000000 < whole + 60).
Proof.
  snapshot_via2 h "uptime" "boot_time" 5%nat s.
  unfold exec. destruct (collect_uptime (uptime h) s) as [o s'] eqn:E.
  cbn [snd]. revert E.
  unfold collect_uptime, try_except. unfold bind at 1, call at 1.
  destruct (boot_time (uptime h)) as [boot | e];
    [| intros [= <- <-]; left; cbn; rewrite lookup_insert_ne by discriminate;
       rewrite !lookup_insert_eq; split; reflexivity].
  unfold bind at 1, call at 1.
  destruct (time_now (uptime h)) as [now | e];
    [| intros [= <- <-]; left; cbn; rewrite lookup_insert_ne by discriminate;
       rewrite !lookup_insert_eq; split; reflexivity].
  unfold bind at 1, timedelta. cbv zeta. fold (microseconds boot now).
  set (us := microseconds boot now).
  destruct ((us / 86400000000 <? -999999999) || (999999999 <? us / 86400000000))
    eqn:Hrange;
    [intros [= <- <-]; left; cbn; rewrite lookup_insert_ne by discriminate;
     rewrite !lookup_insert_eq; split; reflexivity |].
  cbn [ret fst snd]. unfold bind at 1. cbn [set_item].
  unfold bind at 1, call at 1.
  destruct (fromtimestamp_strftime (uptime h)) as [stamp | e];
    [| intros [= <- <-]; left; cbn; rewrite lookup_insert_ne by discriminate;
       rewrite !lookup_insert_eq; split; reflexivity].
  intros [= <- <-].
  right. exists boot, now, stamp, (us / 86400000000).
  exists (us mod 86400000000 / 1000000 / 3600).
  exists (us mod 86400000000 / 1000000 mod 3600 / 60).
  cbn [set_item fst snd info trace total_storage].
  rewrite lookup_insert_ne by discriminate. rewrite !lookup_insert_eq.
  apply orb_false_iff in Hrange. destruct Hrange as [Hlo Hhi].
  apply Z.ltb_ge in Hlo, Hhi.
  repeat split; try reflexivity; try assumption;
    Z.div_mod_to_equations; lia.
Qed.

(** ** Statements that behave alike *)

Lemma bind_ext {A B} (m1 m2 : M A) (k1 k2 : A -> M B) s :
  m1 s = m2 s -> (forall a s', k1 a s' = k2 a s') ->
  bind m1 k1 s = bind m2 k2 s.
Proof.
  intros Hm Hk. unfold bind. rewrite Hm.
  destruct (m2 s) as [[a | e] s']; [apply Hk | reflexivity].
Qed.

Lemma try_except_ext {A} (m1 m2 handler1 handler2 : M A) s :
  m1 s = m2 s -> (forall s', handler1 s' = handler2 s') ->
  try_except m1 handler1 s = try_except m2 handler2 s.
Proof.
  intros Hm Hh. unfold try_except. rewrite Hm.
  destruct (m2 s) as [[a | e] s']; [reflexivity | apply Hh].
Qed.

Lemma exec_all_ext (l1 l2 : list (M unit)) :
  Forall2 (fun m1 m2 => forall s, m1 s = m2 s) l1 l2 ->
  forall s, exec_all l1 s = exec_all l2 s.
Proof.
  induction 1 as [| m1 m2 l1 l2 Hm _ IH]; intros s; [reflexivity |].
  cbn [exec_all fold_left]. fold (exec_all l1 (exec m1 s)).
  fold (exec_all l2 (exec m2 s)).
  replace (exec m1 s) with (exec m2 s) by (unfold exec; rewrite Hm; reflexivity).
  apply IH.
Qed.

(** The processor step does the same whether the frequency query raises
    or answers [None]. *)
Lemma collect_processor_frequency has_cpuinfo h e s :
  cpu_freq (processor h) = Raises e ->
  collect_processor has_cpuinfo (processor h) s
  = collect_processor has_cpuinfo (processor (frequency_of (Returns None) h)) s.
Proof.
  intros He. unfold collect_processor.
  apply try_except_ext; [| reflexivity].
  apply bind_ext; [reflexivity | intros _ s1].
  apply bind_ext; [reflexivity | intros name s2].
  apply bind_ext; [reflexivity | intros _ s3].
  apply bind_ext; [reflexivity | intros physical s4].
  apply bind_ext; [reflexivity | intros _ s5].
  apply bind_ext; [reflexivity | intros logical s6].
  apply bind_ext; [reflexivity | intros _ s7].
  apply bind_ext; [| reflexivity].
  rewrite He. reflexivity.
Qed.

(** A frequency query that raises is told apart by no observer from one
    that answers [None]: the run sends the same signals, makes the same
    queries and hands over the same snapshot. *)
Theorem frequency_failure_is_no_frequency (h : Host) (e : exn) :
  cpu_freq (processor h) = Raises e ->
  run h start = run (frequency_of (Returns None) h) start /\
  snapshot_of h = snapshot_of (frequency_of (Returns None) h).
Proof.
  intros He.
  assert (Hall : forall s,
    exec_all (statements h) s
    = exec_all (statements (frequency_of (Returns None) h)) s).
  { apply exec_all_ext. unfold statements.
    repeat (constructor;
            [first [ intros s; reflexivity
                   | intros s;
                     exact (collect_processor_frequency (HAS_CPUINFO h) h e s He) ] |]).
    constructor. }
  split.
  - rewrite !run_returns, Hall. reflexivity.
  - rewrite !snapshot_of_exec_all, Hall. reflexivity.
Qed.

Lemma frequency_failure_is_no_frequency_witness :
  snapshot_of (frequency_of (Raises RuntimeError) Sample.healthy)
  = snapshot_of (frequency_of (Returns None)
                   (frequency_of (Raises RuntimeError) Sample.healthy)).
Proof.
  exact (proj2 (frequency_failure_is_no_frequency
                  (frequency_of (Raises RuntimeError) Sample.healthy)
                  RuntimeError eq_refl)).
Defined.

(** ** The memory step when the swap query raises *)

Lemma collect_memory_swap_raises h mem e s :
  virtual_memory h = Returns mem ->
  swap_memory h = Raises e ->
  info (exec (collect_memory h) s)
  = <["memory_capabilities" := VDict []]>
    (<["swap_percent" := VInt 0]>
     (<["swap_used_gb" := VInt 0]>
      (<["swap_total_gb" := VInt 0]>
       (<["ram_percent" := VInt 0]>
        (<["ram_available_gb" := VInt 0]>
         (<["ram_used_gb" := VInt 0]>
          (<["ram_total_gb" := VInt 0]>
           (<["memory_capabilities" :=
               VDict (get_memory_capabilities (fdiv (of_int (vm_total mem)) GiB)
                        (match info s !! "cpu_vendor" with
                         | Some v => v
                         | None => VStr ""
                         end))]>
            (<["ram_buffers_gb" := gib (or_zero (vm_buffers mem))]>
             (<["ram_cached_gb" := gib (or_zero (vm_cached mem))]>
              (<["ram_percent" := VFloat (vm_percent mem)]>
               (<["ram_free_gb" := gib (vm_free mem)]>
                (<["ram_available_gb" := gib (vm_available mem)]>
                 (<["ram_used_gb" := gib (vm_used mem)]>
                  (<["ram_total_gb" := gib (vm_total mem)]> (info s)))))))))))))))).
Proof.
  intros Hvm Hswap.
  unfold collect_memory, exec, try_except, bind, call,
    get_item, get_item_default, as_number, gib.
  rewrite Hvm. cbn -[get_memory_capabilities fdiv GiB].
  rewrite !(lookup_insert_ne _ _ "ram_total_gb") by discriminate.
  rewrite lookup_insert_eq.
  cbn -[get_memory_capabilities fdiv GiB].
  rewrite !(lookup_insert_ne _ _ "cpu_vendor") by discriminate.
  rewrite Hswap. reflexivity.
Qed.

(** When the memory is read and the swap query raises, the handler
    resets the total, the used and the available memory and the
    percentage to the integer 0 and leaves the estimate empty, but the
    free, cached and buffered memory keep the values read: the snapshot
    reports free memory on a machine whose total it gives as 0. *)
Theorem swap_failure_resets_part_of_memory (h : Host) (mem : svmem) (e : exn) :
  virtual_memory (memory h) = Returns mem ->
  swap_memory (memory h) = Raises e ->
  Forall (fun kv => snapshot_of h !! fst kv = Some (snd kv))
    [("ram_total_gb", VInt 0); ("ram_used_gb", VInt 0);
     ("ram_available_gb", VInt 0); ("ram_percent", VInt 0);
     ("swap_total_gb", VInt 0); ("swap_used_gb", VInt 0);
     ("swap_percent", VInt 0); ("memory_capabilities", VDict []);
     ("ram_free_gb", gib (vm_free mem));
     ("ram_cached_gb", gib (or_zero (vm_cached mem)));
     ("ram_buffers_gb", gib (or_zero (vm_buffers mem)))] /\
  snapshot_of h !! "swap_free_gb" = None.
Proof.
  intros Hvm Hswap. split.
  - repeat (apply Forall_cons; split;
            [cbn [fst snd];
             match goal with
             | |- snapshot_of h !! ?k = _ =>
                 snapshot_via h k 14%nat s;
                 rewrite (collect_memory_swap_raises (memory h) mem e s Hvm Hswap);
                 repeat (rewrite lookup_insert_ne by discriminate);
                 apply lookup_insert_eq
             end |]).
    apply Forall_nil. exact I.
  - snapshot_at h "swap_free_gb" 14%nat s Hs.
    rewrite (collect_memory_swap_raises (memory h) mem e s Hvm Hswap).
    repeat (rewrite lookup_insert_ne by discriminate). exact Hs.
Qed.

Lemma swap_failure_resets_part_of_memory_witness :
  snapshot_of swap_unreadable !! "ram_total_gb" = Some (VInt 0) /\
  snapshot_of swap_unreadable !! "ram_free_gb" = Some (VFloat (8 # 1)).
Proof.
  destruct (swap_failure_resets_part_of_memory swap_unreadable
              {| vm_total := 16 * 1024 ^ 3; vm_used := 6 * 1024 ^ 3;
                 vm_available := 10 * 1024 ^ 3; vm_free := 8 * 1024 ^ 3;
                 vm_percent := 375 # 10; vm_cached := Some (2 * 1024 ^ 3);
                 vm_buffers := Some (1024 ^ 3) |}
              RuntimeError eq_refl eq_refl) as [H _].
  split.
  - exact (Forall_inv H).
  - exact (Forall_inv (Forall_inv_tail (Forall_inv_tail (Forall_inv_tail
             (Forall_inv_tail (Forall_inv_tail (Forall_inv_tail
             (Forall_inv_tail (Forall_inv_tail H))))))))).
Defined.

(** ** Sensor groups *)

Section Groups.

Context {A : Type} (entry : string -> A -> value).

Lemma fold_groups_sound groups : forall d0 g v,
  Dict.get g (fold_left (add_group entry) groups d0) = Some v ->
  Dict.get g d0 = Some v \/
  exists r rs, In (g, r :: rs) groups /\ v = VList (map (entry g) (r :: rs)).
Proof.
  induction groups as [| [name readings] groups IH]; intros d0 g v Hg;
    [left; exact Hg |].
  cbn [fold_left] in Hg. apply IH in Hg as [Hg | (r & rs & Hin & Hv)].
  - unfold add_group in Hg. cbn [fst snd] in Hg.
    destruct readings as [| r rs]; [left; exact Hg |].
    rewrite dict_get_set in Hg. destruct (String.eqb g name) eqn:E.
    + apply String.eqb_eq in E. subst name. injection Hg as <-.
      right. exists r, rs. split; [left; reflexivity | reflexivity].
    + left. exact Hg.
  - right. exists r, rs. split; [right; exact Hin | exact Hv].
Qed.

Lemma fold_groups_keeps groups : forall d0 g,
  is_Some (Dict.get g d0) -> is_Some (Dict.get g (fold_left (add_group entry) groups d0)).
Proof.
  induction groups as [| [name readings] groups IH]; intros d0 g Hg; [exact Hg |].
  cbn [fold_left]. apply IH. unfold add_group. cbn [fst snd].
  destruct readings as [| r rs]; [exact Hg |].
  rewrite dict_get_set. destruct (String.eqb g name); [eexists; reflexivity | exact Hg].
Qed.

Lemma fold_groups_complete groups : forall d0 g r rs,
  In (g, r :: rs) groups -> is_Some (Dict.get g (fold_left (add_group entry) groups d0)).
Proof.
  induction groups as [| [name readings] groups IH]; intros d0 g r rs Hin;
    [destruct Hin |].
  cbn [fold_left]. destruct Hin as [[= -> ->] | Hin].
  - apply fold_groups_keeps. unfold add_group. cbn [fst snd].
    rewrite dict_get_set, String.eqb_refl. eexists; reflexivity.
  - eapply IH, Hin.
Qed.

(** A key of the dict stands for a group that has a reading and holds
    the entries of all its readings; every group that has a reading has
    a key. *)
Lemma group_readings_groups groups :
  (forall g v, Dict.get g (group_readings entry groups) = Some v ->
     exists r rs, In (g, r :: rs) groups /\ v = VList (map (entry g) (r :: rs))) /\
  (forall g r rs, In (g, r :: rs) groups ->
     is_Some (Dict.get g (group_readings entry groups))).
Proof.
  split.
  - intros g v Hg. apply fold_groups_sound in Hg as [Hg | Hg];
      [discriminate Hg | exact Hg].
  - intros g r rs. apply fold_groups_complete.
Qed.

End Groups.

Lemma collect_temperatures_sets query s :
  info (exec (collect_temperatures query) s) !! "temperatures"
  = Some (VDict (group_readings temperature_entry (groups_of query))).
Proof.
  unfold collect_temperatures, exec, try_except, bind, call.
  destruct query as [groups | e]; cbn; apply lookup_insert_eq.
Qed.

Lemma collect_fans_sets query s :
  info (exec (collect_fans query) s) !! "fans"
  = Some (VDict (group_readings fan_entry (groups_of query))).
Proof.
  unfold collect_fans, exec, try_except, bind, call.
  destruct query as [groups | e]; cbn; apply lookup_insert_eq.
Qed.

(** The temperatures and the fans of the snapshot are dicts. A key
    stands for a group of the sensor query that has a reading, and holds
    one entry for each of its readings, in their order; a group with no
    reading has no key, a group with one has a key; a query that raises
    leaves the dict empty. *)
Theorem snapshot_sensor_groups (h : Host) :
  exists temperatures fans,
    snapshot_of h !! "temperatures" = Some (VDict temperatures) /\
    snapshot_of h !! "fans" = Some (VDict fans) /\
    (forall g v, Dict.get g temperatures = Some v ->
       exists r rs,
         In (g, r :: rs) (groups_of (sensors_temperatures h)) /\
         v = VList (map (temperature_entry g) (r :: rs))) /\
    (forall g r rs, In (g, r :: rs) (groups_of (sensors_temperatures h)) ->
       is_Some (Dict.get g temperatures)) /\
    (forall g v, Dict.get g fans = Some v ->
       exists r rs,
         In (g, r :: rs) (groups_of (sensors_fans h)) /\
         v = VList (map (fan_entry g) (r :: rs))) /\
    (forall g r rs, In (g, r :: rs) (groups_of (sensors_fans h)) ->
       is_Some (Dict.get g fans)).
Proof.
  exists (group_readings temperature_entry (groups_of (sensors_temperatures h))),
    (group_readings fan_entry (groups_of (sensors_fans h))).
  split; [snapshot_via h "temperatures" 29%nat s; apply collect_temperatures_sets |].
  split; [snapshot_via h "fans" 30%nat s; apply collect_fans_sets |].
  destruct (group_readings_groups temperature_entry
              (groups_of (sensors_temperatures h))) as [H1 H2].
  destruct (group_readings_groups fan_entry (groups_of (sensors_fans h)))
    as [H3 H4].
  repeat split; assumption.
Qed.

(** ** The load average *)

Lemma collect_load_average_sets available query s :
  info (exec (collect_load_average available query) s) !! "load_average"
  = if available then
      match query with
      | Returns load_avg =>
          Some (VDict [("1min", VFloat (round2 (fst (fst load_avg))));
                       ("5min", VFloat (round2 (snd (fst load_avg))));
                       ("15min", VFloat (round2 (snd load_avg)))])
      | Raises _ => Some VNone
      end
    else info s !! "load_average".
Proof.
  unfold collect_load_average, exec, try_except, bind, call.
  destruct available; [| reflexivity].
  destruct query as [load_avg | e]; cbn -[round2]; apply lookup_insert_eq.
Qed.

(** The snapshot has no load average when psutil has no [getloadavg],
    the value [None] when the query raises, and otherwise a dict of three
    floats under '1min', '5min' and '15min', in this order. *)
Theorem snapshot_load_average (h : Host) :
  match snapshot_of h !! "load_average" with
  | None => has_getloadavg h = false
  | Some VNone => has_getloadavg h = true /\ exists e, getloadavg h = Raises e
  | Some (VDict [("1min", VFloat _); ("5min", VFloat _); ("15min", VFloat _)]) =>
      has_getloadavg h = true /\ exists load_avg, getloadavg h = Returns load_avg
  | Some _ => False
  end.
Proof.
  snapshot_at h "load_average" 34%nat s Hs.
  rewrite collect_load_average_sets.
  destruct (has_getloadavg h); [| rewrite Hs; reflexivity].
  destruct (getloadavg h) as [load_avg | e].
  - split; [reflexivity |]. exists load_avg. reflexivity.
  - split; [reflexivity | exists e; reflexivity].
Qed.

(** ** The identity step *)

Ltac snapshot_rewrite h k n :=
  rewrite (snapshot_split h k (firstn n (statements h))
             (nth n (statements h) (ret tt)) (skipn (S n) (statements h))
             eq_refl)
    by (cbn [statements skipn]; unfold emit_progress, time_sleep; preserves_tac).

Ltac lookup_tac :=
  cbn;
  repeat (rewrite lookup_insert_ne by discriminate);
  apply lookup_insert_eq.

Lemma collect_identity_sets system h s :
  let m := info (exec (collect_identity system h) s) in
  match system, platform_release h, platform_version h,
        platform_architecture h, gethostname h, platform_machine h with
  | Returns sys, Returns release, Returns _, Returns arch, Returns host,
    Returns machine =>
      m !! "os_full"
      = Some (VStr (if String.eqb sys "Windows"
                    then "Windows " +:+ release +:+ edition_suffix h
                    else sys +:+ " " +:+ release)) /\
      m !! "os_architecture" = Some (VStr arch) /\
      m !! "hostname" = Some (VStr host) /\
      m !! "machine_type" = Some (VStr machine) /\
      m !! "username" = Some (VStr (login_name h))
  | _, _, _, _, _, _ =>
      m !! "os_full" = Some (VStr "Unknown OS") /\
      m !! "os_architecture" = Some (VStr "Unknown") /\
      m !! "hostname" = Some (VStr "Unknown") /\
      m !! "username" = Some (VStr "Unknown")
  end.
Proof.
  cbv zeta. unfold edition_suffix, login_name.
  unfold collect_identity, exec, try_except, bind, call, get_item, as_str.
  destruct system as [sys | e0];
    [| repeat split; lookup_tac].
  destruct (platform_release h) as [release | e1];
    [| repeat split; lookup_tac].
  destruct (platform_version h) as [version | e2];
    [| repeat split; lookup_tac].
  destruct (platform_architecture h) as [arch | e3];
    [destruct (gethostname h) as [host | e5];
     [destruct (platform_machine h) as [machine | e6] |] |];
    (destruct (String.eqb sys "Windows");
     [destruct (win32_edition h) as [[[| c edition] |] | e4] |]);
    try destruct (getlogin h) as [user | e7];
    repeat (progress (cbn; rewrite ?lookup_insert_eq;
                      repeat (rewrite lookup_insert_ne by discriminate)));
    repeat split; rewrite append_empty_r; reflexivity.
Qed.

(** When the system, release, version, architecture, host name and
    machine queries all answer, [os_full] is built from the system and
    the release (with the edition on Windows, when there is one), and the
    user name is the login name or, when that query raises, the name in
    the environment: a failing edition or login query costs nothing else.
    When one of the six raises, [os_full], the architecture, the host name
    and the user name are all reset, whatever had been read. *)
Theorem snapshot_identity (h : Host) :
  let m := snapshot_of h in
  match platform_system h, platform_release (identity h),
        platform_version (identity h), platform_architecture (identity h),
        gethostname (identity h), platform_machine (identity h) with
  | Returns sys, Returns release, Returns _, Returns arch, Returns host,
    Returns machine =>
      m !! "os_full"
      = Some (VStr (if String.eqb sys "Windows"
                    then "Windows " +:+ release +:+ edition_suffix (identity h)
                    else sys +:+ " " +:+ release)) /\
      m !! "os_architecture" = Some (VStr arch) /\
      m !! "hostname" = Some (VStr host) /\
      m !! "machine_type" = Some (VStr machine) /\
      m !! "username" = Some (VStr (login_name (identity h)))
  | _, _, _, _, _, _ =>
      m !! "os_full" = Some (VStr "Unknown OS") /\
      m !! "os_architecture" = Some (VStr "Unknown") /\
      m !! "hostname" = Some (VStr "Unknown") /\
      m !! "username" = Some (VStr "Unknown")
  end.
Proof.
  cbv zeta.
  snapshot_rewrite h "os_full" 2%nat.
  snapshot_rewrite h "os_architecture" 2%nat.
  snapshot_rewrite h "hostname" 2%nat.
  snapshot_rewrite h "machine_type" 2%nat.
  snapshot_rewrite h "username" 2%nat.
  cbn [statements firstn nth].
  apply (collect_identity_sets (platform_system h) (identity h)).
Qed.

(** ** The loading screen *)

Lemma update_dots_count (n : nat) : forall w,
  LoadingWidget.dots_count (Nat.iter (S n) LoadingWidget.update_dots w)
  = (LoadingWidget.dots_count w + Z.of_nat (S n)) mod 4.
Proof.
  induction n as [| n IH]; intros w.
  - reflexivity.
  - change (Nat.iter (S (S n)) LoadingWidget.update_dots w)
      with (LoadingWidget.update_dots (Nat.iter (S n) LoadingWidget.update_dots w)).
    unfold LoadingWidget.update_dots at 1. cbn [LoadingWidget.dots_count].
    rewrite IH. rewrite Zplus_mod_idemp_l. f_equal. lia.
Qed.

(** After any number of ticks of the timer, at least one, the title is
    'Gathering Information' followed by as many dots as the ticks counted
    from the start come to modulo 4, so by three dots at most, and the
    ticks leave the progress shown alone. *)
Theorem update_dots_cycle (n : nat) (w : LoadingWidget.t) :
  let w' := Nat.iter (S n) LoadingWidget.update_dots w in
  let k := (LoadingWidget.dots_count w + Z.of_nat (S n)) mod 4 in
  LoadingWidget.dots_count w' = k /\
  0 <= k < 4 /\
  LoadingWidget.title_label w'
  = "Gathering Information" +:+ LoadingWidget.times "." k /\
  LoadingWidget.status_label w' = LoadingWidget.status_label w /\
  LoadingWidget.progress_bar w' = LoadingWidget.progress_bar w /\
  LoadingWidget.percentage_label w' = LoadingWidget.percentage_label w.
Proof.
  cbv zeta. split; [apply update_dots_count |].
  split; [apply Z.mod_pos_bound; lia |].
  split.
  - destruct n as [| n]; [reflexivity |].
    change (Nat.iter (S (S n)) LoadingWidget.update_dots w)
      with (LoadingWidget.update_dots (Nat.iter (S n) LoadingWidget.update_dots w)).
    unfold LoadingWidget.update_dots at 1. cbn [LoadingWidget.title_label].
    rewrite update_dots_count, Zplus_mod_idemp_l.
    do 2 f_equal. f_equal. lia.
  - induction n as [| n IH]; [repeat split |].
    change (Nat.iter (S (S n)) LoadingWidget.update_dots w)
      with (LoadingWidget.update_dots (Nat.iter (S n) LoadingWidget.update_dots w)).
    exact IH.
Qed.

Lemma deliver_app t1 t2 w :
  LoadingWidget.deliver (t1 ++ t2) w
  = LoadingWidget.deliver t2 (LoadingWidget.deliver t1 w).
Proof. apply fold_left_app. Qed.

Lemma deliver_title t : forall w,
  LoadingWidget.title_label (LoadingWidget.deliver t w) = LoadingWidget.title_label w /\
  LoadingWidget.dots_count (LoadingWidget.deliver t w) = LoadingWidget.dots_count w.
Proof.
  induction t as [| e t IH]; intros w; [split; reflexivity |].
  cbn [LoadingWidget.deliver fold_left].
  fold (LoadingWidget.deliver t
          (match e with
           | progress_update status percentage =>
               LoadingWidget.update_progress status percentage w
           | _ => w
           end)).
  destruct (IH (match e with
                | progress_update status percentage =>
                    LoadingWidget.update_progress status percentage w
                | _ => w
                end)) as [-> ->].
  destruct e; split; reflexivity.
Qed.

(** Whatever the host answers, once the signals of a run have reached
    the loading screen it shows 'Finalizing system analysis...' and 100%,
    and its title and dots are as the timer left them. *)
Theorem loading_screen_ends_at_100 (h : Host) (w : LoadingWidget.t) :
  let w' := LoadingWidget.deliver (trace (snd (run h start))) w in
  LoadingWidget.status_label w' = "Finalizing system analysis..." /\
  LoadingWidget.progress_bar w' = 100 /\
  LoadingWidget.percentage_label w' = "100%" /\
  LoadingWidget.title_label w' = LoadingWidget.title_label w /\
  LoadingWidget.dots_count w' = LoadingWidget.dots_count w.
Proof.
  cbv zeta. rewrite run_returns. cbn [snd trace].
  rewrite deliver_app.
  rewrite (split_at_nth (ret tt) (statements h) 35%nat) by (cbn; lia).
  rewrite exec_all_app. cbn [statements nth skipn exec_all fold_left].
  generalize (exec_all (firstn 35 (statements h)) start). intros s.
  unfold emit_progress, time_sleep, observe, exec. cbn [snd trace].
  rewrite !deliver_app.
  destruct (deliver_title (trace s) w) as [Ht Hd].
  cbn [LoadingWidget.deliver fold_left LoadingWidget.update_progress
       LoadingWidget.status_label LoadingWidget.progress_bar
       LoadingWidget.percentage_label LoadingWidget.title_label
       LoadingWidget.dots_count].
  fold (LoadingWidget.deliver (trace s) w). rewrite Ht, Hd.
  repeat split.
Qed.

(** ** The usage graph *)

Lemma int_floor (x : Q) : (0 <= x)%Q -> MiniGraph.int x = Qfloor x.
Proof.
  intros Hx. unfold MiniGraph.int, Qfloor. destruct x as [n d].
  cbn [Qnum Qden]. apply Z.quot_div_nonneg; [| lia].
  unfold Qle in Hx. cbn in Hx. lia.
Qed.

Lemma int_between (x : Q) (n : Z) :
  (0 <= x)%Q -> (x <= inject_Z n)%Q -> 0 <= MiniGraph.int x <= n.
Proof.
  intros H0 Hn. rewrite (int_floor x H0). split.
  - apply Qfloor_resp_le in H0. exact H0.
  - apply Qfloor_resp_le in Hn. rewrite Qfloor_Z in Hn. exact Hn.
Qed.

Lemma int_sum (a b : Q) (n : Z) :
  (0 <= a)%Q -> (0 <= b)%Q -> (a + b <= inject_Z n)%Q ->
  MiniGraph.int a + MiniGraph.int b <= n.
Proof.
  intros Ha Hb Hn. rewrite (int_floor a Ha), (int_floor b Hb).
  pose proof (Qfloor_le a) as Fa. pose proof (Qfloor_le b) as Fb.
  rewrite Zle_Qle, inject_Z_plus.
  revert Fa Fb Hn. generalize (inject_Z (Qfloor a)), (inject_Z (Qfloor b)), (inject_Z n).
  intros; lra.
Qed.

(** The height of a bar. *)
Lemma bar_height (value max_value : Q) (height : Z) ratio :
  (0 < max_value)%Q -> (0 <= value)%Q -> (value <= max_value)%Q -> 0 <= height ->
  MiniGraph.div value max_value = Returns ratio ->
  0 <= MiniGraph.int (fmul ratio (of_int height)) <= height.
Proof.
  intros Hmax H0 H1 Hh. unfold MiniGraph.div.
  destruct (Qeq_bool max_value 0) eqn:E; [discriminate |]. intros [= <-].
  assert (Hr0 : (0 <= value / max_value)%Q).
  { apply Qle_shift_div_l; [exact Hmax | lra]. }
  assert (Hr1 : (value / max_value <= 1)%Q).
  { apply Qle_shift_div_r; [exact Hmax | lra]. }
  assert (Hq : (0 <= inject_Z height)%Q).
  { change 0%Q with (inject_Z 0). rewrite <- Zle_Qle. exact Hh. }
  unfold fmul, of_int. apply int_between; rewrite !Qred_correct; nra.
Qed.

Lemma div_answers (value max_value : Q) :
  (0 < max_value)%Q -> exists ratio, MiniGraph.div value max_value = Returns ratio.
Proof.
  intros Hmax. unfold MiniGraph.div.
  destruct (Qeq_bool max_value 0) eqn:E; [| eexists; reflexivity].
  apply Qeq_bool_eq in E. lra.
Qed.

Section Bars.

Variables (g : MiniGraph.t) (width height n : Z) (bar_width : Q)
  (graph_color : MiniGraph.brush).
Hypothesis max_positive : (0 < MiniGraph.max_value g)%Q.
Hypothesis height_nonneg : 0 <= height.
Hypothesis bar_width_nonneg : (0 <= bar_width)%Q.
Hypothesis bars_fit : (inject_Z n * bar_width <= inject_Z width)%Q.

Lemma bars_within (values : list Q) : forall i done,
  Forall (fun v => 0 <= v /\ v <= MiniGraph.max_value g)%Q values ->
  0 <= i -> i + Z.of_nat (length values) <= n ->
  exists new,
    MiniGraph.bars g width height bar_width graph_color i values done
    = {| MiniGraph.fills := done ++ new; MiniGraph.raised := None |} /\
    length new = length values /\
    Forall (fun f => MiniGraph.stands_within width height (fst f) /\
                     MiniGraph.rect_width (fst f) = MiniGraph.int bar_width /\
                     snd f = graph_color) new.
Proof.
  induction values as [| value rest IH]; intros i done Hall Hi Hn.
  - exists []. rewrite app_nil_r. repeat split. constructor.
  - apply Forall_cons in Hall as [[Hv0 Hv1] Hall]. cbn [MiniGraph.bars].
    destruct (div_answers value (MiniGraph.max_value g) max_positive)
      as [ratio Hr].
    rewrite Hr.
    pose proof (bar_height value (MiniGraph.max_value g) height ratio
                  max_positive Hv0 Hv1 height_nonneg Hr) as Hh.
    cbn [length] in Hn.
    match goal with
    | |- context [MiniGraph.bars _ _ _ _ _ _ rest ?d] =>
        destruct (IH (i + 1) d Hall) as (new & E & Hlen & Hnew); [lia | lia |]
    end.
    rewrite E. eexists (_ :: new). split; [rewrite <- app_assoc; reflexivity |].
    split; [cbn [length]; rewrite Hlen; reflexivity |].
    constructor; [| exact Hnew]. cbn [fst snd].
    split; [| split; reflexivity].
    assert (Hiq : (0 <= inject_Z i)%Q).
    { change 0%Q with (inject_Z 0). rewrite <- Zle_Qle. exact Hi. }
    assert (Hnq : (inject_Z i + 1 <= inject_Z n)%Q).
    { change 1%Q with (inject_Z 1). rewrite <- inject_Z_plus, <- Zle_Qle. lia. }
    assert (Hx0 : (0 <= fmul (of_int i) bar_width)%Q).
    { unfold fmul, of_int. rewrite Qred_correct. nra. }
    assert (Hsum : (fmul (of_int i) bar_width + bar_width <= inject_Z width)%Q).
    { unfold fmul, of_int. rewrite Qred_correct. nra. }
    pose proof (int_sum _ _ _ Hx0 bar_width_nonneg Hsum) as Hfit.
    assert (Hw0 : 0 <= MiniGraph.int bar_width).
    { rewrite (int_floor _ bar_width_nonneg).
      apply (Qfloor_resp_le 0 bar_width), bar_width_nonneg. }
    assert (Hxz : 0 <= MiniGraph.int (fmul (of_int i) bar_width)).
    { rewrite (int_floor _ Hx0). apply (Qfloor_resp_le 0 _), Hx0. }
    unfold MiniGraph.stands_within.
    cbn [MiniGraph.rect_x MiniGraph.rect_y MiniGraph.rect_width
         MiniGraph.rect_height].
    repeat split; lia.
Qed.

End Bars.

Lemma bar_width_fits (width n : Z) :
  0 <= width -> 0 < n ->
  (0 <= fdiv (of_int width) (of_int n))%Q /\
  (inject_Z n * fdiv (of_int width) (of_int n) <= inject_Z width)%Q /\
  (width < n -> MiniGraph.int (fdiv (of_int width) (of_int n)) = 0).
Proof.
  intros Hw Hn. unfold fdiv, of_int.
  assert (Hwq : (0 <= inject_Z width)%Q).
  { change 0%Q with (inject_Z 0). rewrite <- Zle_Qle. exact Hw. }
  assert (Hnq : (0 < inject_Z n)%Q).
  { change 0%Q with (inject_Z 0). rewrite <- Zlt_Qlt. exact Hn. }
  assert (H0 : (0 <= inject_Z width / inject_Z n)%Q).
  { apply Qle_shift_div_l; [exact Hnq | lra]. }
  assert (H0' : (0 <= Qred (inject_Z width / inject_Z n))%Q)
    by (rewrite Qred_correct; exact H0).
  split; [exact H0' |]. split.
  - rewrite Qred_correct. rewrite Qmult_div_r; [apply Qle_refl |].
    intros E. rewrite E in Hnq. exact (Qlt_irrefl _ Hnq).
  - intros Hlt. rewrite (int_floor _ H0').
    assert (H1 : (inject_Z width / inject_Z n < 1)%Q).
    { apply Qlt_shift_div_r; [exact Hnq |]. rewrite Qmult_1_l, <- Zlt_Qlt.
      exact Hlt. }
    apply Z.le_antisymm.
    + apply Z.lt_succ_r. change (Z.succ 0) with 1. rewrite Zlt_Qlt.
      eapply Qle_lt_trans; [apply Qfloor_le |].
      rewrite Qred_correct. exact H1.
    + apply (Qfloor_resp_le 0 _), H0'.
Qed.

(** On a widget of any size, when [max_value] is positive and every
    value lies between 0 and [max_value], [paintEvent] raises nothing and
    paints the background and then one bar for each value; each bar lies
    within the widget and stands on its lower edge. With several values
    all bars are as wide as the whole part of the width divided by their
    number: a widget narrower in pixels than its values are many paints
    bars of width 0. *)
Theorem paintEvent_bars_within (g : MiniGraph.t) (width height : Z) :
  (0 < MiniGraph.max_value g)%Q ->
  Forall (fun v => 0 <= v /\ v <= MiniGraph.max_value g)%Q (MiniGraph.data g) ->
  0 <= width -> 0 <= height ->
  MiniGraph.data g <> [] ->
  exists background bars,
    MiniGraph.paintEvent g width height
    = {| MiniGraph.fills := background :: bars; MiniGraph.raised := None |} /\
    fst background
    = {| MiniGraph.rect_x := 0; MiniGraph.rect_y := 0;
         MiniGraph.rect_width := width; MiniGraph.rect_height := height |} /\
    length bars = length (MiniGraph.data g) /\
    Forall (fun f => MiniGraph.stands_within width height (fst f)) bars /\
    ((1 < length (MiniGraph.data g))%nat ->
     width < Z.of_nat (length (MiniGraph.data g)) ->
     Forall (fun f => MiniGraph.rect_width (fst f) = 0) bars).
Proof.
  intros Hmax Hall Hw Hh Hne. unfold MiniGraph.paintEvent.
  destruct (MiniGraph.data g) as [| first others] eqn:Hd; [contradiction |].
  destruct others as [| second others].
  - apply Forall_cons in Hall as [[Hv0 Hv1] _].
    destruct (div_answers first (MiniGraph.max_value g) Hmax) as [ratio Hr].
    rewrite Hr.
    pose proof (bar_height first (MiniGraph.max_value g) height ratio
                  Hmax Hv0 Hv1 Hh Hr) as Hbar.
    eexists _, [_]. split; [reflexivity |]. split; [reflexivity |].
    split; [reflexivity |]. split.
    + constructor; [| constructor]. unfold MiniGraph.stands_within.
      cbn [fst MiniGraph.rect_x MiniGraph.rect_y MiniGraph.rect_width
           MiniGraph.rect_height].
      repeat split; lia.
    + cbn [length]. lia.
  - set (n := Z.of_nat (length (first :: second :: others))).
    assert (Hn : 0 < n) by (unfold n; cbn [length]; lia).
    destruct (bar_width_fits width n Hw Hn) as (Hb0 & Hfit & Hzero).
    match goal with
    | |- context [MiniGraph.bars g width height ?bw ?c 0 ?vs ?d] =>
        destruct (bars_within g width height n bw c Hmax Hh Hb0 Hfit vs 0 d)
          as (new & E & Hlen & Hnew); [exact Hall | lia | unfold n; lia |]
    end.
    rewrite E. eexists _, new. split; [reflexivity |]. split; [reflexivity |].
    split; [exact Hlen |]. split.
    + eapply Forall_impl; [exact Hnew |]. intros f (H & _). exact H.
    + intros _ Hlt. eapply Forall_impl; [exact Hnew |].
      intros f (_ & H & _). rewrite H. apply Hzero. exact Hlt.
Qed.

Lemma paintEvent_bars_within_witness :
  exists background bars,
    MiniGraph.paintEvent
      {| MiniGraph.data := [10 # 1; 15 # 1]; MiniGraph.max_value := 100 # 1;
         MiniGraph.is_hovered := false |} 60 30
    = {| MiniGraph.fills := background :: bars; MiniGraph.raised := None |} /\
    length bars = 2%nat.
Proof.
  destruct (paintEvent_bars_within
              {| MiniGraph.data := [10 # 1; 15 # 1]; MiniGraph.max_value := 100 # 1;
                 MiniGraph.is_hovered := false |} 60 30)
    as (background & bars & E & _ & Hlen & _).
  - reflexivity.
  - repeat (apply Forall_cons; split; [split; discriminate |]).
    apply Forall_nil. exact I.
  - lia.
  - lia.
  - discriminate.
  - exists background, bars. split; [exact E | exact Hlen].
Defined.

(** ** The cards of the main window *)

(** A name of up to [limit] characters is shown whole; a longer one is
    cut to [keep] characters and three dots. *)
Lemma shorten_length limit keep (name : MainWindow.str) :
  (keep + 3 <= limit)%nat ->
  (length (MainWindow.shorten limit keep name) <= limit)%nat /\
  ((length name <= limit)%nat -> MainWindow.shorten limit keep name = name) /\
  ((limit < length name)%nat ->
   length (MainWindow.shorten limit keep name) = (keep + 3)%nat /\
   MainWindow.shorten limit keep name = firstn keep name ++ MainWindow.dots).
Proof.
  intros Hk. unfold MainWindow.shorten.
  destruct (limit <? length name)%nat eqn:E.
  - apply Nat.ltb_lt in E.
    assert (Hlen : length (firstn keep name ++ MainWindow.dots) = (keep + 3)%nat).
    { rewrite length_app, length_firstn. cbn [MainWindow.dots length]. lia. }
    split; [lia |]. split; [lia |]. intros _. split; [exact Hlen | reflexivity].
  - apply Nat.ltb_ge in E. split; [exact E |]. split; [reflexivity | lia].
Qed.

(** The processor card never shows more than 30 characters of the name
    and the graphics card never more than 25, characters being counted as
    [len] counts them: a longer name is cut to its first 27 or 22
    characters followed by three dots, so that it takes exactly 30 or 25;
    a name that fits is shown unchanged, and only such a name is. *)
Theorem names_fit_their_cards (name : MainWindow.str) :
  (length (MainWindow.processor_title name) <= 30)%nat /\
  (length (MainWindow.gpu_title name) <= 25)%nat /\
  (MainWindow.processor_title name = name <-> (length name <= 30)%nat) /\
  (MainWindow.gpu_title name = name <-> (length name <= 25)%nat) /\
  ((30 < length name)%nat ->
   MainWindow.processor_title name = firstn 27 name ++ MainWindow.dots /\
   length (MainWindow.processor_title name) = 30%nat) /\
  ((25 < length name)%nat ->
   MainWindow.gpu_title name = firstn 22 name ++ MainWindow.dots /\
   length (MainWindow.gpu_title name) = 25%nat).
Proof.
  unfold MainWindow.processor_title, MainWindow.gpu_title.
  destruct (shorten_length 30 27 name) as (P1 & P2 & P3); [lia |].
  destruct (shorten_length 25 22 name) as (G1 & G2 & G3); [lia |].
  split; [exact P1 |]. split; [exact G1 |]. split; [| split; [| split]].
  - split; [| exact P2]. intros E.
    destruct (Nat.le_gt_cases (length name) 30) as [H | H]; [exact H |].
    destruct (P3 H) as [Hlen _]. rewrite E in Hlen. lia.
  - split; [| exact G2]. intros E.
    destruct (Nat.le_gt_cases (length name) 25) as [H | H]; [exact H |].
    destruct (G3 H) as [Hlen _]. rewrite E in Hlen. lia.
  - intros H. destruct (P3 H) as [Hlen E]. split; [exact E | exact Hlen].
  - intros H. destruct (G3 H) as [Hlen E]. split; [exact E | exact Hlen].
Qed.

(** ** The cache row of the processor card *)

Lemma try_bind_keeps {A B} (m : M A) (rest : A -> M B) (handler : M B) k v s :
  (exists a s1, m s = (Returns a, s1) /\ info s1 !! k = Some v) ->
  (forall a, preserves k (rest a)) -> preserves k handler ->
  info (exec (try_except (bind m rest) handler) s) !! k = Some v.
Proof.
  intros (a & s1 & Em & Hv) Hrest Hh. unfold exec, try_except, bind.
  rewrite Em. specialize (Hrest a s1). unfold exec in Hrest.
  destruct (rest a s1) as [[b | e] s2]; cbn [fst snd] in *.
  - rewrite Hrest. exact Hv.
  - specialize (Hh s2). unfold exec in Hh. rewrite Hh, Hrest. exact Hv.
Qed.

Lemma collect_processor_without_cpuinfo h :
  touches beyond_cpuinfo 30 (collect_processor false h).
Proof. unfold collect_processor, as_str. cbv iota. touches_tac. Qed.

Lemma collect_processor_cache has_cpuinfo h s :
  info (exec (collect_processor has_cpuinfo h) s) !! "cpu_cache_l3"
  = match has_cpuinfo, get_cpu_info h, platform_processor h with
    | true, Returns cpu_info, Returns _ =>
        Some (Dict.get_default "l3_cache_size" (VStr "Unknown") cpu_info)
    | _, _, _ => info s !! "cpu_cache_l3"
    end.
Proof.
  destruct has_cpuinfo.
  - destruct (get_cpu_info h) as [cpu_info | e] eqn:Hc;
      [destruct (platform_processor h) as [fallback | e] eqn:Hp |].
    + unfold collect_processor. apply try_bind_keeps.
      * unfold bind, call. rewrite Hc, Hp. cbn [set_item fst snd].
        eexists _, _. split; [reflexivity |]. cbn [info]. apply lookup_insert_eq.
      * intros _. eapply touches_preserves with (K := beyond_cpuinfo) (p := 30);
          [| reflexivity].
        unfold as_str. touches_tac.
      * eapply touches_preserves with (K := beyond_cpuinfo) (p := 30);
          [| reflexivity].
        touches_tac.
    + unfold collect_processor, exec, try_except, bind, call. rewrite Hc, Hp.
      cbn. repeat (rewrite lookup_insert_ne by discriminate). reflexivity.
    + unfold collect_processor, exec, try_except, bind, call. rewrite Hc.
      cbn. repeat (rewrite lookup_insert_ne by discriminate). reflexivity.
  - apply (collect_processor_without_cpuinfo h s). reflexivity.
Qed.

Lemma snapshot_cache h :
  snapshot_of h !! "cpu_cache_l3"
  = match HAS_CPUINFO h, get_cpu_info (processor h),
          platform_processor (processor h) with
    | true, Returns cpu_info, Returns _ =>
        Some (Dict.get_default "l3_cache_size" (VStr "Unknown") cpu_info)
    | _, _, _ => None
    end.
Proof.
  snapshot_at h "cpu_cache_l3" 11%nat s Hs.
  rewrite collect_processor_cache, Hs.
  destruct (HAS_CPUINFO h); [| reflexivity].
  destruct (get_cpu_info (processor h)); [| reflexivity].
  destruct (platform_processor (processor h)); reflexivity.
Qed.

Lemma differs_Unknown (size : value) :
  MainWindow.differs (Some size) "Unknown" = false <-> size = VStr "Unknown".
Proof.
  split.
  - destruct size as [| b | n | x | size | l | d]; try discriminate.
    cbn [MainWindow.differs]. intros E. apply negb_false_iff, String.eqb_eq in E.
    subst size. reflexivity.
  - intros ->. reflexivity.
Qed.

(** The processor card has a third row, 'L3 Cache: Unknown', exactly
    when the cache size was never looked up: py-cpuinfo is missing, or its
    query or the one for the fallback name raised. When py-cpuinfo
    answers, the row shows the size it reports, and there is no such row
    when it reports none or reports 'Unknown'. *)
Theorem cache_row_of_processor_card (h : Host) :
  let rows := MainWindow.cpu_details (snapshot_of h) in
  match HAS_CPUINFO h, get_cpu_info (processor h),
        platform_processor (processor h) with
  | true, Returns cpu_info, Returns _ =>
      let size := Dict.get_default "l3_cache_size" (VStr "Unknown") cpu_info in
      (size = VStr "Unknown" -> length rows = 2%nat) /\
      (size <> VStr "Unknown" ->
       nth_error rows 2
       = Some [MainWindow.text "L3 Cache: "; MainWindow.shown size])
  | _, _, _ =>
      nth_error rows 2
      = Some [MainWindow.text "L3 Cache: "; MainWindow.shown (VStr "Unknown")]
  end.
Proof.
  cbv zeta. unfold MainWindow.cpu_details, MainWindow.get.
  rewrite (snapshot_cache h).
  destruct (HAS_CPUINFO h); [| reflexivity].
  destruct (get_cpu_info (processor h)) as [cpu_info | e]; [| reflexivity].
  destruct (platform_processor (processor h)) as [fallback | e]; [| reflexivity].
  generalize (Dict.get_default "l3_cache_size" (VStr "Unknown") cpu_info).
  intros size. split.
  - intros ->. reflexivity.
  - intros Hsize.
    destruct (MainWindow.differs (Some size) "Unknown") eqn:E; [reflexivity |].
    apply differs_Unknown in E. contradiction.
Qed.

(** ** The storage card *)

Section StorageCard.

Context {item : Type}.
Variable device_item : value -> outcome item.
Variable capabilities_item : value -> outcome item.

Lemma device_items_length devices rows :
  MainWindow.device_items device_item devices = Returns rows ->
  length rows = length devices.
Proof.
  revert rows. induction devices as [| device rest IH]; intros rows; cbn.
  - intros [= <-]. reflexivity.
  - destruct (device_item device) as [row | e]; [| discriminate].
    destruct (MainWindow.device_items device_item rest) as [rows' | e];
      [| discriminate].
    intros [= <-]. cbn. rewrite (IH rows' eq_refl). reflexivity.
Qed.

(** The card shows four rows at most, and the rows of the volumes come
    first: with four volumes or more the row of the capability estimate is
    built and never shown; with fewer, it is the last row whenever there
    is an estimate. *)
Theorem capability_row_needs_room
    (storage_devices : list value) (storage_capabilities : value)
    (items : list item) :
  MainWindow.storage_items device_item capabilities_item
    storage_devices storage_capabilities = Returns items ->
  exists rows,
    MainWindow.device_items device_item (firstn 4 storage_devices) = Returns rows /\
    ((4 <= length storage_devices)%nat ->
     MainWindow.DetailCard_rows items = rows) /\
    ((length storage_devices < 4)%nat ->
     truthy storage_capabilities = true ->
     exists row,
       capabilities_item storage_capabilities = Returns row /\
       MainWindow.DetailCard_rows items = (rows ++ [row])%list) /\
    (truthy storage_capabilities = false ->
     MainWindow.DetailCard_rows items = rows).
Proof.
  unfold MainWindow.storage_items, MainWindow.DetailCard_rows.
  destruct (MainWindow.device_items device_item (firstn 4 storage_devices))
    as [rows | e] eqn:Hrows; [| discriminate].
  pose proof (device_items_length _ _ Hrows) as Hlen.
  rewrite length_firstn in Hlen.
  intros Hitems. exists rows. split; [reflexivity |].
  destruct (truthy storage_capabilities).
  - destruct (capabilities_item storage_capabilities) as [row | e];
      [| discriminate].
    injection Hitems as <-. split; [| split].
    + intros H4. rewrite firstn_app.
      replace (4 - length rows)%nat with 0%nat by lia.
      cbn [firstn]. rewrite app_nil_r. apply firstn_all2. lia.
    + intros H4 _. exists row. split; [reflexivity |].
      apply firstn_all2. rewrite length_app. cbn [length]. lia.
    + discriminate.
  - injection Hitems as <-. split; [| split].
    + intros _. apply firstn_all2. lia.
    + discriminate.
    + intros _. apply firstn_all2. lia.
Qed.

End StorageCard.

Lemma capability_row_needs_room_witness :
  MainWindow.DetailCard_rows [1; 2; 3; 4; 0] = [1; 2; 3; 4].
Proof.
  destruct (capability_row_needs_room
              (fun v => match v with VInt n => Returns n | _ => Raises KeyError end)
              (fun _ => Returns 0)
              [VInt 1; VInt 2; VInt 3; VInt 4; VInt 5]
              (VDict [("max_capacity", VStr "2TB")])
              [1; 2; 3; 4; 0] eq_refl) as (rows & Hrows & H4 & _).
  injection Hrows as <-. apply H4. cbn. lia.
Defined.

(** ** The temperature card *)

Lemma dict_set_in k v d k' v' :
  In (k', v') (Dict.set k v d) -> (k' = k /\ v' = v) \/ In (k', v') d.
Proof.
  induction d as [| [k0 v0] d IH]; cbn [Dict.set].
  - intros [[= <- <-] | []]. left. split; reflexivity.
  - destruct (String.eqb k k0) eqn:E.
    + intros [[= <- <-] | H]; [left; split; reflexivity | right; right; exact H].
    + intros [H | H]; [right; left; exact H |].
      destruct (IH H) as [H' | H']; [left; exact H' | right; right; exact H'].
Qed.

Lemma fold_groups_in {A} (entry : string -> A -> value) groups : forall d0 g v,
  In (g, v) (fold_left (add_group entry) groups d0) ->
  In (g, v) d0 \/
  exists r rs, In (g, r :: rs) groups /\ v = VList (map (entry g) (r :: rs)).
Proof.
  induction groups as [| [name readings] groups IH]; intros d0 g v Hg;
    [left; exact Hg |].
  cbn [fold_left] in Hg. apply IH in Hg as [Hg | (r & rs & Hin & Hv)].
  - unfold add_group in Hg. cbn [fst snd] in Hg.
    destruct readings as [| r rs]; [left; exact Hg |].
    apply dict_set_in in Hg as [[-> ->] | Hg]; [| left; exact Hg].
    right. exists r, rs. split; [left; reflexivity | reflexivity].
  - right. exists r, rs. split; [right; exact Hin | exact Hv].
Qed.

(** What the loop of the card makes of a dict whose entries are those of
    sensor groups. *)
Lemma cpu_temp_from_groups (groups : list (string * list shwtemp))
    (temperatures : list (string * value)) : forall cpu_temp,
  (forall g v, In (g, v) temperatures ->
     exists r rs, In (g, r :: rs) groups /\
                  v = VList (map (temperature_entry g) (r :: rs))) ->
  exists cpu_temp',
    cpu_temp_from cpu_temp temperatures = Some cpu_temp' /\
    (cpu_temp' = cpu_temp \/
     exists g r rs, In (g, r :: rs) groups /\ named_cpu g = true /\
                    cpu_temp' = VFloat (temp_current r)).
Proof.
  induction temperatures as [| [name v] rest IH]; intros cpu_temp Hall.
  - exists cpu_temp. split; [reflexivity | left; reflexivity].
  - destruct (Hall name v (or_introl eq_refl)) as (r & rs & Hin & ->).
    cbn [cpu_temp_from map truthy first_current temperature_entry Dict.get].
    cbn [String.eqb Ascii.eqb Bool.eqb is_number].
    destruct (IH (if named_cpu name then VFloat (temp_current r) else cpu_temp))
      as (c & E & Hc).
    { intros g v Hg. apply Hall. right. exact Hg. }
    exists c. split; [exact E |].
    destruct Hc as [-> | Hc]; [| right; exact Hc].
    destruct (named_cpu name) eqn:En; [| left; reflexivity].
    right. exists name, r, rs. repeat split; assumption.
Qed.

(** With the snapshot of any run the card is drawn without an exception.
    It shows a temperature only if a sensor group whose name contains
    'cpu' or 'core' in any case has a reading, and then the first reading
    of such a group, which is not zero. On a host none of whose groups is
    so named the card reads 'N/A' and 'No sensors detected', whatever the
    sensors report. *)
Theorem temp_card_needs_cpu_in_name (h : Host) :
  exists card,
    temp_card (snapshot_of h) = Some card /\
    (forall cpu_temp, card = cpu_temperature cpu_temp ->
       exists g r rs,
         In (g, r :: rs) (groups_of (sensors_temperatures h)) /\
         named_cpu g = true /\
         cpu_temp = VFloat (temp_current r) /\
         ~ (temp_current r == 0)%Q) /\
    (Forall (fun g => named_cpu (fst g) = false)
       (groups_of (sensors_temperatures h)) ->
     card = not_available).
Proof.
  unfold temp_card, MainWindow.get.
  assert (Hsnap : snapshot_of h !! "temperatures"
                  = Some (VDict (group_readings temperature_entry
                                   (groups_of (sensors_temperatures h))))).
  { snapshot_via h "temperatures" 29%nat s. apply collect_temperatures_sets. }
  rewrite Hsnap.
  destruct (cpu_temp_from_groups (groups_of (sensors_temperatures h))
              (group_readings temperature_entry
                 (groups_of (sensors_temperatures h))) VNone)
    as (c & E & Hc).
  { intros g v Hg. apply fold_groups_in in Hg as [[] | Hg]. exact Hg. }
  rewrite E. eexists. split; [reflexivity |]. split.
  - intros cpu_temp Hcard.
    destruct (truthy c) eqn:Ht; [| discriminate Hcard].
    injection Hcard as <-.
    destruct Hc as [-> | (g & r & rs & Hin & Hn & ->)]; [discriminate Ht |].
    exists g, r, rs. repeat split; try assumption.
    cbn [truthy] in Ht. apply negb_true_iff in Ht. intros Hz.
    apply Qeq_bool_iff in Hz. congruence.
  - intros Hnone.
    destruct Hc as [-> | (g & r & rs & Hin & Hn & ->)]; [reflexivity |].
    rewrite Forall_forall in Hnone. apply list_elem_of_In in Hin.
    specialize (Hnone _ Hin).
    cbn [fst] in Hnone. congruence.
Qed.

(** ** The counters of a Windows drive *)

Lemma contains_char (c : ascii) (hay : string) :
  Str.contains (String c "") hay = true <-> In c (chars hay).
Proof.
  induction hay as [| a hay IH]; cbn [Str.contains chars In].
  - split; [discriminate | intros []].
  - change (String.prefix (String c "") (String a hay))
      with (if ascii_dec c a then String.prefix "" hay else false).
    destruct (ascii_dec c a) as [-> | Hne].
    + destruct hay; cbn; split; auto.
    + cbn [orb]. rewrite IH. split; [intros H; right; exact H |].
      intros [H | H]; [congruence | exact H].
Qed.

Lemma prefix_char (c a : ascii) (s : string) :
  c <> a -> String.prefix (String c "") (String a s) = false.
Proof.
  intros Hne.
  change (String.prefix (String c "") (String a s))
    with (if ascii_dec c a then String.prefix "" s else false).
  destruct (ascii_dec c a); [contradiction | reflexivity].
Qed.

Lemma prefix_char_same (c : ascii) (s : string) :
  String.prefix (String c "") (String c s) = true.
Proof.
  change (String.prefix (String c "") (String c s))
    with (if ascii_dec c c then String.prefix "" s else false).
  destruct (ascii_dec c c); [destruct s; reflexivity | contradiction].
Qed.

Lemma device_name_of_drive (c : ascii) (p : sdiskpart) :
  device p = String c (String colon (String backslash "")) ->
  c <> colon -> c <> backslash ->
  device_name "Windows" p = String c "".
Proof.
  intros Hd Hc Hb. unfold device_name. cbn [String.eqb Ascii.eqb Bool.eqb andb].
  rewrite Hd. unfold Str.replace.
  assert (E1 : Str.replace_from (String colon "") "" 0
                 (String c (String colon (String backslash "")))
               = String c (String backslash "")).
  { cbn [Str.replace_from].
    rewrite (prefix_char colon c) by congruence.
    rewrite prefix_char_same. cbn [String.length Nat.sub].
    rewrite (prefix_char colon backslash) by discriminate. reflexivity. }
  change ":" with (String colon ""). rewrite E1.
  change "\" with (String backslash ""). cbn [Str.replace_from].
  rewrite (prefix_char backslash c) by congruence.
  rewrite prefix_char_same. reflexivity.
Qed.

(** On Windows the counters of drive 'X:\' are looked up under the
    single letter X, and a counter matches when its name contains that
    letter anywhere, in any case: the drive gets the figures of the first
    counter listed whose name has the letter in it, whichever disk that
    counter stands for. *)
Theorem drive_letter_matches_by_substring
    (c : ascii) (p : sdiskpart) (disk_name : string) (stats : sdiskio)
    (rest : list (string * sdiskio)) :
  device p = String c (String colon (String backslash "")) ->
  c <> colon -> c <> backslash ->
  In (Str.lower_ascii c) (chars (Str.lower disk_name)) ->
  find_io_stats (device_name "Windows" p) ((disk_name, stats) :: rest)
  = io_stats_entry stats.
Proof.
  intros Hd Hc Hb Hin. rewrite (device_name_of_drive c p Hd Hc Hb).
  cbn [find_io_stats Str.lower]. apply contains_char in Hin. rewrite Hin.
  reflexivity.
Qed.

Lemma drive_letter_matches_by_substring_witness :
  find_io_stats
    (device_name "Windows"
       {| device := "C:\"; mountpoint := "C:\"; fstype := "NTFS";
          opts := "rw,fixed" |})
    [("PhysicalDrive1", {| read_bytes := 0; write_bytes := 0; read_count := 7;
                           write_count := 9 |})]
  = io_stats_entry {| read_bytes := 0; write_bytes := 0; read_count := 7;
                      write_count := 9 |}.
Proof.
  apply (drive_letter_matches_by_substring "C"%char).
  - reflexivity.
  - discriminate.
  - discriminate.
  - vm_compute. tauto.
Defined.

(** ** The memory type and the vendor *)

(** From 16 GB on, a vendor whose name contains 'intel' in any case
    gives the memory type 'DDR4/DDR5 (Intel)', and one whose name contains
    'amd' and not 'intel' gives 'DDR4/DDR5 (AMD)', in every tier: above
    32 GB the type of the tier, 'DDR5/ECC', is replaced too, while the
    speed stays 'DDR5-6400+'. Below 16 GB the vendor changes nothing. *)
Theorem memory_type_of_vendor (gb : Q) (vendor : string) :
  let capabilities := get_memory_capabilities gb (VStr vendor) in
  let intel := Str.contains "intel" (Str.lower vendor) in
  let amd := Str.contains "amd" (Str.lower vendor) in
  ((16 <= gb)%Q -> intel = true ->
   Dict.get "memory_type" capabilities = Some (VStr "DDR4/DDR5 (Intel)")) /\
  ((16 <= gb)%Q -> intel = false -> amd = true ->
   Dict.get "memory_type" capabilities = Some (VStr "DDR4/DDR5 (AMD)")) /\
  ((gb < 16)%Q -> capabilities = get_memory_capabilities gb VNone) /\
  (intel = false -> amd = false ->
   capabilities = get_memory_capabilities gb VNone) /\
  ((32 < gb)%Q ->
   Dict.get "max_speed" capabilities = Some (VStr "DDR5-6400+") /\
   Dict.get "memory_type" (get_memory_capabilities gb VNone)
   = Some (VStr "DDR5/ECC")).
Proof.
  cbv zeta. unfold get_memory_capabilities. cbv zeta.
  split; [| split; [| split; [| split]]].
  - intros H16 ->. rewrite (Qle_bool_true (of_int 16) gb H16). rewrite dict_get_set.
    reflexivity.
  - intros H16 -> ->. rewrite (Qle_bool_true (of_int 16) gb H16). rewrite dict_get_set.
    reflexivity.
  - intros H16. rewrite (Qle_bool_false (of_int 16) gb H16).
    destruct (Str.contains "intel" (Str.lower vendor)),
             (Str.contains "amd" (Str.lower vendor)); reflexivity.
  - intros -> ->. reflexivity.
  - intros H32.
    rewrite (Qle_bool_false gb (of_int 4)),
            (Qle_bool_false gb (of_int 8)),
            (Qle_bool_false gb (of_int 16)),
            (Qle_bool_false gb (of_int 32))
      by (unfold of_int, inject_Z; lra).
    destruct (Str.contains "intel" (Str.lower vendor)),
             (Str.contains "amd" (Str.lower vendor)),
             (Qle_bool (of_int 16) gb); split; reflexivity.
Qed.

Lemma memory_type_of_vendor_witness :
  Dict.get "memory_type" (get_memory_capabilities (64 # 1) (VStr "GenuineIntel"))
  = Some (VStr "DDR4/DDR5 (Intel)") /\
  Dict.get "max_speed" (get_memory_capabilities (64 # 1) (VStr "GenuineIntel"))
  = Some (VStr "DDR5-6400+").
Proof.
  destruct (memory_type_of_vendor (64 # 1) "GenuineIntel")
    as (Hintel & _ & _ & _ & Htop).
  split.
  - apply Hintel; [discriminate | reflexivity].
  - apply Htop. reflexivity.
Defined.

(** ** What a failing step leaves *)

Section Doomed.

Context {A B : Type}.

Lemma doomed_call q e : doomed (@call A q (Raises e)).
Proof. intros s. exists e. reflexivity. Qed.

Lemma doomed_raise e : doomed (@raise A e).
Proof. intros s. exists e. reflexivity. Qed.

Lemma doomed_bind_l (m : M A) (f : A -> M B) : doomed m -> doomed (bind m f).
Proof.
  intros Hm s. destruct (Hm s) as [e He]. exists e. unfold bind.
  destruct (m s) as [[a | e'] s']; cbn [fst] in *; congruence.
Qed.

Lemma doomed_bind_r (m : M A) (f : A -> M B) :
  (forall a, doomed (f a)) -> doomed (bind m f).
Proof.
  intros Hf s. unfold bind. destruct (m s) as [[a | e] s'].
  - apply Hf.
  - exists e. reflexivity.
Qed.

(** The handler of a [try] whose body is doomed has the last word. *)
Lemma try_except_doomed (body handler : M A) s :
  doomed body -> exec (try_except body handler) s = exec handler (exec body s).
Proof.
  intros Hb. destruct (Hb s) as [e He]. unfold exec, try_except.
  destruct (body s) as [[a | e'] s']; cbn [fst snd] in *;
    [discriminate He | reflexivity].
Qed.

End Doomed.

Ltac doomed_tac :=
  lazymatch goal with
  | |- doomed (call _ (Raises _)) => apply doomed_call
  | |- doomed (raise _) => apply doomed_raise
  | |- doomed (bind _ _) =>
      first [ apply doomed_bind_l; solve [doomed_tac]
            | apply doomed_bind_r; intros ?; doomed_tac ]
  | |- doomed (if ?b then _ else _) => destruct b; doomed_tac
  | |- doomed (match ?x with _ => _ end) => destruct x; doomed_tac
  end.

(** The values a handler made of assignments leaves. *)
Ltac handler_tac :=
  let kv := fresh "kv" in
  let Hin := fresh "Hin" in
  intros kv Hin; cbn [sentinels In] in Hin;
  repeat (destruct Hin as [<- | Hin]); try (destruct Hin);
  cbn [fst snd]; lookup_tac.

Ltac answers q :=
  destruct q; [| solve [doomed_tac]].

Lemma collect_identity_fails system h s :
  raised system || raised (platform_release h) || raised (platform_version h)
  || raised (platform_architecture h) || raised (gethostname h)
  || raised (platform_machine h) = true ->
  forall kv, In kv (sentinels Identity) ->
    info (exec (collect_identity system h) s) !! fst kv = Some (snd kv).
Proof.
  intros Hf. unfold collect_identity. rewrite try_except_doomed; [handler_tac |].
  answers system. answers (platform_release h). answers (platform_version h).
  answers (platform_architecture h). answers (gethostname h).
  answers (platform_machine h). discriminate Hf.
Qed.

Lemma collect_uptime_fails h s :
  raised (boot_time h) || raised (time_now h)
  || raised (fromtimestamp_strftime h) = true ->
  forall kv, In kv (sentinels Uptime) ->
    info (exec (collect_uptime h) s) !! fst kv = Some (snd kv).
Proof.
  intros Hf. unfold collect_uptime, timedelta. cbv zeta.
  rewrite try_except_doomed; [handler_tac |].
  answers (boot_time h). answers (time_now h).
  answers (fromtimestamp_strftime h). discriminate Hf.
Qed.

Lemma collect_motherboard_fails system h s :
  match system with
  | Raises _ => true
  | Returns sys =>
      if String.eqb sys "Windows" then raised (wmic_baseboard h)
      else if String.eqb sys "Linux" then raised (dmidecode h)
      else false
  end = true ->
  forall kv, In kv (sentinels Motherboard) ->
    info (exec (collect_motherboard system h) s) !! fst kv = Some (snd kv).
Proof.
  intros Hf kv Hin. cbn [sentinels In] in Hin. destruct Hin as [<- | []].
  cbn [fst snd].
  unfold collect_motherboard, get_motherboard_info, exec, try_except, bind, call.
  cbv zeta. destruct system as [sys | e]; [| cbn; apply lookup_insert_eq].
  cbn [fst snd]. destruct (String.eqb sys "Windows").
  - destruct (wmic_baseboard h) as [r | e]; [discriminate Hf |].
    cbn. apply lookup_insert_eq.
  - destruct (String.eqb sys "Linux"); [| discriminate Hf].
    destruct (dmidecode h) as [r | e]; [discriminate Hf |].
    cbn. apply lookup_insert_eq.
Qed.

Lemma collect_processor_fails c h s :
  (c && raised (get_cpu_info h)) || raised (platform_processor h)
  || raised (cpu_count_physical h) || raised (cpu_count_logical h)
  || raised (cpu_percent h) || raised (cpu_percent_percpu h)
  || raised (cpu_times h) = true ->
  forall kv, In kv (sentinels Processor) ->
    info (exec (collect_processor c h) s) !! fst kv = Some (snd kv).
Proof.
  intros Hf. unfold collect_processor, as_str.
  rewrite try_except_doomed; [handler_tac |].
  destruct c; [answers (get_cpu_info h) |];
    answers (platform_processor h); answers (cpu_count_physical h);
    answers (cpu_count_logical h); answers (cpu_percent h);
    answers (cpu_percent_percpu h); answers (cpu_times h); discriminate Hf.
Qed.

Lemma collect_memory_fails h s :
  raised (virtual_memory h) || raised (swap_memory h) = true ->
  forall kv, In kv (sentinels Memory) ->
    info (exec (collect_memory h) s) !! fst kv = Some (snd kv).
Proof.
  intros Hf. unfold collect_memory, as_number.
  rewrite try_except_doomed; [handler_tac |].
  answers (virtual_memory h). answers (swap_memory h). discriminate Hf.
Qed.

Lemma collect_storage_fails system h s :
  raised (disk_partitions h) = true ->
  forall kv, In kv (sentinels Storage) ->
    info (exec (collect_storage system h) s) !! fst kv = Some (snd kv).
Proof.
  intros Hf. destruct (disk_partitions h) as [ps | e] eqn:Hp; [discriminate Hf |].
  unfold collect_storage, exec, try_except, bind, call. rewrite Hp. handler_tac.
Qed.

Lemma collect_graphics_fails system h s :
  raised (getGPUs h) = true ->
  forall kv, In kv (sentinels Graphics) ->
    info (exec (collect_graphics system true h) s) !! fst kv = Some (snd kv).
Proof.
  intros Hf. destruct (getGPUs h) as [gpus | e] eqn:Hg; [discriminate Hf |].
  unfold collect_graphics, exec, try_except, bind, call. rewrite Hg. handler_tac.
Qed.

Lemma collect_network_fails h s :
  raised (net_if_addrs h) || raised (net_if_stats h)
  || raised (net_io_counters_pernic h) = true ->
  forall kv, In kv (sentinels Network) ->
    info (exec (collect_network h) s) !! fst kv = Some (snd kv).
Proof.
  intros Hf. unfold collect_network, exec, try_except, bind, call.
  destruct (net_if_addrs h) as [ifs | e1]; [| handler_tac].
  destruct (net_if_stats h) as [stats | e2]; [| handler_tac].
  destruct (net_io_counters_pernic h) as [ios | e3]; [| handler_tac].
  discriminate Hf.
Qed.

Lemma collect_battery_fails query s :
  raised query = true ->
  forall kv, In kv (sentinels Battery) ->
    info (exec (collect_battery query) s) !! fst kv = Some (snd kv).
Proof.
  intros Hf. unfold collect_battery.
  rewrite try_except_doomed; [handler_tac |]. answers query. discriminate Hf.
Qed.

Lemma collect_temperatures_fails query s :
  raised query = true ->
  forall kv, In kv (sentinels Thermal) ->
    info (exec (collect_temperatures query) s) !! fst kv = Some (snd kv).
Proof.
  intros Hf. unfold collect_temperatures.
  rewrite try_except_doomed; [handler_tac |]. answers query. discriminate Hf.
Qed.

Lemma collect_fans_fails query s :
  raised query = true ->
  forall kv, In kv (sentinels Fans) ->
    info (exec (collect_fans query) s) !! fst kv = Some (snd kv).
Proof.
  intros Hf. unfold collect_fans.
  rewrite try_except_doomed; [handler_tac |]. answers query. discriminate Hf.
Qed.

Lemma collect_processes_fails h s :
  raised (pids h) || raised (process_iter_first h)
  || raised (process_iter_second h) = true ->
  forall kv, In kv (sentinels Processes) ->
    info (exec (collect_processes h) s) !! fst kv = Some (snd kv).
Proof.
  intros Hf. unfold collect_processes.
  rewrite try_except_doomed; [handler_tac |].
  answers (pids h). answers (process_iter_first h).
  answers (process_iter_second h). discriminate Hf.
Qed.

Lemma collect_load_average_fails query s :
  raised query = true ->
  forall kv, In kv (sentinels LoadAverage) ->
    info (exec (collect_load_average true query) s) !! fst kv = Some (snd kv).
Proof.
  intros Hf. unfold collect_load_average.
  rewrite try_except_doomed; [handler_tac |]. answers query. discriminate Hf.
Qed.

Ltac sentinels_via h n L :=
  repeat (constructor;
          [ cbn [fst snd];
            match goal with
            | |- snapshot_of h !! ?k = Some ?v =>
                let s := fresh "s" in
                snapshot_via h k n s; apply (L s (k, v));
                cbn [sentinels In]; tauto
            end |]);
  constructor.

(** When a step fails, the snapshot holds the unknown and empty values
    of its handler. *)
Lemma failing_step_sentinels (i : step) (h : Host) :
  fails i h = true ->
  Forall (fun kv => snapshot_of h !! fst kv = Some (snd kv)) (sentinels i).
Proof.
  intros Hf. destruct i; cbn [fails] in Hf; cbn [sentinels].
  - sentinels_via h 2%nat
      (fun s => collect_identity_fails (platform_system h) (identity h) s Hf).
  - sentinels_via h 5%nat (fun s => collect_uptime_fails (uptime h) s Hf).
  - sentinels_via h 8%nat
      (fun s => collect_motherboard_fails (platform_system h) (motherboard h) s Hf).
  - sentinels_via h 11%nat
      (fun s => collect_processor_fails (HAS_CPUINFO h) (processor h) s Hf).
  - sentinels_via h 14%nat (fun s => collect_memory_fails (memory h) s Hf).
  - sentinels_via h 17%nat
      (fun s => collect_storage_fails (platform_system h) (storage h) s Hf).
  - apply andb_true_iff in Hf as [Hg Hf].
    assert (L : forall s kv, In kv (sentinels Graphics) ->
              info (exec (collect_graphics (platform_system h) (HAS_GPUTIL h)
                            (graphics h)) s) !! fst kv = Some (snd kv)).
    { rewrite Hg. intros s. apply collect_graphics_fails, Hf. }
    sentinels_via h 20%nat L.
  - sentinels_via h 23%nat (fun s => collect_network_fails (network h) s Hf).
  - sentinels_via h 26%nat
      (fun s => collect_battery_fails (sensors_battery h) s Hf).
  - sentinels_via h 29%nat
      (fun s => collect_temperatures_fails (sensors_temperatures h) s Hf).
  - sentinels_via h 30%nat (fun s => collect_fans_fails (sensors_fans h) s Hf).
  - sentinels_via h 33%nat
      (fun s => collect_processes_fails (processes h) s Hf).
  - apply andb_true_iff in Hf as [Hg Hf].
    assert (L : forall s kv, In kv (sentinels LoadAverage) ->
              info (exec (collect_load_average (has_getloadavg h) (getloadavg h))
                      s) !! fst kv = Some (snd kv)).
    { rewrite Hg. intros s. apply collect_load_average_fails, Hf. }
    sentinels_via h 34%nat L.
Qed.

(** ** C1: a run returns, sends one snapshot and keeps failures apart *)

(** C1, as the collector does it. Whatever the queries of the host answer
    or raise, [run] returns without raising and sends [info_ready] exactly
    once, with the snapshot. When the answers to the queries of one step
    change, failures included, the snapshot changes in the keys of that
    step only, with one exception: [memory_capabilities], which the memory
    step computes from the [cpu_vendor] left by the processor step; there
    the memory-type label is all that can change. When a query of the
    step raises and the exception reaches the handler of the step, the
    snapshot holds under the keys the handler assigns, which are keys of
    the step, the unknown and empty values it assigns: 'Unknown',
    'Unknown OS', 'Unknown Processor', 0, the empty list, the empty dict
    or [None]. *)
Theorem C1_run_returns_and_isolates_steps (i : step) (h1 h2 : Host) :
  agree_except i h1 h2 ->
  (exists final,
     run h1 start = (Returns tt, final) /\
     snapshots (trace final) = [snapshot_of h1]) /\
  (exists final,
     run h2 start = (Returns tt, final) /\
     snapshots (trace final) = [snapshot_of h2]) /\
  (forall k, owns (keys i) k = false -> owns (reached i) k = false ->
     snapshot_of h1 !! k = snapshot_of h2 !! k) /\
  (i = Processor ->
   exists d1 d2,
     snapshot_of h1 !! "memory_capabilities" = Some (VDict d1) /\
     snapshot_of h2 !! "memory_capabilities" = Some (VDict d2) /\
     forall k, k <> "memory_type" -> Dict.get k d1 = Dict.get k d2) /\
  (fails i h1 = true ->
   Forall (fun kv => snapshot_of h1 !! fst kv = Some (snd kv)) (sentinels i)) /\
  (fails i h2 = true ->
   Forall (fun kv => snapshot_of h2 !! fst kv = Some (snd kv)) (sentinels i)) /\
  Forall (fun kv => owns (keys i) (fst kv) = true) (sentinels i).
Proof.
  intros H. split; [apply run_sends_one_snapshot |].
  split; [apply run_sends_one_snapshot |]. split; [| split; [| split; [| split]]].
  - intros k Hk Hr. rewrite !snapshot_of_exec_all.
    apply (exec_all_aligned _ _ _ (statements_aligned i h1 h2 H) start start).
    + split; [reflexivity | discriminate].
    + rewrite owns_app, Hk, Hr. reflexivity.
  - intros ->.
    destruct H as (_ & _ & _ & _ & _ & _ & _ & _ & Hm & _).
    destruct (snapshot_memory_estimate h1) as [v1 E1].
    destruct (snapshot_memory_estimate h2) as [v2 E2].
    rewrite <- Hm in E2 by discriminate.
    eexists _, _. split; [exact E1 |]. split; [exact E2 |].
    intros k Hk. apply memory_estimate_vendor, Hk.
  - apply failing_step_sentinels.
  - apply failing_step_sentinels.
  - destruct i; cbn [sentinels]; repeat constructor.
Qed.

Lemma healthy_and_no_cpuinfo_differ_in_processor :
  agree_except Processor Sample.healthy Faulty.no_cpuinfo.
Proof.
  repeat split; try reflexivity; intros H; try reflexivity.
  exfalso. apply H. reflexivity.
Qed.

Lemma C1_run_returns_and_isolates_steps_witness :
  agree_except Processor Sample.healthy Faulty.no_cpuinfo /\
  owns (keys Processor) "ram_total_gb" = false /\
  owns (reached Processor) "ram_total_gb" = false /\
  snapshot_of Sample.healthy !! "ram_total_gb"
  = snapshot_of Faulty.no_cpuinfo !! "ram_total_gb" /\
  fails Processor Faulty.no_cpuinfo = true /\
  Forall (fun kv => snapshot_of Faulty.no_cpuinfo !! fst kv = Some (snd kv))
    [("processor", VStr "Unknown Processor"); ("cpu_cores_physical", VInt 0);
     ("cpu_cores_logical", VInt 0); ("cpu_usage", VInt 0);
     ("cpu_usage_per_core", VList [])].
Proof.
  split; [apply healthy_and_no_cpuinfo_differ_in_processor |].
  split; [reflexivity |]. split; [reflexivity |].
  destruct (C1_run_returns_and_isolates_steps Processor Sample.healthy
              Faulty.no_cpuinfo healthy_and_no_cpuinfo_differ_in_processor)
    as (_ & _ & Hkeys & _ & _ & Hfails & _).
  split; [apply Hkeys; reflexivity |].
  split; [reflexivity |]. apply Hfails. reflexivity.
Defined.

(** C1, as stated, fails: when [cpuinfo.get_cpu_info()] raises, the
    processor step leaves no [cpu_vendor], and the memory step, which did
    not fail, reports another [memory_capabilities] than on the same host
    with a working processor query. *)
Lemma C1_processor_failure_reaches_memory_estimate :
  ~ (forall i h1 h2,
       agree_except i h1 h2 ->
       forall k, owns (keys i) k = false ->
         snapshot_of h1 !! k = snapshot_of h2 !! k).
Proof.
  intros H.
  specialize (H Processor Sample.healthy Faulty.no_cpuinfo
                healthy_and_no_cpuinfo_differ_in_processor
                "memory_capabilities" eq_refl).
  vm_compute in H. discriminate H.
Qed.

(** ** The addresses the network step collects *)

Lemma prefix_append (p q s : string) :
  String.prefix (p +:+ q) s = true -> String.prefix p s = true.
Proof.
  revert s. induction p as [| a p IH]; intros s; [destruct s; reflexivity |].
  rewrite append_String. destruct s as [| b s]; [discriminate |].
  change (String.prefix (String a (p +:+ q)) (String b s))
    with (if ascii_dec a b then String.prefix (p +:+ q) s else false).
  change (String.prefix (String a p) (String b s))
    with (if ascii_dec a b then String.prefix p s else false).
  destruct (ascii_dec a b); [apply IH | discriminate].
Qed.

Lemma contains_append (p q hay : string) :
  Str.contains (p +:+ q) hay = true -> Str.contains p hay = true.
Proof.
  induction hay as [| a hay IH]; cbn [Str.contains]; intros H.
  - apply orb_true_iff in H as [H | H]; [| discriminate].
    apply prefix_append in H. rewrite H. reflexivity.
  - apply orb_true_iff in H as [H | H].
    + apply prefix_append in H. rewrite H. reflexivity.
    + rewrite (IH H). apply orb_true_r.
Qed.

(** The test of the step accepts the non-loopback IPv4 addresses and,
    because 'AF_INET' is part of 'AF_INET6', the IPv6 addresses as well. *)
Lemma qualifies_families (addr : snicaddr) :
  qualifies addr
  = non_loopback_ipv4 addr
    || (ipv6 addr && negb (Str.startswith "127." (address addr))).
Proof.
  unfold qualifies, non_loopback_ipv4, ipv4, ipv6.
  destruct (family addr) as [f |]; [| reflexivity].
  destruct (Str.contains "AF_INET6" f) eqn:E6.
  - rewrite (contains_append "AF_INET" "6" f E6). cbn [negb andb orb]. reflexivity.
  - cbn [negb andb orb]. rewrite andb_true_r, orb_false_r. reflexivity.
Qed.

Lemma existsb_qualifies (addresses : list snicaddr) :
  existsb qualifies addresses = true ->
  existsb non_loopback_ipv4 addresses = true \/ existsb ipv6 addresses = true.
Proof.
  induction addresses as [| a addresses IH]; cbn [existsb]; [discriminate |].
  rewrite qualifies_families. intros H.
  apply orb_true_iff in H as [H | H].
  - apply orb_true_iff in H as [H | H].
    + left. rewrite H. reflexivity.
    + apply andb_true_iff in H as [H _]. right. rewrite H. reflexivity.
  - destruct (IH H) as [H' | H']; [left | right]; rewrite H'; apply orb_true_r.
Qed.

Lemma existsb_non_loopback_ipv4 (addresses : list snicaddr) :
  existsb non_loopback_ipv4 addresses = true -> existsb qualifies addresses = true.
Proof.
  induction addresses as [| a addresses IH]; cbn [existsb]; [discriminate |].
  rewrite qualifies_families. intros H.
  apply orb_true_iff in H as [H | H].
  - rewrite H. reflexivity.
  - rewrite (IH H). apply orb_true_r.
Qed.

(** Where a row of the interface list comes from. *)
Lemma network_rows_origin (h : Host) v :
  In v (network_rows (network h)) ->
  exists name addresses st,
    In (name, addresses) (interfaces_of h) /\
    name_of v = Some name /\
    skipped_interface name = false /\
    existsb qualifies addresses = true /\
    (forall stats, net_if_stats (network h) = Returns stats ->
       lookup_name name stats = Some st).
Proof.
  unfold network_rows, interfaces_of. intros Hv.
  destruct (net_if_addrs (network h)) as [ifs |]; [| destruct Hv].
  destruct (net_if_stats (network h)) as [stats |]; [| destruct Hv].
  destruct (net_io_counters_pernic (network h)) as [ios |]; [| destruct Hv].
  apply in_flat_map in Hv as ([name addresses] & Hin & Hv).
  unfold interface_rows in Hv. cbn [fst snd] in Hv.
  destruct (skipped_interface name) eqn:Hs; [destruct Hv |].
  destruct (lookup_name name stats) as [st |] eqn:Hst; [| destruct Hv].
  destruct (existsb qualifies addresses) eqn:Hq; [| destruct Hv].
  destruct Hv as [<- | []].
  destruct (interface_entry_fields name st addresses ios) as [_ Hn].
  exists name, addresses, st. split; [exact Hin |].
  split; [unfold name_of; rewrite Hn; reflexivity |].
  split; [exact Hs |]. split; [exact Hq |].
  intros stats' [= <-]. exact Hst.
Qed.

Lemma collect_network_totals h s ifs stats ios io :
  net_if_addrs h = Returns ifs -> net_if_stats h = Returns stats ->
  net_io_counters_pernic h = Returns ios ->
  net_io_counters h = Returns (Some io) ->
  info (exec (collect_network h) s) !! "network_stats"
  = Some (VDict [("total_bytes_sent", gib (bytes_sent io));
                 ("total_bytes_recv", gib (bytes_recv io));
                 ("total_packets_sent", VInt (packets_sent io));
                 ("total_packets_recv", VInt (packets_recv io))]).
Proof.
  intros H1 H2 H3 H4.
  destruct (collect_network_sets h s) as [_ Hs].
  rewrite (Hs ifs stats ios io H1 H2 H3 H4). reflexivity.
Qed.

Lemma snapshot_network_totals h ifs stats ios io :
  net_if_addrs (network h) = Returns ifs ->
  net_if_stats (network h) = Returns stats ->
  net_io_counters_pernic (network h) = Returns ios ->
  net_io_counters (network h) = Returns (Some io) ->
  snapshot_of h !! "network_stats"
  = Some (VDict [("total_bytes_sent", gib (bytes_sent io));
                 ("total_bytes_recv", gib (bytes_recv io));
                 ("total_packets_sent", VInt (packets_sent io));
                 ("total_packets_recv", VInt (packets_recv io))]).
Proof.
  intros H1 H2 H3 H4. snapshot_via h "network_stats" 23%nat s.
  apply (collect_network_totals _ s ifs stats ios io H1 H2 H3 H4).
Qed.

Lemma in_filter_names {A} (f : string * A -> bool) (l : list (string * A)) name a :
  In (name, a) l -> f (name, a) = true -> In name (map fst (List.filter f l)).
Proof.
  intros Hin Hf. apply in_map_iff. exists (name, a). split; [reflexivity |].
  apply List.filter_In. split; assumption.
Qed.

(** C6, as the collector does it. Every entry of the snapshot's
    interface list belongs to an interface whose name is neither 'lo' nor
    'loopback' in any case and does not contain 'virtual' in any case,
    however many addresses a loopback or virtual interface has. It belongs
    to an interface that has a non-loopback IPv4 address or an IPv6
    address, and its address list is not empty: an interface with neither
    is left out, whatever its link state. When the three queries of the
    loop answer, the interfaces listed are exactly those that pass the two
    tests and are known to [net_if_stats], among them every such interface
    with a non-loopback IPv4 address. The totals of [network_stats] are
    the four counters of the global counter of the host, in GiB for the
    bytes; when that counter is the sum over all the interfaces of the
    per-interface counters, they are the sums over all the interfaces,
    those left out included. *)
Theorem C6_network_filtering (h : Host) :
  exists rows,
    snapshot_of h !! "network_interfaces" = Some (VList rows) /\
    (forall v, In v rows ->
       exists d name a l,
         v = VDict d /\ Dict.get "name" d = Some (VStr name) /\
         skipped_interface name = false /\
         Dict.get "addresses" d = Some (VList (a :: l))) /\
    (forall v, In v rows ->
       exists name addresses,
         In (name, addresses) (interfaces_of h) /\
         name_of v = Some name /\
         (existsb non_loopback_ipv4 addresses = true \/
          existsb ipv6 addresses = true)) /\
    (forall ifs stats ios,
       net_if_addrs (network h) = Returns ifs ->
       net_if_stats (network h) = Returns stats ->
       net_io_counters_pernic (network h) = Returns ios ->
       omap name_of rows = map fst (List.filter (listed stats) ifs) /\
       (forall name addresses st,
          In (name, addresses) ifs ->
          skipped_interface name = false ->
          lookup_name name stats = Some st ->
          existsb non_loopback_ipv4 addresses = true ->
          In name (omap name_of rows)) /\
       forall io,
         net_io_counters (network h) = Returns (Some io) ->
         snapshot_of h !! "network_stats"
         = Some (VDict [("total_bytes_sent", gib (bytes_sent io));
                        ("total_bytes_recv", gib (bytes_recv io));
                        ("total_packets_sent", VInt (packets_sent io));
                        ("total_packets_recv", VInt (packets_recv io))]) /\
         (sums_all ios io ->
          snapshot_of h !! "network_stats"
          = Some (VDict [("total_bytes_sent", gib (over_all bytes_sent ios));
                         ("total_bytes_recv", gib (over_all bytes_recv ios));
                         ("total_packets_sent", VInt (over_all packets_sent ios));
                         ("total_packets_recv", VInt (over_all packets_recv ios))]))).
Proof.
  destruct (snapshot_network h) as [Hrows _].
  exists (network_rows (network h)). split; [exact Hrows |]. split; [| split].
  - intros v Hv. unfold network_rows in Hv.
    destruct (net_if_addrs (network h)) as [ifs |]; [| destruct Hv].
    destruct (net_if_stats (network h)) as [stats |]; [| destruct Hv].
    destruct (net_io_counters_pernic (network h)) as [ios |]; [| destruct Hv].
    apply in_flat_map in Hv as (iface & _ & Hv).
    destruct (interface_rows_sound _ _ _ _ Hv) as (d & a & l & H1 & H2 & H3 & H4).
    exists d, (fst iface), a, l. repeat split; assumption.
  - intros v Hv.
    destruct (network_rows_origin h v Hv)
      as (name & addresses & st & Hin & Hn & _ & Hq & _).
    exists name, addresses. split; [exact Hin |]. split; [exact Hn |].
    apply existsb_qualifies, Hq.
  - intros ifs stats ios H1 H2 H3.
    assert (Hnames : omap name_of (network_rows (network h))
                     = map fst (List.filter (listed stats) ifs)).
    { unfold network_rows. rewrite H1, H2, H3. apply interface_rows_names. }
    split; [exact Hnames |]. split.
    + intros name addresses st Hin Hs Hst H4. rewrite Hnames.
      apply (in_filter_names _ _ name addresses Hin).
      unfold listed. cbn [fst snd].
      rewrite Hs, Hst, (existsb_non_loopback_ipv4 _ H4). reflexivity.
    + intros io H4.
      pose proof (snapshot_network_totals h ifs stats ios io H1 H2 H3 H4) as Ht.
      split; [exact Ht |].
      intros (E1 & E2 & E3 & E4). rewrite Ht, E1, E2, E3, E4. reflexivity.
Qed.

Lemma C6_network_filtering_witness :
  exists rows,
    snapshot_of Sample.healthy !! "network_interfaces" = Some (VList rows) /\
    omap name_of rows = ["eth0"] /\
    snapshot_of Sample.healthy !! "network_stats"
    = Some (VDict [("total_bytes_sent", gib (10 * 1024 ^ 2));
                   ("total_bytes_recv", gib (20 * 1024 ^ 2));
                   ("total_packets_sent", VInt 10);
                   ("total_packets_recv", VInt 20)]).
Proof.
  destruct (C6_network_filtering Sample.healthy) as (rows & Hr & _ & _ & H).
  exists rows. split; [exact Hr |].
  destruct (H _ _ _ eq_refl eq_refl eq_refl) as (Hn & _ & Hs).
  split; [exact Hn |].
  destruct (Hs _ eq_refl) as [_ Hsum]. apply Hsum.
  repeat split; reflexivity.
Defined.

(** C6, as stated, fails: an interface that is up and has no IPv4
    address at all, only a link-local IPv6 address, is listed. *)
Lemma C6_interface_without_ipv4_is_listed :
  ~ (forall h name addresses rows,
       In (name, addresses) (interfaces_of h) ->
       skipped_interface name = false ->
       existsb non_loopback_ipv4 addresses = false ->
       snapshot_of h !! "network_interfaces" = Some (VList rows) ->
       ~ In name (omap name_of rows)).
Proof.
  intros H.
  destruct (snapshot_network ipv6_interfaces) as [Hrows _].
  apply (H ipv6_interfaces "wlan0"
           [inet6 "fe80::1"; Sample.link "11:22:33:44:55:66"]
           (network_rows (network ipv6_interfaces))).
  - right. left. reflexivity.
  - reflexivity.
  - reflexivity.
  - exact Hrows.
  - vm_compute. left. reflexivity.
Qed.

(** ** The address shown for an interface *)

Lemma filter_head {A} (f : A -> bool) (l : list A) x l' :
  List.filter f l = x :: l' -> In x l /\ f x = true.
Proof.
  intros E. apply (List.filter_In f x l). rewrite E. left. reflexivity.
Qed.

(** For every interface the snapshot lists, the card shows an address
    without raising: the first of the addresses of the interface that the
    collector kept, that is the first whose family reads as an [AF_INET]
    or an [AF_INET6] one and which does not start with '127.'. It is a
    non-loopback IPv4 address or an IPv6 address: where the IPv6 address
    of an interface comes first, the card shows it and not the IPv4 one.
    The placeholder 'No IP' is for an interface with no address collected,
    and the collector lists none. *)
Theorem ip_addr_is_first_address (h : Host) :
  (exists rows,
     snapshot_of h !! "network_interfaces" = Some (VList rows) /\
     forall row, In row rows ->
       exists name addresses first others,
         In (name, addresses) (interfaces_of h) /\
         name_of row = Some name /\
         List.filter qualifies addresses = first :: others /\
         ip_addr row = Some (VStr (address first)) /\
         (non_loopback_ipv4 first = true \/ ipv6 first = true)) /\
  (exists rows,
     snapshot_of ipv6_interfaces !! "network_interfaces" = Some (VList rows) /\
     map (fun row => (name_of row, ip_addr row)) rows
     = [(Some "wlan0", Some (VStr "fe80::1"));
        (Some "eth0", Some (VStr "fe80::2"))]).
Proof.
  split.
  - destruct (snapshot_network h) as [Hrows _].
    exists (network_rows (network h)). split; [exact Hrows |].
    intros row Hrow. unfold network_rows in Hrow. unfold interfaces_of.
    destruct (net_if_addrs (network h)) as [ifs |]; [| destruct Hrow].
    destruct (net_if_stats (network h)) as [stats |]; [| destruct Hrow].
    destruct (net_io_counters_pernic (network h)) as [ios |]; [| destruct Hrow].
    apply in_flat_map in Hrow as ([name addresses] & Hin & Hrow).
    unfold interface_rows in Hrow. cbn [fst snd] in Hrow.
    destruct (skipped_interface name); [destruct Hrow |].
    destruct (lookup_name name stats) as [st |]; [| destruct Hrow].
    destruct (existsb qualifies addresses) eqn:Hq; [| destruct Hrow].
    destruct Hrow as [<- | []].
    destruct (filter_cons_existsb _ _ Hq) as (first & others & Hf).
    destruct (interface_entry_fields name st addresses ios) as [Ha Hn].
    exists name, addresses, first, others.
    split; [exact Hin |]. split; [| split; [exact Hf |]].
    + unfold name_of. rewrite Hn. reflexivity.
    + split; [unfold ip_addr; rewrite Ha, Hf; reflexivity |].
      * destruct (filter_head _ _ _ _ Hf) as [_ Hfirst].
        rewrite qualifies_families in Hfirst.
        apply orb_prop in Hfirst as [H4 | H6]; [left; exact H4 | right].
        apply andb_prop in H6 as [H6 _]. exact H6.
  - destruct (snapshot_network ipv6_interfaces) as [Hrows _].
    exists (network_rows (network ipv6_interfaces)). split; [exact Hrows |].
    vm_compute. reflexivity.
Qed.

(** ** The pauses of a run *)

Section Quiet.

Context {X : Type} (f : event -> list X) {A B : Type}.

Lemma hides_unchanged (m : M A) :
  (forall s, trace (exec m s) = trace s) -> hides f m.
Proof. intros H s. rewrite H. reflexivity. Qed.

Lemma hides_ret (a : A) : hides f (ret a).
Proof. apply hides_unchanged. reflexivity. Qed.

Lemma hides_raise e : hides f (@raise A e).
Proof. apply hides_unchanged. reflexivity. Qed.

Lemma yields_call q (o : outcome A) : yields f (f (called q)) (call q o).
Proof. intros s. cbn. rewrite flat_map_app. cbn. rewrite app_nil_r. reflexivity. Qed.

Lemma hides_call q (o : outcome A) : f (called q) = [] -> hides f (call q o).
Proof. intros E s. rewrite yields_call, E. apply app_nil_r. Qed.

Lemma hides_bind (m : M A) (k : A -> M B) :
  hides f m -> (forall a, hides f (k a)) -> hides f (bind m k).
Proof.
  intros Hm Hk s. specialize (Hm s). unfold exec, bind in *.
  destruct (m s) as [[a | e] s']; cbn [snd] in *; [| exact Hm].
  rewrite <- Hm. apply Hk.
Qed.

Lemma hides_try_except (body handler : M A) :
  hides f body -> hides f handler -> hides f (try_except body handler).
Proof.
  intros Hb Hh s. specialize (Hb s). unfold exec, try_except in *.
  destruct (body s) as [[a | e] s']; cbn [snd] in *; [exact Hb |].
  rewrite <- Hb. apply Hh.
Qed.

Lemma hides_try_except_OSError (body handler : M A) :
  hides f body -> hides f handler ->
  hides f (try_except_OSError body handler).
Proof.
  intros Hb Hh s. specialize (Hb s). unfold exec, try_except_OSError in *.
  destruct (body s) as [[a | e] s']; cbn [snd] in *; [exact Hb |].
  destruct (is_OSError e); [| exact Hb]. rewrite <- Hb. apply Hh.
Qed.

Lemma hides_yields (m : M A) : hides f m -> yields f [] m.
Proof. intros H s. rewrite H, app_nil_r. reflexivity. Qed.

End Quiet.

Section QuietStatements.

Context {X : Type} (f : event -> list X).

Lemma hides_set_item k v : hides f (set_item k v).
Proof. apply hides_unchanged. reflexivity. Qed.

Lemma hides_get_item k : hides f (get_item k).
Proof.
  apply hides_unchanged. intros s. unfold exec, get_item.
  destruct (info s !! k); reflexivity.
Qed.

Lemma hides_get_item_default k d : hides f (get_item_default k d).
Proof. apply hides_unchanged. reflexivity. Qed.

Lemma hides_append_item k v : hides f (append_item k v).
Proof.
  unfold append_item. apply hides_bind; [apply hides_get_item |].
  intros [| | | | | l |]; try apply hides_raise. apply hides_set_item.
Qed.

Lemma hides_get_total_storage : hides f get_total_storage.
Proof. apply hides_unchanged. reflexivity. Qed.

Lemma hides_set_total_storage n : hides f (set_total_storage n).
Proof. apply hides_unchanged. reflexivity. Qed.

Lemma hides_for_each {A} (l : list A) (body : A -> M unit) :
  (forall x, hides f (body x)) -> hides f (for_each l body).
Proof.
  intros Hb. induction l as [| x l IH]; cbn [for_each].
  - apply hides_ret.
  - apply hides_bind; [apply Hb | intros _; exact IH].
Qed.

Lemma yields_observe e : yields f (f e) (observe e).
Proof. intros s. cbn. rewrite flat_map_app. cbn. rewrite app_nil_r. reflexivity. Qed.

Lemma exec_all_yields (l : list (M unit)) (xss : list (list X)) :
  Forall2 (fun m xs => yields f xs m) l xss ->
  forall s, flat_map f (trace (exec_all l s)) = flat_map f (trace s) ++ concat xss.
Proof.
  induction 1 as [| m xs l xss Hm _ IH]; intros s.
  - cbn. rewrite app_nil_r. reflexivity.
  - cbn [exec_all fold_left concat]. fold (exec_all l (exec m s)).
    rewrite IH, Hm, <- app_assoc. reflexivity.
Qed.

End QuietStatements.

Ltac hides_step :=
  lazymatch goal with
  | |- hides _ (bind _ _) => apply hides_bind; [| intros ?]
  | |- hides _ (ret _) => apply hides_ret
  | |- hides _ (raise _) => apply hides_raise
  | |- hides _ (try_except _ _) => apply hides_try_except
  | |- hides _ (try_except_OSError _ _) => apply hides_try_except_OSError
  | |- hides _ (call _ _) => apply hides_call; reflexivity
  | |- hides _ (set_item _ _) => apply hides_set_item
  | |- hides _ (get_item _) => apply hides_get_item
  | |- hides _ (get_item_default _ _) => apply hides_get_item_default
  | |- hides _ (append_item _ _) => apply hides_append_item
  | |- hides _ get_total_storage => apply hides_get_total_storage
  | |- hides _ (set_total_storage _) => apply hides_set_total_storage
  | |- hides _ (for_each _ _) => apply hides_for_each; intros ?
  | |- hides _ (if ?b then _ else _) => destruct b
  | |- hides _ (match ?x with _ => _ end) => destruct x
  end.

Ltac hides_tac := repeat hides_step.

Ltac step_hides :=
  unfold collect_identity, collect_uptime, collect_motherboard,
    get_motherboard_info, collect_processor, collect_memory, collect_storage,
    scan_partition, collect_graphics, get_gpu_info, collect_network,
    scan_interface, collect_battery, collect_temperatures, collect_fans,
    collect_processes, collect_load_average, timedelta, percent_used, as_str,
    as_number;
  cbv zeta; hides_tac.

(** *** The waits of the processor step *)

Section Spends.

Context {A B : Type}.

Lemma spends_hides (m : M A) : hides wait_of m -> spends [] m.
Proof.
  intros H s. exists []. split.
  - unfold waits. rewrite H, app_nil_r. reflexivity.
  - destruct (fst (m s)); [reflexivity | exists []; reflexivity].
Qed.

Lemma spends_bind (m : M A) (k : A -> M B) ds :
  hides wait_of m -> (forall a, spends ds (k a)) -> spends ds (bind m k).
Proof.
  intros Hm Hk s. specialize (Hm s). unfold exec, bind in *.
  destruct (m s) as [[a | e] s']; cbn [snd fst] in *.
  - destruct (Hk a s') as (l & E & Hl). exists l. unfold waits in *.
    rewrite <- Hm. split; [exact E | exact Hl].
  - exists []. unfold waits. rewrite Hm, app_nil_r. split; [reflexivity |].
    exists ds. reflexivity.
Qed.

Lemma spends_call q (o : outcome A) (k : A -> M B) d ds :
  wait_of (called q) = [d] ->
  (forall a, spends ds (k a)) -> spends (d :: ds) (bind (call q o) k).
Proof.
  intros Hq Hk s. unfold exec, bind, call. cbn [snd fst].
  set (s' := {| info := info s; total_storage := total_storage s;
                trace := trace s ++ [called q] |}).
  assert (Hs' : waits (trace s') = waits (trace s) ++ [d]).
  { unfold waits, s'. cbn [trace]. rewrite flat_map_app. cbn [flat_map].
    rewrite Hq. reflexivity. }
  destruct o as [a | e]; cbn [snd fst].
  - destruct (Hk a s') as (l & E & Hl). exists (d :: l). split.
    + unfold exec in E. rewrite E, Hs', <- app_assoc. reflexivity.
    + destruct (fst (k a s')); [rewrite Hl; reflexivity |].
      destruct Hl as [rest ->]. exists rest. reflexivity.
  - exists [d]. split; [exact Hs' |]. exists ds. reflexivity.
Qed.

Lemma spends_try_except (body handler : M A) ds s :
  spends ds body -> hides wait_of handler ->
  exists l,
    l `prefix_of` ds /\
    waits (trace (exec (try_except body handler) s)) = waits (trace s) ++ l.
Proof.
  intros Hb Hh. specialize (Hb s). specialize (Hh (exec body s)).
  unfold exec, try_except in *.
  destruct (body s) as [[a | e] s']; cbn [snd fst] in *;
    destruct Hb as (l & E & Hl); exists l.
  - split; [rewrite Hl; reflexivity | exact E].
  - split; [exact Hl |]. unfold waits in *. rewrite Hh. exact E.
Qed.

End Spends.

Ltac spends_step :=
  first [ apply spends_hides; solve [hides_tac]
        | apply spends_bind; [solve [hides_tac] | intros ?]
        | apply spends_call; [reflexivity | intros ?] ].

(** The processor step waits for the two intervals in order, and for
    fewer only when it stops early. *)
Lemma collect_processor_waits has_cpuinfo h s :
  exists l,
    l `prefix_of` [1 # 10; 1 # 10] /\
    waits (trace (exec (collect_processor has_cpuinfo h) s)) = waits (trace s) ++ l.
Proof.
  unfold collect_processor. apply spends_try_except.
  - unfold as_str. repeat spends_step.
  - hides_tac.
Qed.

Lemma prefix_of_two {X} (l : list X) a b :
  l `prefix_of` [a; b] -> l = [] \/ l = [a] \/ l = [a; b].
Proof.
  intros [k E]. destruct l as [| x [| y [| z l]]]; cbn in E.
  - left. reflexivity.
  - right. left. congruence.
  - right. right. congruence.
  - discriminate E.
Qed.

(** Whatever the host answers, the [time.sleep] statements of a run are
    the same twelve, for the same durations in the same order, 3.6 seconds
    in all: no step calls [time.sleep], and no failure skips a pause. The
    other timed waits of a run are the intervals of the two [cpu_percent]
    queries of the processor step, after the fourth pause: both when the
    step reaches them, as on the healthy laptop, the first only or none
    when the step fails before, as where [get_cpu_info] raises. The timed
    waits of a run so add up to between 3.6 and 3.8 seconds. *)
Theorem run_pauses (h : Host) :
  sleeps (trace (snd (run h start))) = pauses /\
  (fold_right Qplus 0 (sleeps (trace (snd (run h start)))) == 36 # 10)%Q /\
  (exists l,
     l `prefix_of` [1 # 10; 1 # 10] /\
     waits (trace (snd (run h start))) = firstn 4 pauses ++ l ++ skipn 4 pauses /\
     (36 # 10 <= fold_right Qplus 0 (waits (trace (snd (run h start)))) <= 38 # 10)%Q) /\
  waits (trace (snd (run Sample.healthy start)))
  = firstn 4 pauses ++ [1 # 10; 1 # 10] ++ skipn 4 pauses /\
  waits (trace (snd (run Faulty.no_cpuinfo start))) = pauses.
Proof.
  assert (E : sleeps (trace (snd (run h start))) = pauses).
  { rewrite run_returns. cbn [snd trace]. unfold sleeps.
    rewrite flat_map_app. cbn [flat_map sleep_of]. rewrite app_nil_r.
    rewrite (exec_all_yields sleep_of (statements h)
               [ []; [3 # 10]; []; []; [2 # 10]; []; []; [4 # 10]; [];
                 []; [5 # 10]; []; []; [3 # 10]; []; []; [4 # 10]; [];
                 []; [3 # 10]; []; []; [3 # 10]; []; []; [2 # 10]; [];
                 []; [2 # 10]; []; []; []; [2 # 10]; []; [];
                 []; [3 # 10] ]).
    - reflexivity.
    - unfold statements.
      repeat (constructor;
              [first [ apply (yields_observe sleep_of)
                     | apply hides_yields; solve [step_hides] ] |]).
      constructor. }
  assert (W : exists l,
             l `prefix_of` [1 # 10; 1 # 10] /\
             waits (trace (snd (run h start)))
             = firstn 4 pauses ++ l ++ skipn 4 pauses).
  { rewrite run_returns. cbn [snd trace]. unfold waits.
    rewrite flat_map_app. cbn [flat_map wait_of]. rewrite app_nil_r.
    change (statements h)
      with (firstn 11 (statements h)
            ++ [collect_processor (HAS_CPUINFO h) (processor h)]
            ++ skipn 12 (statements h)).
    rewrite 2 exec_all_app.
    rewrite (exec_all_yields wait_of (skipn 12 (statements h))
               [ []; [3 # 10]; []; []; [4 # 10]; [];
                 []; [3 # 10]; []; []; [3 # 10]; []; []; [2 # 10]; [];
                 []; [2 # 10]; []; []; []; [2 # 10]; []; [];
                 []; [3 # 10] ]).
    2:{ unfold statements. cbn [skipn].
        repeat (constructor;
                [first [ apply (yields_observe wait_of)
                       | apply hides_yields; solve [step_hides] ] |]).
        constructor. }
    cbn [exec_all fold_left].
    destruct (collect_processor_waits (HAS_CPUINFO h) (processor h)
                (exec_all (firstn 11 (statements h)) start)) as (l & Hl & El).
    exists l. split; [exact Hl |]. unfold waits in El. rewrite El.
    rewrite (exec_all_yields wait_of (firstn 11 (statements h))
               [ []; [3 # 10]; []; []; [2 # 10]; []; []; [4 # 10]; [];
                 []; [5 # 10] ]).
    2:{ unfold statements. cbn [firstn].
        repeat (constructor;
                [first [ apply (yields_observe wait_of)
                       | apply hides_yields; solve [step_hides] ] |]).
        constructor. }
    cbn [start trace flat_map concat firstn skipn pauses app]. reflexivity. }
  split; [exact E |]. split; [rewrite E; reflexivity |]. split.
  - destruct W as (l & Hl & W). exists l. split; [exact Hl |]. split; [exact W |].
    rewrite W.
    destruct (prefix_of_two _ _ _ Hl) as [-> | [-> | ->]]; vm_compute;
      split; discriminate.
  - split; vm_compute; reflexivity.
Qed.
